(** * MaxAPI: the WebSocket client of src/max_api_fixed.py

    A shallow embedding of the class [MaxAPI]: the command dispatcher
    (sequence counter, pending-request table, demultiplexer), the
    session loops (initial connect, listener, reconnect with backoff,
    heartbeat) and the two media-resolution operations, followed by the
    properties of the specification that concern them.

    Conventions.  One Python statement sequence that runs without
    yielding (a segment of a coroutine between two [yield]s, or a
    critical part of a caller thread) is one function on [state].  What
    the environment decides (the outcome of a network call, the moment a
    waiter wakes up) is an argument of the function.  Time is a logical
    clock in milliseconds. *)

From Stdlib Require Import ZArith NArith String List Lia Bool.
From stdpp Require Import base option gmap strings list.

Local Open Scope string_scope.
Local Open Scope list_scope.
Local Open Scope Z_scope.
Local Set Warnings "-register-all".

(** ** Python values *)

(** What [json.loads] produces.  A float is kept as what this program can
    observe of it: the integer it is equal to, if there is one ([1.0] is
    [JFloat (Some 1)]; [0.5], [nan] and [inf] are [JFloat None]).  A dict
    is the list of its items, each key once. *)
Inductive json : Type :=
  | JNull
  | JBool (b : bool)
  | JInt (z : Z)
  | JFloat (integral : option Z)
  | JStr (s : string)
  | JList (l : list json)
  | JDict (items : list (string * json)).

Inductive exn : Type :=
  | ConnectionError
  | TimeoutError
  | RuntimeError
  | AttributeError
  | TypeError
  | KeyError
  | ValueError
  | JSONDecodeError
  | InvalidStateError
  | WebSocketClosedError
  | IndexError
  | HTTPError
  | RequestException.

(** A call either returns or raises. *)
Inductive outcome (A : Type) : Type :=
  | Ret (a : A)
  | Raise (e : exn).
Arguments Ret {A} a.
Arguments Raise {A} e.

Fixpoint assoc (k : string) (items : list (string * json)) : option json :=
  match items with
  | [] => None
  | (k', v) :: rest => if String.eqb k k' then Some v else assoc k rest
  end.

(** [d.get(k)]: only a dict has the method; a missing key gives [None]. *)
Definition py_get (d : json) (k : string) : outcome json :=
  match d with
  | JDict items => Ret (default JNull (assoc k items))
  | _ => Raise AttributeError
  end.

Definition bool_to_Z (b : bool) : Z := if b then 1 else 0.

(** [v == n] for an int literal [n], as a [case n:] pattern tests it:
    [True == 1] and [1.0 == 1] hold in Python. *)
Definition py_eq_int (v : json) (n : Z) : bool :=
  match v with
  | JInt z => z =? n
  | JBool b => bool_to_Z b =? n
  | JFloat (Some z) => z =? n
  | _ => false
  end.

(** Looking a value up in a dict whose keys are all ints: lists and dicts
    are unhashable ([TypeError]); ints, bools and integral floats hash and
    compare like the int they equal; nothing else equals an int. *)
Inductive key_class : Type :=
  | Unhashable
  | NoIntKey
  | IntKey (k : Z).

Definition py_key (v : json) : key_class :=
  match v with
  | JInt z => IntKey z
  | JBool b => IntKey (bool_to_Z b)
  | JFloat (Some z) => IntKey z
  | JFloat None | JNull | JStr _ => NoIntKey
  | JList _ | JDict _ => Unhashable
  end.

(** Truth value of a decoded JSON value ([if not url]). *)
Definition truthy (v : json) : bool :=
  match v with
  | JNull => false
  | JBool b => b
  | JInt z => negb (z =? 0)
  | JFloat (Some z) => negb (z =? 0)
  | JFloat None => true
  | JStr s => negb (String.eqb s "")
  | JList l => match l with [] => false | _ => true end
  | JDict l => match l with [] => false | _ => true end
  end.

(** [a or b] *)
Definition py_or (a b : json) : json := if truthy a then a else b.

#[global] Instance outcome_bind : MBind outcome :=
  λ A B f m, match m with Ret a => f a | Raise e => Raise e end.

(** [d.get(k, dflt)] *)
Definition py_get_default (d : json) (k : string) (dflt : json) : outcome json :=
  match d with
  | JDict items => Ret (default dflt (assoc k items))
  | _ => Raise AttributeError
  end.

(** [v[k]] for a string [k] *)
Definition py_getitem (v : json) (k : string) : outcome json :=
  match v with
  | JDict items =>
    match assoc k items with
    | Some x => Ret x
    | None => Raise KeyError
    end
  | _ => Raise TypeError
  end.

(** [v[0]] *)
Definition py_getitem0 (v : json) : outcome json :=
  match v with
  | JList (x :: _) => Ret x
  | JList [] => Raise IndexError
  | JStr (String c _) => Ret (JStr (String c EmptyString))
  | JStr EmptyString => Raise IndexError
  | JDict _ => Raise KeyError
  | _ => Raise TypeError
  end.

(** The items a [for] loop over [v] visits. *)
Definition py_iter (v : json) : outcome (list json) :=
  match v with
  | JList l => Ret l
  | JDict items => Ret (map (λ kv, JStr (fst kv)) items)
  | JStr s => Ret (map (λ c, JStr (String c EmptyString)) (list_ascii_of_string s))
  | _ => Raise TypeError
  end.

(** ** The client object *)

(** [OPCODE_MAP] *)
Module OPCODE_MAP.
Definition HEARTBEAT : Z := 1.
Definition HANDSHAKE : Z := 6.
Definition SEND_VERIFY_CODE : Z := 17.
Definition CHECK_VERIFY_CODE : Z := 18.
Definition AUTHENTICATE : Z := 19.
Definition AUTH_CONFIRM : Z := 20.
Definition GET_CONTACT_DETAILS : Z := 32.
Definition FIND_BY_PHONE_NUMBER : Z := 46.
Definition GET_HISTORY : Z := 49.
Definition MARK_AS_READ : Z := 50.
Definition SEND_MESSAGE : Z := 64.
Definition SUBSCRIBE_TO_CHAT : Z := 75.
End OPCODE_MAP.

(** An entry of [pending_responses].  [send_command] stores
    [{"event": event, "response": None, "opcode": opcode}]: the entry
    carries the flag of its [threading.Event] and the response slot.
    [send_command_async] stores [{"future": future, "opcode": opcode}]:
    the future is named by an integer. *)
Inductive pending : Type :=
  | EventEntry (event_set : bool) (response : json) (opcode : Z)
  | FutureEntry (future : Z) (opcode : Z).

Definition entry_opcode (p : pending) : Z :=
  match p with
  | EventEntry _ _ op => op
  | FutureEntry _ op => op
  end.

Inductive level : Type := DEBUG | INFO | WARNING | ERROR.

(** Work handed to the I/O loop with [ioloop.add_callback]. *)
Inductive callback : Type :=
  | CbWrite (frame : json)
  | CbConnectAndRun
  | CbListener
  | CbShutdown.

(** The events of an execution, in order: log lines, events handed to
    the handler ([run_in_executor]), callbacks queued on the I/O loop,
    frames written to the socket, and the client's own use of the
    sequence counter ([next(self.seq_counter)] returned [n]) and of the
    table ([self.pending_responses[seq_id] = {...}]). *)
Inductive effect : Type :=
  | Log (lvl : level) (text : string) (data : json)
  | Submit (data : json)
  | Schedule (cb : callback)
  | Wrote (frame : json)
  | Drew (n : Z)
  | Registered (seq_id : Z).

Inductive websocket : Type := WsOpen | WsClosed.

(** [tornado.ioloop.PeriodicCallback(callback, interval)] *)
Record periodic : Type := mkPeriodic {
  interval_ms : Z;
  running : bool
}.

Record state : Type := mkState {
  is_running : bool;
  _should_reconnect : bool;
  auto_reconnect : bool;
  token : option string;
  on_event : bool;
  ws : option websocket;
  ioloop : bool;
  heartbeat_callback : option periodic;
  seq_counter : Z;
  pending_responses : gmap Z pending;
  futures : gmap Z json;
  subscribed_chats : list Z;
  trace : list effect
}.

(** Field updates ([self.x = v]). *)
Definition set_is_running (b : bool) (s : state) : state :=
  mkState b (_should_reconnect s) (auto_reconnect s) (token s) (on_event s)
    (ws s) (ioloop s) (heartbeat_callback s) (seq_counter s)
    (pending_responses s) (futures s) (subscribed_chats s) (trace s).

Definition set_should_reconnect (b : bool) (s : state) : state :=
  mkState (is_running s) b (auto_reconnect s) (token s) (on_event s)
    (ws s) (ioloop s) (heartbeat_callback s) (seq_counter s)
    (pending_responses s) (futures s) (subscribed_chats s) (trace s).

Definition set_ws (w : option websocket) (s : state) : state :=
  mkState (is_running s) (_should_reconnect s) (auto_reconnect s) (token s)
    (on_event s) w (ioloop s) (heartbeat_callback s) (seq_counter s)
    (pending_responses s) (futures s) (subscribed_chats s) (trace s).

Definition set_ioloop (b : bool) (s : state) : state :=
  mkState (is_running s) (_should_reconnect s) (auto_reconnect s) (token s)
    (on_event s) (ws s) b (heartbeat_callback s) (seq_counter s)
    (pending_responses s) (futures s) (subscribed_chats s) (trace s).

Definition set_heartbeat_callback (h : option periodic) (s : state) : state :=
  mkState (is_running s) (_should_reconnect s) (auto_reconnect s) (token s)
    (on_event s) (ws s) (ioloop s) h (seq_counter s)
    (pending_responses s) (futures s) (subscribed_chats s) (trace s).

Definition set_seq_counter (n : Z) (s : state) : state :=
  mkState (is_running s) (_should_reconnect s) (auto_reconnect s) (token s)
    (on_event s) (ws s) (ioloop s) (heartbeat_callback s) n
    (pending_responses s) (futures s) (subscribed_chats s) (trace s).

Definition set_pending_responses (t : gmap Z pending) (s : state) : state :=
  mkState (is_running s) (_should_reconnect s) (auto_reconnect s) (token s)
    (on_event s) (ws s) (ioloop s) (heartbeat_callback s) (seq_counter s)
    t (futures s) (subscribed_chats s) (trace s).

Definition set_futures (f : gmap Z json) (s : state) : state :=
  mkState (is_running s) (_should_reconnect s) (auto_reconnect s) (token s)
    (on_event s) (ws s) (ioloop s) (heartbeat_callback s) (seq_counter s)
    (pending_responses s) f (subscribed_chats s) (trace s).

Definition set_subscribed_chats (c : list Z) (s : state) : state :=
  mkState (is_running s) (_should_reconnect s) (auto_reconnect s) (token s)
    (on_event s) (ws s) (ioloop s) (heartbeat_callback s) (seq_counter s)
    (pending_responses s) (futures s) c (trace s).

Definition emit (e : effect) (s : state) : state :=
  mkState (is_running s) (_should_reconnect s) (auto_reconnect s) (token s)
    (on_event s) (ws s) (ioloop s) (heartbeat_callback s) (seq_counter s)
    (pending_responses s) (futures s) (subscribed_chats s) (trace s ++ [e]).

(** ** Command dispatcher *)

(** [future.set_result(data)]: a future takes one result; a second one
    raises [InvalidStateError]. *)
Definition set_result (fut : Z) (data : json) (s : state) : state * outcome unit :=
  match futures s !! fut with
  | Some _ => (s, Raise InvalidStateError)
  | None => (set_futures (<[fut := data]> (futures s)) s, Ret tt)
  end.

(** The body of the [try] of [_process_message].  [message] is the frame
    with what [json.loads] makes of it ([None]: it raises). *)
Definition process_message_body (s : state) (message : option json)
  : state * outcome unit :=
  match message with
  | None => (s, Raise JSONDecodeError)
  | Some data =>
    match py_get data "cmd" with
    | Raise e => (s, Raise e)
    | Ret cmd =>
      if py_eq_int cmd 1 then
        match py_get data "seq" with
        | Raise e => (s, Raise e)
        | Ret seq_id =>
          match py_key seq_id with
          | Unhashable => (s, Raise TypeError)
          | NoIntKey => (s, Ret tt)
          | IntKey k =>
            match pending_responses s !! k with
            | None => (s, Ret tt)
            | Some pending_request =>
              let original_opcode := entry_opcode pending_request in
              let s1 :=
                if original_opcode =? OPCODE_MAP.HEARTBEAT then s
                else emit (Log DEBUG "API Response" data) s in
              match pending_request with
              | EventEntry _ _ opcode =>
                (set_pending_responses
                   (<[k := EventEntry true data opcode]> (pending_responses s1)) s1,
                 Ret tt)
              | FutureEntry fut _ =>
                set_result fut data
                  (set_pending_responses (delete k (pending_responses s1)) s1)
              end
            end
          end
        end
      else if py_eq_int cmd 0 then
        if on_event s then
          if ioloop s then (emit (Submit data) s, Ret tt)
          else (s, Raise AttributeError)
        else (s, Ret tt)
      else if py_eq_int cmd 3 then
        (emit (Log ERROR "Received API error" data) s, Ret tt)
      else
        (emit (Log DEBUG "Received unexpected API response" data) s, Ret tt)
    end
  end.

(** [_process_message]: whatever the body raises is logged. *)
Definition _process_message (s : state) (message : option json) : state :=
  match process_message_body s message with
  | (s', Ret _) => s'
  | (s', Raise _) => emit (Log ERROR "Error processing message" JNull) s'
  end.

Definition mk_command (seq_id opcode : Z) (payload : json) : json :=
  JDict [("ver", JInt 11); ("cmd", JInt 0); ("seq", JInt seq_id);
         ("opcode", JInt opcode); ("payload", payload)].

(** [next(self.seq_counter)], with [seq_counter = itertools.count()]. *)
Definition next_seq (s : state) : Z * state :=
  (seq_counter s,
   emit (Drew (seq_counter s)) (set_seq_counter (seq_counter s + 1) s)).

(** [self.pending_responses[seq_id] = entry] *)
Definition register (seq_id : Z) (entry : pending) (s : state) : state :=
  emit (Registered seq_id)
    (set_pending_responses (<[seq_id := entry]> (pending_responses s)) s).

(** [self.ioloop.add_callback(self.ws.write_message, frame)]: the write is
    only queued; looking up either attribute on [None] raises. *)
Definition add_write_callback (frame : json) (s : state) : state * outcome unit :=
  if negb (ioloop s) then (s, Raise AttributeError)
  else match ws s with
       | None => (s, Raise AttributeError)
       | Some _ => (emit (Schedule (CbWrite frame)) s, Ret tt)
       end.

(** [self.ws.write_message(frame)] called in place. *)
Definition ws_write_message (frame : json) (s : state) : state * outcome unit :=
  match ws s with
  | None => (s, Raise AttributeError)
  | Some WsClosed => (s, Raise WebSocketClosedError)
  | Some WsOpen => (emit (Wrote frame) s, Ret tt)
  end.

(** Where a call of [send_command] stands when it stops running: it has
    returned, it has raised, or it blocks in [event.wait(timeout)]. *)
Inductive send_phase : Type :=
  | Returned (v : json)
  | Waiting (seq_id : Z)
  | Raised (e : exn).

(** [send_command] up to [event.wait]. *)
Definition send_command_begin (s : state) (opcode : Z) (payload : json)
    (wait_for_response : bool) : state * send_phase :=
  if negb (is_running s) then (s, Raised ConnectionError)
  else
    let (seq_id, s1) := next_seq s in
    let command := mk_command seq_id opcode payload in
    if negb wait_for_response then
      match add_write_callback command s1 with
      | (s2, Raise e) => (s2, Raised e)
      | (s2, Ret _) => (s2, Returned JNull)
      end
    else
      let s2 := register seq_id (EventEntry false JNull opcode) s1 in
      match add_write_callback command s2 with
      | (s3, Raise e) => (s3, Raised e)
      | (s3, Ret _) => (s3, Waiting seq_id)
      end.

Definition entry_response (p : pending) : json :=
  match p with
  | EventEntry _ response _ => response
  | FutureEntry _ _ => JNull
  end.

(** [send_command] from the return of [event.wait(timeout)], whose value
    is [is_set]. *)
Definition send_command_wake (s : state) (seq_id : Z) (is_set : bool)
  : state * outcome json :=
  let pending_request := pending_responses s !! seq_id in
  let s1 := set_pending_responses (delete seq_id (pending_responses s)) s in
  if negb is_set then (s1, Raise TimeoutError)
  else match pending_request with
       | None => (s1, Raise RuntimeError)
       | Some p => (s1, Ret (entry_response p))
       end.

(** The flag of the event a waiter on [seq_id] sleeps on: the one kept in
    its entry. *)
Definition event_is_set (s : state) (seq_id : Z) : bool :=
  match pending_responses s !! seq_id with
  | Some (EventEntry b _ _) => b
  | _ => false
  end.

Inductive async_phase : Type :=
  | Awaiting (seq_id : Z)
  | AsyncRaised (e : exn).

(** [send_command_async] up to [with_timeout].  The new future is named
    after the request.  An exception of the write, or of
    [self.ioloop.time()] on a loop that is [None], is no
    [gen.TimeoutError]: it leaves the coroutine with the entry in place. *)
Definition send_command_async_begin (s : state) (opcode : Z) (payload : json)
  : state * async_phase :=
  if negb (is_running s) then (s, AsyncRaised ConnectionError)
  else
    let (seq_id, s1) := next_seq s in
    let command := mk_command seq_id opcode payload in
    let future := seq_id in
    let s2 := register seq_id (FutureEntry future opcode) s1 in
    match ws_write_message command s2 with
    | (s3, Raise e) => (s3, AsyncRaised e)
    | (s3, Ret _) =>
      if ioloop s3 then (s3, Awaiting seq_id)
      else (s3, AsyncRaised AttributeError)
    end.

(** [send_command_async] when [with_timeout] resumes it: with the result
    of the future, or, the future still empty at the deadline, with
    [gen.TimeoutError]. *)
Definition send_command_async_resume (s : state) (seq_id : Z)
  : state * outcome json :=
  match futures s !! seq_id with
  | Some response => (s, Ret response)
  | None =>
    (set_pending_responses (delete seq_id (pending_responses s)) s,
     Raise TimeoutError)
  end.

(** ** Heartbeat and session teardown *)

Definition heartbeat_frame (seq_id : Z) : json :=
  mk_command seq_id OPCODE_MAP.HEARTBEAT (JDict [("interactive", JBool false)]).

(** [_send_heartbeat].  The [try] holds one statement,
    [self.ioloop.add_callback(self.ws.write_message, json.dumps({...}))]:
    the two attribute lookups come first (on [None] they raise
    [AttributeError], caught by [except Exception]), then
    [next(self.seq_counter)], then the frame is queued.
    [write_message] itself is not called here, so nothing in the [try]
    raises [WebSocketClosedError]. *)
Definition _send_heartbeat (s : state) : state :=
  if negb (is_running s) then s
  else
    let on_exception (s : state) :=
      if is_running s then
        set_is_running false (emit (Log ERROR "Heartbeat failed with error" JNull) s)
      else s in
    if negb (ioloop s) then on_exception s
    else match ws s with
         | None => on_exception s
         | Some _ =>
           let (seq_id, s1) := next_seq s in
           emit (Schedule (CbWrite (heartbeat_frame seq_id))) s1
         end.

(** The I/O loop runs a queued [write_message].  [sock] is the state, at
    that moment, of the connection the callback was bound to.  Tornado
    logs an exception that escapes a callback and goes on. *)
Definition run_write_callback (s : state) (sock : websocket) (frame : json) : state :=
  match sock with
  | WsOpen => emit (Wrote frame) s
  | WsClosed => emit (Log ERROR "Exception in callback" JNull) s
  end.

Definition stop_heartbeat (s : state) : state :=
  match heartbeat_callback s with
  | Some h => set_heartbeat_callback (Some (mkPeriodic (interval_ms h) false)) s
  | None => s
  end.

Definition start_heartbeat (s : state) : state :=
  match heartbeat_callback s with
  | Some h => set_heartbeat_callback (Some (mkPeriodic (interval_ms h) true)) s
  | None => s
  end.

Definition close_ws (s : state) : state :=
  match ws s with
  | Some _ => set_ws (Some WsClosed) s
  | None => s
  end.

(** [close], as the calling thread runs it. *)
Definition close (s : state) : state :=
  if negb (is_running s) && negb (ioloop s) then s
  else
    let s1 := emit (Log INFO "Closing connection..." JNull) s in
    let s2 := set_is_running false (set_should_reconnect false s1) in
    let s3 := if ioloop s2 then emit (Schedule CbShutdown) s2 else s2 in
    emit (Log INFO "Connection closed." JNull) (set_ioloop false s3).

(** [_shutdown_async] *)
Definition _shutdown_async (s : state) : state := close_ws (stop_heartbeat s).

(** [subscribe_to_chat] after its [send_command] has returned.  A member
    of [subscribed_chats] is [str(chat_id)]; it is kept here as the
    integer [int(chat_id)], which the method computed first. *)
Definition subscribe_to_chat_end (s : state) (chat_id : Z) (subscribe : bool) : state :=
  let status := if subscribe then "Subscribed to" else "Unsubscribed from" in
  let s1 := emit (Log INFO status (JInt chat_id)) s in
  if subscribe then
    if bool_decide (chat_id ∈ subscribed_chats s1) then s1
    else set_subscribed_chats (subscribed_chats s1 ++ [chat_id]) s1
  else
    set_subscribed_chats (filter (λ c, c ≠ chat_id) (subscribed_chats s1)) s1.

(** ** Interleaving *)

(** The pieces of work that the caller threads and the I/O loop run one
    at a time on the shared object. *)
Inductive op : Type :=
  | OpSend (opcode : Z) (payload : json) (wait_for_response : bool)
  | OpWake (seq_id : Z)
  | OpSendAsync (opcode : Z) (payload : json)
  | OpAsyncResume (seq_id : Z)
  | OpMessage (message : option json)
  | OpHeartbeat
  | OpRunWrite (sock : websocket) (frame : json)
  | OpSubscribed (chat_id : Z) (subscribe : bool)
  | OpClose
  | OpShutdown.

Definition step (s : state) (o : op) : state :=
  match o with
  | OpSend opcode payload w => fst (send_command_begin s opcode payload w)
  | OpWake seq_id => fst (send_command_wake s seq_id (event_is_set s seq_id))
  | OpSendAsync opcode payload => fst (send_command_async_begin s opcode payload)
  | OpAsyncResume seq_id => fst (send_command_async_resume s seq_id)
  | OpMessage message => _process_message s message
  | OpHeartbeat => _send_heartbeat s
  | OpRunWrite sock frame => run_write_callback s sock frame
  | OpSubscribed chat_id subscribe => subscribe_to_chat_end s chat_id subscribe
  | OpClose => close s
  | OpShutdown => _shutdown_async s
  end.

(** What runs while a coroutine is suspended at a [yield]. *)
Definition run (s : state) (ops : list op) : state := foldl step s ops.

(** [yield self.send_command_async(opcode, payload)] from another
    coroutine, [during] being what runs before it is resumed. *)
Definition send_command_async (s : state) (opcode : Z) (payload : json)
    (during : list op) : state * outcome json :=
  match send_command_async_begin s opcode payload with
  | (s1, AsyncRaised e) => (s1, Raise e)
  | (s1, Awaiting seq_id) => send_command_async_resume (run s1 during) seq_id
  end.

(** ** Session: handshake, authentication, connect and reconnect *)

Definition token_truthy (s : state) : bool :=
  match token s with
  | Some t => negb (String.eqb t "")
  | None => false
  end.

Definition user_agent : json :=
  JDict [("deviceType", JStr "WEB"); ("locale", JStr "ru");
         ("deviceLocale", JStr "ru"); ("osVersion", JStr "Windows");
         ("deviceName", JStr "Firefox");
         ("headerUserAgent",
          JStr "Mozilla/5.0 (Windows NT 10.0; Win64; x64; rv:141.0) Gecko/20100101 Firefox/141.0");
         ("appVersion", JStr "25.7.13"); ("screen", JStr "1080x1920 1.0x");
         ("timezone", JStr "Asia/Novosibirsk")].

(** [_handshake_async] *)
Definition _handshake_async (s : state) (during : list op) : state * outcome unit :=
  let s0 := emit (Log INFO "Performing handshake..." JNull) s in
  let payload := JDict [("userAgent", user_agent); ("deviceId", JStr "asd")] in
  match send_command_async s0 OPCODE_MAP.HANDSHAKE payload during with
  | (s1, Raise e) => (s1, Raise e)
  | (s1, Ret _) => (emit (Log INFO "Handshake successful." JNull) s1, Ret tt)
  end.

(** The chat loop of [_authenticate_async]: [item.get('id')], then
    [del new_item['id']] on a copy. *)
Fixpoint read_chats (items : list json) : outcome unit :=
  match items with
  | [] => Ret tt
  | item :: rest =>
    match item with
    | JDict kv =>
      match assoc "id" kv with
      | Some _ => read_chats rest
      | None => Raise KeyError
      end
    | _ => Raise AttributeError
    end
  end.

(** What [_authenticate_async] does with the response (it fills
    [self.user] and [self.chats], which no operation below reads). *)
Definition read_auth_response (response : json) : outcome unit :=
  response_payload ← py_get_default response "payload" (JDict []);
  error ← py_get response_payload "error";
  if truthy error then Raise ValueError
  else
    profile ← py_getitem response_payload "profile";
    contact ← py_getitem profile "contact";
    names ← py_getitem contact "names";
    first ← py_getitem0 names;
    _ ← py_getitem first "name";
    match response_payload with
    | JDict items =>
      match assoc "chats" items with
      | Some chats => l ← py_iter chats; read_chats l
      | None => Ret tt
      end
    | _ => Ret tt
    end.

Definition auth_payload (s : state) : json :=
  JDict [("interactive", JBool true);
         ("token", match token s with Some t => JStr t | None => JNull end);
         ("chatsSync", JInt 0); ("contactsSync", JInt 0);
         ("presenceSync", JInt 0); ("draftsSync", JInt 0);
         ("chatsCount", JInt 50)].

(** [_authenticate_async] *)
Definition _authenticate_async (s : state) (during : list op) : state * outcome unit :=
  let s0 := emit (Log INFO "Authenticating..." JNull) s in
  if negb (token_truthy s0) then
    (emit (Log ERROR "Authentication failed: No token available." JNull) s0, Ret tt)
  else
    match send_command_async s0 OPCODE_MAP.AUTHENTICATE (auth_payload s0) during with
    | (s1, Raise e) => (s1, Raise e)
    | (s1, Ret response) =>
      match read_auth_response response with
      | Raise e => (s1, Raise e)
      | Ret _ => (emit (Log INFO "Authentication successful." JNull) s1, Ret tt)
      end
    end.

(** What the environment does during one connection attempt: what runs
    at each [yield], whether [websocket_connect] returns a connection or
    raises, and how long the attempt takes from its first statement to
    its last (milliseconds).  [during_sleep] is what runs during the sleep
    that goes with the attempt: before it in [_reconnect_async], after its
    failure in [_connect_and_run]. *)
Record attempt_env : Type := mkAttempt {
  during_sleep : list op;
  during_connect : list op;
  connect_raises : option exn;
  during_handshake : list op;
  during_authenticate : list op;
  during_resubscribe : list (list op);
  took : N
}.

(** The statements the two loops share: connect, start a listener,
    handshake, authenticate when there is a token.  The texts are those
    of the log lines, which differ between the two loops. *)
Definition establish (s : state) (env : attempt_env)
    (connected authenticated : string) (no_token : option string)
  : state * outcome unit :=
  let s1 := run s (during_connect env) in
  match connect_raises env with
  | Some e => (s1, Raise e)
  | None =>
    let s2 := set_is_running true (set_ws (Some WsOpen) s1) in
    let s3 := emit (Log INFO connected JNull) s2 in
    if negb (ioloop s3) then (s3, Raise AttributeError)
    else
      let s4 := emit (Schedule CbListener) s3 in
      match _handshake_async s4 (during_handshake env) with
      | (s5, Raise e) => (s5, Raise e)
      | (s5, Ret _) =>
        if token_truthy s5 then
          match _authenticate_async s5 (during_authenticate env) with
          | (s6, Raise e) => (s6, Raise e)
          | (s6, Ret _) => (emit (Log INFO authenticated JNull) s6, Ret tt)
          end
        else
          match no_token with
          | Some text => (emit (Log INFO text JNull) s5, Ret tt)
          | None => (s5, Ret tt)
          end
      end
  end.

(** The [try] of [_connect_and_run], up to [ready_event.set()]. *)
Definition connect_attempt (s : state) (env : attempt_env) : state * outcome unit :=
  match establish (emit (Log INFO "Connecting..." JNull) s) env
          "Connected to WebSocket." "API is online and ready."
          (Some "API is connected. Please authenticate using verification code methods.")
  with
  | (s1, Raise e) => (s1, Raise e)
  | (s1, Ret _) => (set_heartbeat_callback (Some (mkPeriodic 3000 true)) s1, Ret tt)
  end.

Inductive connect_end : Type :=
  | ReadyAt (t : N)
  | NeverReady
  | Unfinished (now : N).

(** [_connect_and_run], started at time [now]: the time at which
    [ready_event] is set.  [NeverReady]: the loop ended on
    [_should_reconnect] being false.  [Unfinished now]: the attempts that
    [envs] describes are over at time [now] and all failed. *)
Fixpoint _connect_and_run (envs : list attempt_env) (now : N) (s : state)
  : state * connect_end :=
  if _should_reconnect s then
    match envs with
    | [] => (s, Unfinished now)
    | env :: rest =>
      match connect_attempt s env with
      | (s1, Ret _) => (s1, ReadyAt (now + took env))
      | (s1, Raise _) =>
        let s2 := emit (Log WARNING "Connection failed. Retrying in 5 seconds..." JNull) s1 in
        _connect_and_run rest (now + took env + 5000) (run s2 (during_sleep env))
      end
    end
  else (s, NeverReady).

(** [self.subscribed_chats] replayed: a failure is logged and the loop
    goes on. *)
Fixpoint resubscribe (s : state) (chats : list Z) (during : list (list op)) : state :=
  match chats with
  | [] => s
  | chat_id :: rest =>
    let payload := JDict [("chatId", JInt chat_id); ("subscribe", JBool true)] in
    let s1 :=
      match send_command_async s OPCODE_MAP.SUBSCRIBE_TO_CHAT payload (hd [] during) with
      | (s1, Ret _) => emit (Log INFO "Resubscribed to chat" (JInt chat_id)) s1
      | (s1, Raise _) => emit (Log WARNING "Failed to resubscribe to chat" (JInt chat_id)) s1
      end in
    resubscribe s1 rest (tl during)
  end.

(** The [try] of the loop of [_reconnect_async]. *)
Definition reconnect_attempt (s : state) (reconnect_delay : Z) (env : attempt_env)
  : state * outcome unit :=
  match establish (emit (Log INFO "Reconnecting" (JInt reconnect_delay)) s) env
          "Reconnected to WebSocket." "Re-authenticated successfully." None with
  | (s1, Raise e) => (s1, Raise e)
  | (s1, Ret _) =>
    let s2 := start_heartbeat s1 in
    let s3 := resubscribe s2 (subscribed_chats s2) (during_resubscribe env) in
    (emit (Log INFO "Reconnection complete." JNull) s3, Ret tt)
  end.

Definition max_delay : Z := 60.

Inductive loop_end : Type :=
  | Reconnected
  | GaveUp
  | StillRetrying.

Record reconnect_result : Type := mkReconnect {
  final_state : state;
  slept : list Z;
  final_delay : Z;
  ended : loop_end
}.

(** The loop of [_reconnect_async]: [slept] collects the arguments of
    [tornado.gen.sleep], in seconds.  [StillRetrying]: every attempt that
    [envs] describes failed and the loop is about to sleep again. *)
Fixpoint reconnect_loop (envs : list attempt_env) (reconnect_delay : Z)
    (s : state) (slept : list Z) : reconnect_result :=
  if _should_reconnect s && auto_reconnect s then
    match envs with
    | [] => mkReconnect s slept reconnect_delay StillRetrying
    | env :: rest =>
      let s1 := run s (during_sleep env) in
      match reconnect_attempt s1 reconnect_delay env with
      | (s2, Ret _) => mkReconnect s2 (slept ++ [reconnect_delay]) 2 Reconnected
      | (s2, Raise _) =>
        reconnect_loop rest (Z.min (reconnect_delay * 2) max_delay)
          (emit (Log ERROR "Reconnection failed" JNull) s2)
          (slept ++ [reconnect_delay])
      end
    end
  else mkReconnect s slept reconnect_delay GaveUp.

(** [_reconnect_async] *)
Definition _reconnect_async (s : state) (envs : list attempt_env) : reconnect_result :=
  let s1 := close_ws (stop_heartbeat (set_is_running false s)) in
  reconnect_loop envs 2 s1 [].

(** What [self.ws.read_message()] gives the listener: a frame (with what
    [json.loads] makes of it), [None] on a closed connection, or an
    exception. *)
Inductive read_result : Type :=
  | ReadFrame (message : option json)
  | ReadNone
  | ReadClosedError
  | ReadError.

Inductive listener_next : Type :=
  | ListenerContinues
  | ListenerReconnects
  | ListenerExits.

(** One turn of the loop of [_listener_loop_async], from the return of
    [read_message]. *)
Definition listener_turn (s : state) (r : read_result) : state * listener_next :=
  let may_reconnect := _should_reconnect s && auto_reconnect s in
  match r with
  | ReadFrame message => (_process_message s message, ListenerContinues)
  | ReadNone =>
    if may_reconnect then
      (emit (Log WARNING "Connection closed by server. Attempting to reconnect..." JNull) s,
       ListenerReconnects)
    else (s, ListenerExits)
  | ReadClosedError =>
    if may_reconnect then
      (emit (Log WARNING "Listener loop terminated: WebSocket closed by server. Reconnecting..." JNull) s,
       ListenerReconnects)
    else (s, ListenerExits)
  | ReadError =>
    if may_reconnect then
      (emit (Log ERROR "An error occurred in the listener loop" JNull) s,
       ListenerReconnects)
    else (s, ListenerExits)
  end.

Record listener_result : Type := mkListener {
  listener_state : state;
  reconnects : option reconnect_result
}.

(** [_listener_loop_async]: [reads] gives, turn by turn, what runs while
    the listener waits and what the read returns; [envs] is the
    environment of the reconnect it may start. *)
Fixpoint _listener_loop_async (reads : list (list op * read_result))
    (envs : list attempt_env) (s : state) : listener_result :=
  if is_running s then
    match reads with
    | [] => mkListener s None
    | (during, r) :: rest =>
      match listener_turn (run s during) r with
      | (s1, ListenerContinues) => _listener_loop_async rest envs s1
      | (s1, ListenerReconnects) =>
        let res := _reconnect_async s1 envs in
        mkListener (final_state res) (Some res)
      | (s1, ListenerExits) => mkListener s1 None
      end
    end
  else mkListener s None.

(** ** Construction *)

Inductive init_result : Type :=
  | Constructed (s : state)
  | Aborted (e : exn).

(** [threading.Event.wait(timeout)] on an event that gets set at time
    [set_at] after the call ([None]: never): the value returned and the
    time the caller was blocked. *)
Definition event_wait (set_at : option N) (timeout : N) : bool * N :=
  match set_at with
  | Some t => if (t <=? timeout)%N then (true, t) else (false, timeout)
  | None => (false, timeout)
  end.

Definition startup_timeout : N := 20000.

(** The object as [__init__] has it once [_start_ioloop] has returned. *)
Definition created (auth_token : option string) (on_event : option bool)
    (auto_reconnect : bool) : state :=
  emit (Schedule CbConnectAndRun)
    (set_ioloop true
       (mkState false true auto_reconnect auth_token (default true on_event)
          None false None 0 ∅ ∅ [] [])).

Record init_outcome : Type := mkInit {
  result : init_result;
  waited : N;
  teardown : N
}.

(** [ioloop_thread.join(timeout=5)] in [close]: [stops_after] is the time
    the loop thread takes to end once [_shutdown_async] is queued. *)
Definition join_timeout : N := 5000.

(** [__init__(auth_token, on_event, auto_reconnect)].  [on_event] is
    [None] for an argument that is not callable, else the truth value of
    the callable.  The outcome tells the time spent in
    [ready_event.wait(timeout=20)] and, on the failing path, the time
    spent in [close] before [TimeoutError] is raised; it is [None] when
    [envs] stops, all attempts failed, before the 20 seconds are over.
    On the failing path no caller gets the object, so the outcome keeps
    the exception only. *)
Definition __init__ (auth_token : option string) (on_event : option bool)
    (auto_reconnect : bool) (envs : list attempt_env) (stops_after : N)
  : option init_outcome :=
  let s1 := created auth_token on_event auto_reconnect in
  let finish (s : state) (set_at : option N) :=
    let (is_ready, waited) := event_wait set_at startup_timeout in
    if is_ready then Some (mkInit (Constructed s) waited 0)
    else Some (mkInit (Aborted TimeoutError) waited (N.min stops_after join_timeout)) in
  match _connect_and_run envs 0 s1 with
  | (s2, ReadyAt t) => finish s2 (Some t)
  | (s2, NeverReady) => finish s2 None
  | (s2, Unfinished now) =>
    if (startup_timeout <? now)%N then finish s2 None else None
  end.

(** ** Blocking send as a whole, and media resolution *)

(** [timeout: int = 10], in milliseconds. *)
Definition default_timeout : N := 10000.

(** [event.wait(timeout)] of a blocking send on [seq_id].  [during] lists
    what runs meanwhile, each piece with the time, counted from the call,
    at which it runs.  The wait is over when the event is set or when
    [timeout] has elapsed: the state then, whether the event is set, and
    the time the caller was blocked. *)
Fixpoint wait_for_event (s : state) (seq_id : Z) (timeout : N)
    (during : list (N * op)) : state * bool * N :=
  match during with
  | [] => (s, false, timeout)
  | (t, o) :: rest =>
    if (timeout <? t)%N then (s, false, timeout)
    else
      let s' := step s o in
      if event_is_set s' seq_id then (s', true, t)
      else wait_for_event s' seq_id timeout rest
  end.

(** [send_command(opcode, payload, True, timeout)] as a whole: the state,
    what the call returns or raises, and how long it blocked the caller. *)
Definition send_command (s : state) (opcode : Z) (payload : json) (timeout : N)
    (during : list (N * op)) : state * outcome json * N :=
  match send_command_begin s opcode payload true with
  | (s1, Raised e) => (s1, Raise e, 0%N)
  | (s1, Returned v) => (s1, Ret v, 0%N)
  | (s1, Waiting seq_id) =>
    match wait_for_event s1 seq_id timeout during with
    | (s2, is_set, blocked) =>
      match send_command_wake s2 seq_id is_set with
      | (s3, r) => (s3, r, blocked)
      end
    end
  end.

(** What [requests.get] returns, as far as the two operations look at it. *)
Record http_response : Type := mkResponse {
  status_ok : bool;
  content_type : option string;
  x_file_name : option string;
  content : list Byte.byte
}.

(** [needle in hay] *)
Fixpoint contains (needle hay : string) : bool :=
  if String.prefix needle hay then true
  else match hay with
       | EmptyString => false
       | String _ rest => contains needle rest
       end.

Definition token_json (s : state) : json :=
  match token s with
  | Some t => JStr t
  | None => JNull
  end.

(** [get_video] from the response of the server on: the URL, the HTTP
    fetch, the check of the content type, the bytes. *)
Definition video_of_response (video_info : json)
    (http : json → outcome http_response) : outcome (option (list Byte.byte)) :=
  video_info ← py_getitem video_info "payload";
  hi ← py_get video_info "MP4_1080";
  lo ← py_get video_info "MP4_720";
  let url := py_or hi lo in
  if negb (truthy url) then Ret None
  else
    r ← http url;
    if negb (status_ok r) then Raise HTTPError
    else
      match content_type r with
      | None => Raise TypeError
      | Some ct =>
        if negb (contains "video" ct) then Ret None
        else Ret (Some (content r))
      end.

(** [get_video(id)]; [id] is given as the integer [int(id)].  [http] is
    [requests.get] on the URL. *)
Definition get_video (s : state) (id : Z) (during : list (N * op))
    (http : json → outcome http_response)
  : state * outcome (option (list Byte.byte)) :=
  let payload := JDict [("videoId", JInt id); ("token", token_json s)] in
  match send_command s 83 payload default_timeout during with
  | (s1, Raise e, _) => (s1, Raise e)
  | (s1, Ret video_info, _) => (s1, video_of_response video_info http)
  end.

Definition file_name_of (r : http_response) : string :=
  match x_file_name r with
  | Some n => if String.eqb n "" then "downloaded_file" else n
  | None => "downloaded_file"
  end.

(** [get_file] from the response of the server on. *)
Definition file_of_response (file_info : json)
    (http : json → outcome http_response)
  : outcome (option (list Byte.byte * string)) :=
  file_info ← py_getitem file_info "payload";
  url ← py_get file_info "url";
  if negb (truthy url) then Ret None
  else
    r ← http url;
    if negb (status_ok r) then Raise HTTPError
    else Ret (Some (content r, file_name_of r)).

(** [get_file(id, chat_id, msg_id)] *)
Definition get_file (s : state) (id chat_id : Z) (msg_id : string)
    (during : list (N * op)) (http : json → outcome http_response)
  : state * outcome (option (list Byte.byte * string)) :=
  let payload :=
    JDict [("fileId", JInt id); ("chatId", JInt chat_id); ("messageId", JStr msg_id)] in
  match send_command s 88 payload default_timeout during with
  | (s1, Raise e, _) => (s1, Raise e)
  | (s1, Ret file_info, _) => (s1, file_of_response file_info http)
  end.

(** ** A whole lifetime *)

(** What happens to a client between its creation and its end: atomic
    pieces of work and whole runs of the session loops, one after the
    other. *)
Inductive activity : Type :=
  | Atomic (o : op)
  | ConnectAndRun (envs : list attempt_env) (now : N)
  | ListenerLoop (reads : list (list op * read_result)) (envs : list attempt_env)
  | Reconnect (envs : list attempt_env).

Definition perform (s : state) (a : activity) : state :=
  match a with
  | Atomic o => step s o
  | ConnectAndRun envs now => fst (_connect_and_run envs now s)
  | ListenerLoop reads envs => listener_state (_listener_loop_async reads envs s)
  | Reconnect envs => final_state (_reconnect_async s envs)
  end.

Definition lifetime (s : state) (acts : list activity) : state := foldl perform s acts.

(** The sequence numbers drawn, and those under which an entry was put
    into the table, in order. *)
Definition drawn (t : list effect) : list Z :=
  omap (λ e, match e with Drew n => Some n | _ => None end) t.

Definition registered (t : list effect) : list Z :=
  omap (λ e, match e with Registered n => Some n | _ => None end) t.

(** The counter and the table agree with the history: the numbers drawn
    are 0, 1, 2, ... up to the counter; no two entries were registered
    under the same number, and each under a number that was drawn; every
    entry of the table was registered. *)
Definition counter_ok (s : state) : Prop :=
  0 ≤ seq_counter s ∧
  drawn (trace s) = seqZ 0 (seq_counter s) ∧
  NoDup (registered (trace s)) ∧
  Forall (λ n, 0 ≤ n < seq_counter s) (registered (trace s)) ∧
  ∀ k, is_Some (pending_responses s !! k) → k ∈ registered (trace s).

(** [s'] comes after [s]: the counter has not gone back, the history has
    only grown, consistency is kept, and a number below the counter that
    has no entry has none later. *)
Definition advances (s s' : state) : Prop :=
  seq_counter s ≤ seq_counter s' ∧
  (∃ new, trace s' = trace s ++ new) ∧
  (counter_ok s → counter_ok s') ∧
  (∀ k, k < seq_counter s → pending_responses s !! k = None →
        pending_responses s' !! k = None).

(** [message] is a response ([cmd == 1]) whose [seq] selects key [n]. *)
Definition answers (n : Z) (message : option json) : bool :=
  match message with
  | Some data =>
    match py_get data "cmd", py_get data "seq" with
    | Ret cmd, Ret seq_id =>
      py_eq_int cmd 1 &&
      match py_key seq_id with
      | IntKey k => k =? n
      | _ => false
      end
    | _, _ => false
    end
  | None => false
  end.

(** [o] is neither a response to request [n] nor the continuation of a
    send that waits on [n]. *)
Definition foreign (n : Z) (o : op) : bool :=
  match o with
  | OpWake k | OpAsyncResume k => negb (k =? n)
  | OpMessage message => negb (answers n message)
  | _ => true
  end.

(** The delay before attempt number [k] (from 0) of a run of failures. *)
Definition backoff (k : nat) : Z := Z.min (2 ^ (Z.of_nat k + 1)) max_delay.

(** ** Sample inputs *)

(** A client that is connected and authenticated, before its first send. *)
Definition online : state :=
  mkState true true true (Some "token") true (Some WsOpen) true
    (Some (mkPeriodic 3000 true)) 0 ∅ ∅ [] [].

(** A response frame ([cmd] 1) and a push frame ([cmd] 0). *)
Definition response_frame (seq_id : Z) (text : string) : json :=
  JDict [("ver", JInt 11); ("cmd", JInt 1); ("seq", JInt seq_id);
         ("opcode", JInt 64); ("payload", JDict [("text", JStr text)])].

Definition push_frame (seq_id : Z) : json :=
  JDict [("ver", JInt 11); ("cmd", JInt 0); ("seq", JInt seq_id);
         ("opcode", JInt 128); ("payload", JDict [("chatId", JInt (-5))])].

(** The same client built with [auto_reconnect=False]. *)
Definition online_manual : state :=
  mkState true true false (Some "token") true (Some WsOpen) true
    (Some (mkPeriodic 3000 true)) 0 ∅ ∅ [] [].

(** An attempt in which [websocket_connect] raises after a second, and
    one in which the server answers the handshake (request 0) and the
    authentication (request 1) within a second. *)
Definition refused : attempt_env :=
  mkAttempt [] [] (Some ConnectionError) [] [] [] 1000.

Definition auth_response : json :=
  JDict [("ver", JInt 11); ("cmd", JInt 1); ("seq", JInt 1); ("opcode", JInt 19);
         ("payload",
          JDict [("profile",
                  JDict [("contact",
                          JDict [("names", JList [JDict [("name", JStr "Ann")]])])])])].

Definition accepted : attempt_env :=
  mkAttempt [] [] None
    [OpMessage (Some (response_frame 0 "hello"))]
    [OpMessage (Some auth_response)] [] 1000.

(** A connected client whose connection has just gone down. *)
Definition online_lost : state :=
  mkState true true true (Some "token") true (Some WsClosed) true
    (Some (mkPeriodic 3000 true)) 0 ∅ ∅ [] [].

(** The answer to request 0 of a media lookup, and two HTTP responses:
    a web page, and a body with no content type at all. *)
Definition media_response : json :=
  JDict [("ver", JInt 11); ("cmd", JInt 1); ("seq", JInt 0); ("opcode", JInt 88);
         ("payload", JDict [("url", JStr "https://files.example/1");
                            ("MP4_720", JStr "https://files.example/1")])].

Definition web_page : http_response :=
  mkResponse true (Some "text/html") None [Byte.x3c; Byte.x68; Byte.x31; Byte.x3e].

Definition untyped_body : http_response :=
  mkResponse true None None [Byte.x00; Byte.x01].

(** ** Public API methods *)

(** [send_command(opcode, payload, wait_for_response, timeout)] with its
    flag: with [wait_for_response=True] it is [send_command] above. *)
Definition send_command_with (s : state) (opcode : Z) (payload : json)
    (wait_for_response : bool) (timeout : N) (during : list (N * op))
  : state * outcome json * N :=
  match send_command_begin s opcode payload wait_for_response with
  | (s1, Raised e) => (s1, Raise e, 0%N)
  | (s1, Returned v) => (s1, Ret v, 0%N)
  | (s1, Waiting seq_id) =>
    match wait_for_event s1 seq_id timeout during with
    | (s2, is_set, blocked) =>
      match send_command_wake s2 seq_id is_set with
      | (s3, r) => (s3, r, blocked)
      end
    end
  end.

Definition message_payload (chat_id : Z) (text : string) (reply_id : option Z)
    (client_message_id : Z) : json :=
  let link :=
    match reply_id with
    | Some m => [("link", JDict [("type", JStr "REPLY"); ("messageId", JInt m)])]
    | None => []
    end in
  JDict [("chatId", JInt chat_id);
         ("message",
          JDict ([("text", JStr text); ("cid", JInt client_message_id);
                  ("elements", JList []); ("attaches", JList [])] ++ link));
         ("notify", JBool true)].

(** [send_message(chat_id, text, reply_id, wait_for_response)].  [chat_id]
    is given as the integer [int(chat_id)]; [reply_id] is [None] for a
    falsy argument, else the integer [int(reply_id)]; [now_ms] is
    [int(time.time() * 1000)]. *)
Definition send_message (s : state) (chat_id : Z) (text : string)
    (reply_id : option Z) (wait_for_response : bool) (now_ms : Z)
    (during : list (N * op)) : state * outcome json * N :=
  let client_message_id := now_ms in
  let payload := message_payload chat_id text reply_id client_message_id in
  let s0 :=
    emit (Log INFO "Sent message to chat" (JList [JInt chat_id; JInt client_message_id])) s in
  send_command_with s0 OPCODE_MAP.SEND_MESSAGE payload wait_for_response
    default_timeout during.

(** [get_history(chat_id, count, from_timestamp)] *)
Definition get_history (s : state) (chat_id count : Z) (from_timestamp : option Z)
    (now_ms : Z) (during : list (N * op)) : state * outcome json * N :=
  let from_timestamp := default now_ms from_timestamp in
  let payload :=
    JDict [("chatId", JInt chat_id); ("from", JInt from_timestamp);
           ("forward", JInt 0); ("backward", JInt count);
           ("getMessages", JBool true)] in
  send_command s OPCODE_MAP.GET_HISTORY payload default_timeout during.

(** [mark_as_read(chat_id, message_id)] *)
Definition mark_as_read (s : state) (chat_id : Z) (message_id : json) (now_ms : Z)
    (during : list (N * op)) : state * outcome json * N :=
  let payload :=
    JDict [("type", JStr "READ_MESSAGE"); ("chatId", JInt chat_id);
           ("messageId", message_id); ("mark", JInt now_ms)] in
  send_command s OPCODE_MAP.MARK_AS_READ payload default_timeout during.

(** [get_contact_details(contact_ids)], each id given as [int(cid)]. *)
Definition get_contact_details (s : state) (contact_ids : list Z)
    (during : list (N * op)) : state * outcome json * N :=
  let payload := JDict [("contactIds", JList (map JInt contact_ids))] in
  send_command s OPCODE_MAP.GET_CONTACT_DETAILS payload default_timeout during.

(** [get_contact_by_phone(phone_number)] *)
Definition get_contact_by_phone (s : state) (phone_number : json)
    (during : list (N * op)) : state * outcome json * N :=
  let payload := JDict [("phone", phone_number)] in
  send_command s OPCODE_MAP.FIND_BY_PHONE_NUMBER payload default_timeout during.

(** [subscribe_to_chat(chat_id, subscribe)] *)
Definition subscribe_to_chat (s : state) (chat_id : Z) (subscribe : bool)
    (during : list (N * op)) : state * outcome json * N :=
  let payload := JDict [("chatId", JInt chat_id); ("subscribe", JBool subscribe)] in
  match send_command s OPCODE_MAP.SUBSCRIBE_TO_CHAT payload default_timeout during with
  | (s1, Raise e, blocked) => (s1, Raise e, blocked)
  | (s1, Ret response, blocked) =>
    (subscribe_to_chat_end s1 chat_id subscribe, Ret response, blocked)
  end.

(** ** The chat cache *)

(** [del d[k]] on the items of a dict. *)
Definition dict_del (k : string) (items : list (string * json)) : list (string * json) :=
  filter (λ kv, fst kv ≠ k) items.

(** The loop of [_authenticate_async] that fills [chats]:
    [chats[str(item.get('id'))] = item] without its ['id'].  [py_str] is
    [str] on decoded JSON values. *)
Fixpoint cache_chats (py_str : json → string) (items : list json)
    (chats : gmap string json) : outcome (gmap string json) :=
  match items with
  | [] => Ret chats
  | item :: rest =>
    match item with
    | JDict kv =>
      match assoc "id" kv with
      | Some id => cache_chats py_str rest (<[py_str id := JDict (dict_del "id" kv)]> chats)
      | None => Raise KeyError
      end
    | _ => Raise AttributeError
    end
  end.

(** [self.chats] after [_authenticate_async] has read [response_payload]. *)
Definition chats_of_payload (py_str : json → string) (response_payload : json)
  : outcome (gmap string json) :=
  match response_payload with
  | JDict items =>
    match assoc "chats" items with
    | Some chats => l ← py_iter chats; cache_chats py_str l ∅
    | None => Ret ∅
    end
  | _ => Ret ∅
  end.


(** ** What an execution keeps *)

(** [s'] comes after [s] and the settings of the session are as durable
    as the code has them: [_should_reconnect] is not set again once
    cleared, [auto_reconnect], the token and the handler do not change, a
    loop that is gone does not come back, the heartbeat keeps its period,
    and [subscribed_chats] holds each chat once. *)
Definition steady (s s' : state) : Prop :=
  (_should_reconnect s = false → _should_reconnect s' = false) ∧
  auto_reconnect s' = auto_reconnect s ∧
  token s' = token s ∧
  on_event s' = on_event s ∧
  (ioloop s = false → ioloop s' = false) ∧
  ((∀ h, heartbeat_callback s = Some h → interval_ms h = 3000) →
   ∀ h, heartbeat_callback s' = Some h → interval_ms h = 3000) ∧
  (NoDup (subscribed_chats s) → NoDup (subscribed_chats s')).

(** [o] is not the end of a [subscribe_to_chat]. *)
Definition calm (o : op) : bool :=
  match o with
  | OpSubscribed _ _ => false
  | _ => true
  end.

(** All that runs during an attempt. *)
Definition env_ops (env : attempt_env) : list op :=
  during_sleep env ++ during_connect env ++ during_handshake env ++
  during_authenticate env ++ concat (during_resubscribe env).

(** Each future is the one of the request it is registered under. *)
Definition futures_named (s : state) : Prop :=
  ∀ k fut opcode, pending_responses s !! k = Some (FutureEntry fut opcode) → fut = k.

(** The chat and the outcome that a log line of the replay tells. *)
Definition replayed (e : effect) : option (Z * bool) :=
  match e with
  | Log lvl text (JInt chat_id) =>
    match lvl with
    | INFO =>
      if String.eqb text "Resubscribed to chat" then Some (chat_id, true) else None
    | WARNING =>
      if String.eqb text "Failed to resubscribe to chat" then Some (chat_id, false)
      else None
    | _ => None
    end
  | _ => None
  end.

(** [s'] comes after [s] and the history between them has the replay
    lines [l], in order. *)
Definition replays (s s' : state) (l : list (Z * bool)) : Prop :=
  ∃ new, trace s' = trace s ++ new ∧ omap replayed new = l.

(** The subscriptions are the same in [s'] as in [s]. *)
Definition same_subscriptions (s s' : state) : Prop :=
  subscribed_chats s' = subscribed_chats s.

(** A connected client with two subscriptions. *)
Definition online_subscribed : state :=
  mkState true true true (Some "token") true (Some WsOpen) true
    (Some (mkPeriodic 3000 true)) 0 ∅ ∅ [12345; 67890] [].

(** What a frame may add to the history: log lines and events for the
    handler. *)
Definition inbound_effect (e : effect) : Prop :=
  match e with
  | Log _ _ _ | Submit _ => True
  | _ => False
  end.

(** ** The default handler and the signal handler *)

Definition is_none (v : json) : bool :=
  match v with
  | JNull => true
  | _ => false
  end.

(** [_default_on_event]: the line it logs. *)
Definition _default_on_event (event_data : json) : outcome effect :=
  opcode ← py_get event_data "opcode";
  if py_eq_int opcode 128 then
    Ret (Log INFO "[New Message Received] Event" event_data)
  else if negb (is_none opcode) then
    Ret (Log INFO "[Server Event Received] Event" event_data)
  else
    Ret (Log INFO "[Unknown Event Received] Event" event_data).

(** [_signal_handler(signum, frame)] *)
Definition _signal_handler (s : state) (signum : Z) : state :=
  close (emit (Log INFO "Signal received, initiating shutdown..." (JInt signum)) s).

(** ** The heartbeat across a reconnect *)




(** * Properties *)

(** ** Demultiplexing *)

Lemma py_eq_int_functional (v : json) (a b : Z) :
  py_eq_int v a = true → py_eq_int v b = true → a = b.
Proof.
  destruct v as [| c | z | [z|] | | |]; simpl; try discriminate; lia.
Qed.

Lemma process_message_cmd (s : state) (data cmd : json) :
  py_get data "cmd" = Ret cmd →
  process_message_body s (Some data) =
    if py_eq_int cmd 1 then
      match py_get data "seq" with
      | Raise e => (s, Raise e)
      | Ret seq_id =>
        match py_key seq_id with
        | Unhashable => (s, Raise TypeError)
        | NoIntKey => (s, Ret tt)
        | IntKey k =>
          match pending_responses s !! k with
          | None => (s, Ret tt)
          | Some pending_request =>
            let s1 :=
              if entry_opcode pending_request =? OPCODE_MAP.HEARTBEAT then s
              else emit (Log DEBUG "API Response" data) s in
            match pending_request with
            | EventEntry _ _ opcode =>
              (set_pending_responses
                 (<[k := EventEntry true data opcode]> (pending_responses s1)) s1,
               Ret tt)
            | FutureEntry fut _ =>
              set_result fut data
                (set_pending_responses (delete k (pending_responses s1)) s1)
            end
          end
        end
      end
    else if py_eq_int cmd 0 then
      if on_event s then
        if ioloop s then (emit (Submit data) s, Ret tt)
        else (s, Raise AttributeError)
      else (s, Ret tt)
    else if py_eq_int cmd 3 then
      (emit (Log ERROR "Received API error" data) s, Ret tt)
    else
      (emit (Log DEBUG "Received unexpected API response" data) s, Ret tt).
Proof.
  intros Hcmd. unfold process_message_body. rewrite Hcmd. reflexivity.
Qed.

(** The log line of a response leaves the table and the futures alone. *)
Lemma debug_log_fields (s : state) (b : bool) (e : effect) :
  pending_responses (if b then s else emit e s) = pending_responses s ∧
  futures (if b then s else emit e s) = futures s.
Proof. destruct b; split; reflexivity. Qed.

(** C1.  A decoded frame is dispatched on its [cmd].
    - [cmd == 1]: the [seq] of the frame is looked up in the pending
      table.  An entry of a blocking send receives the frame in its
      response slot and its event is set; an entry of a deferred send is
      taken out and its future receives the frame; with no entry under
      that key, or a [seq] that equals no integer, the frame is dropped
      and nothing changes (an unhashable [seq] is logged and the table
      stays as it is).
    - [cmd == 0]: the whole frame is handed to the event handler (when the
      handler is truthy and the I/O loop is there); the table is neither
      read (the outcome is the same whatever the table holds) nor
      changed, whatever [seq] the frame carries.
    - [cmd == 3]: the frame is logged and nothing else happens; the table
      is neither read nor changed. *)
Theorem process_message_demultiplexes (s : state) (data cmd : json) :
  py_get data "cmd" = Ret cmd →
  (py_eq_int cmd 1 = true →
     ∃ seq_id, py_get data "seq" = Ret seq_id ∧
       match py_key seq_id with
       | IntKey k =>
         match pending_responses s !! k with
         | Some (EventEntry _ _ opcode) =>
           pending_responses (_process_message s (Some data)) =
             <[k := EventEntry true data opcode]> (pending_responses s) ∧
           futures (_process_message s (Some data)) = futures s
         | Some (FutureEntry fut _) =>
           pending_responses (_process_message s (Some data)) =
             delete k (pending_responses s) ∧
           (futures s !! fut = None →
            futures (_process_message s (Some data)) = <[fut := data]> (futures s))
         | None => _process_message s (Some data) = s
         end
       | NoIntKey => _process_message s (Some data) = s
       | Unhashable =>
         pending_responses (_process_message s (Some data)) = pending_responses s ∧
         futures (_process_message s (Some data)) = futures s
       end) ∧
  (py_eq_int cmd 0 = true →
     pending_responses (_process_message s (Some data)) = pending_responses s ∧
     futures (_process_message s (Some data)) = futures s ∧
     (∀ t : gmap Z pending,
        _process_message (set_pending_responses t s) (Some data) =
        set_pending_responses t (_process_message s (Some data))) ∧
     (on_event s = true → ioloop s = true →
      _process_message s (Some data) = emit (Submit data) s)) ∧
  (py_eq_int cmd 3 = true →
     _process_message s (Some data) = emit (Log ERROR "Received API error" data) s ∧
     (∀ t : gmap Z pending,
        _process_message (set_pending_responses t s) (Some data) =
        set_pending_responses t (_process_message s (Some data)))).
Proof.
  intros Hcmd. split; [| split].
  - intros H1.
    assert (∃ items, data = JDict items) as [items ->].
    { destruct data; try discriminate. eauto. }
    exists (default JNull (assoc "seq" items)). split; [reflexivity |].
    unfold _process_message. rewrite (process_message_cmd s _ cmd Hcmd), H1.
    change (py_get (JDict items) "seq") with (Ret (default JNull (assoc "seq" items))).
    cbv iota beta.
    destruct (py_key (default JNull (assoc "seq" items))) as [| | k];
      [split; reflexivity | reflexivity |].
    destruct (pending_responses s !! k) as [[b r opcode | fut opcode] |] eqn:Hk;
      [| | reflexivity].
    + cbv zeta. simpl entry_opcode.
      destruct (opcode =? OPCODE_MAP.HEARTBEAT); split; reflexivity.
    + cbv zeta. simpl entry_opcode. unfold set_result.
      destruct (opcode =? OPCODE_MAP.HEARTBEAT); simpl;
        destruct (futures s !! fut) eqn:Hf; simpl;
        (split; [reflexivity | intros Hn; first [discriminate Hn | reflexivity]]).
  - intros H0.
    assert (py_eq_int cmd 1 = false) as H1.
    { destruct (py_eq_int cmd 1) eqn:E; [| done].
      pose proof (py_eq_int_functional _ _ _ E H0). lia. }
    assert (∀ u, _process_message u (Some data) =
                 if on_event u then
                   if ioloop u then emit (Submit data) u
                   else emit (Log ERROR "Error processing message" JNull) u
                 else u) as Hpm.
    { intros u. unfold _process_message.
      rewrite (process_message_cmd u _ cmd Hcmd), H1, H0.
      destruct (on_event u), (ioloop u); reflexivity. }
    rewrite !Hpm. repeat split.
    + destruct (on_event s), (ioloop s); reflexivity.
    + destruct (on_event s), (ioloop s); reflexivity.
    + intros t. rewrite Hpm. simpl.
      destruct (on_event s), (ioloop s); reflexivity.
    + intros -> ->. reflexivity.
  - intros H3.
    assert (py_eq_int cmd 1 = false) as H1.
    { destruct (py_eq_int cmd 1) eqn:E; [| done].
      pose proof (py_eq_int_functional _ _ _ E H3). lia. }
    assert (py_eq_int cmd 0 = false) as H0.
    { destruct (py_eq_int cmd 0) eqn:E; [| done].
      pose proof (py_eq_int_functional _ _ _ E H3). lia. }
    assert (∀ u, _process_message u (Some data) =
                 emit (Log ERROR "Received API error" data) u) as Hpm.
    { intros u. unfold _process_message.
      rewrite (process_message_cmd u _ cmd Hcmd), H1, H0, H3. reflexivity. }
    split; [apply Hpm |]. intros t. rewrite !Hpm. reflexivity.
Qed.

Lemma process_message_demultiplexes_witness :
  _process_message online (Some (push_frame 0)) = emit (Submit (push_frame 0)) online.
Proof.
  destruct (process_message_demultiplexes online (push_frame 0) (JInt 0) eq_refl)
    as (_ & H0 & _).
  apply H0; reflexivity.
Defined.

(** ** The sequence counter along an execution *)

Lemma drawn_app (a b : list effect) : drawn (a ++ b) = drawn a ++ drawn b.
Proof. apply omap_app. Qed.

Lemma registered_app (a b : list effect) :
  registered (a ++ b) = registered a ++ registered b.
Proof. apply omap_app. Qed.

Lemma advances_refl (s : state) : advances s s.
Proof.
  unfold advances. split; [lia |]. split; [| tauto].
  exists []. by rewrite app_nil_r.
Qed.

Lemma advances_trans (s1 s2 s3 : state) :
  advances s1 s2 → advances s2 s3 → advances s1 s3.
Proof.
  intros (Hc1 & [n1 Ht1] & Hok1 & Hk1) (Hc2 & [n2 Ht2] & Hok2 & Hk2).
  split; [lia |]. split; [| split].
  - exists (n1 ++ n2). by rewrite Ht2, Ht1, app_assoc.
  - auto.
  - intros k Hk Hn. apply Hk2; [lia | by apply Hk1].
Qed.

(** A piece of work that neither draws a number nor puts a new key into
    the table. *)
Lemma advances_quiet (s s' : state) (new : list effect) :
  seq_counter s' = seq_counter s →
  trace s' = trace s ++ new →
  drawn new = [] →
  registered new = [] →
  (∀ k, is_Some (pending_responses s' !! k) → is_Some (pending_responses s !! k)) →
  advances s s'.
Proof.
  intros Hc Ht Hd Hr Hp. split; [lia |]. split; [by exists new |]. split.
  - intros (H0 & Hdr & Hn & Hf & Hk). unfold counter_ok.
    rewrite Ht, drawn_app, registered_app, Hd, Hr, !app_nil_r, Hc.
    repeat split; try done. intros k Hs. apply Hk. by apply Hp.
  - intros k _ Hn. destruct (pending_responses s' !! k) eqn:E; [| done].
    destruct (Hp k) as [x Hx]; [by eexists | congruence].
Qed.

Lemma advances_draw (s : state) : advances s (snd (next_seq s)).
Proof.
  unfold next_seq; simpl. split; [simpl; lia |].
  split; [by eexists |]. split; [| done].
  intros (H0 & Hd & Hn & Hf & Hk). unfold counter_ok; simpl.
  rewrite drawn_app, registered_app, Hd, app_nil_r. simpl.
  split; [lia |]. split; [| split; [done | split; [| done]]].
  - rewrite (seqZ_app 0 (seq_counter s) 1) by lia. reflexivity.
  - eapply Forall_impl; [exact Hf |]. simpl; intros; lia.
Qed.

Lemma advances_draw_register (s : state) (e : pending) :
  advances s (register (seq_counter s) e (snd (next_seq s))).
Proof.
  unfold register, next_seq; simpl. split; [simpl; lia |]. split; [| split].
  - exists [Drew (seq_counter s); Registered (seq_counter s)].
    simpl. by rewrite <- app_assoc.
  - intros (H0 & Hd & Hn & Hf & Hk). unfold counter_ok; simpl.
    rewrite !drawn_app, !registered_app, Hd. simpl. rewrite !app_nil_r.
    split; [lia |]. split; [| split; [| split]].
    + rewrite (seqZ_app 0 (seq_counter s) 1) by lia. reflexivity.
    + apply NoDup_app. split; [done |]. split; [| apply NoDup_singleton].
      intros x Hx Hx'. apply list_elem_of_singleton in Hx'. subst x.
      rewrite Forall_forall in Hf. specialize (Hf _ Hx). lia.
    + apply Forall_app. split.
      * eapply Forall_impl; [exact Hf |]. simpl; intros; lia.
      * apply Forall_singleton. lia.
    + intros k Hs. destruct (decide (k = seq_counter s)) as [-> | Hne].
      * apply elem_of_app. right. by apply list_elem_of_singleton.
      * rewrite lookup_insert_ne in Hs by done.
        apply elem_of_app. left. by apply Hk.
  - simpl. intros k Hk Hn. rewrite lookup_insert_ne by lia. done.
Qed.

Lemma advances_emit (s : state) (e : effect) :
  drawn [e] = [] → registered [e] = [] → advances s (emit e s).
Proof. intros Hd Hr. by apply (advances_quiet s (emit e s) [e]). Qed.

Lemma advances_fields (s s' : state) :
  seq_counter s' = seq_counter s →
  trace s' = trace s →
  pending_responses s' = pending_responses s →
  advances s s'.
Proof.
  intros Hc Ht Hp. apply (advances_quiet s s' []); try done.
  - by rewrite app_nil_r.
  - intros k. by rewrite Hp.
Qed.

Lemma advances_delete (s : state) (k : Z) :
  advances s (set_pending_responses (delete k (pending_responses s)) s).
Proof.
  apply (advances_quiet _ _ []); try done.
  - simpl. by rewrite app_nil_r.
  - simpl. intros j [x Hx]. apply lookup_delete_Some in Hx as [_ Hx]. by eexists.
Qed.

Lemma advances_overwrite (s : state) (k : Z) (e : pending) :
  is_Some (pending_responses s !! k) →
  advances s (set_pending_responses (<[k := e]> (pending_responses s)) s).
Proof.
  intros Hk. apply (advances_quiet _ _ []); try done.
  - simpl. by rewrite app_nil_r.
  - simpl. intros j Hj. destruct (decide (k = j)) as [<- | Hne]; [done |].
    by rewrite lookup_insert_ne in Hj.
Qed.

Create HintDb adv.

(** Peels the updates off the state on the right, splits on the tests,
    and closes with what is known about the calls made on the way. *)
Ltac adv :=
  lazymatch goal with
  | |- advances ?s ?s => apply advances_refl
  | H : advances ?x ?y |- advances ?s ?y =>
    apply (advances_trans s x y); [adv | exact H]
  | |- advances ?s (fst (?a, ?b)) => change (advances s a); adv
  | |- advances ?s (fst (if ?b then _ else _)) => destruct b eqn:?; adv
  | |- advances ?s (if ?b then _ else _) => destruct b eqn:?; adv
  | |- advances ?s (register (seq_counter ?x) ?e (snd (next_seq ?x))) =>
    apply (advances_trans s x); [adv | apply advances_draw_register]
  | |- advances ?s (snd (next_seq ?x)) =>
    apply (advances_trans s x); [adv | apply advances_draw]
  | |- advances ?s (emit ?e ?x) =>
    apply (advances_trans s x); [adv | apply advances_emit; reflexivity]
  | |- advances ?s (set_pending_responses (delete ?k (pending_responses ?x)) ?x) =>
    apply (advances_trans s x); [adv | apply advances_delete]
  | |- advances ?s (set_is_running ?b ?x) =>
    apply (advances_trans s x); [adv | apply advances_fields; reflexivity]
  | |- advances ?s (set_should_reconnect ?b ?x) =>
    apply (advances_trans s x); [adv | apply advances_fields; reflexivity]
  | |- advances ?s (set_ws ?b ?x) =>
    apply (advances_trans s x); [adv | apply advances_fields; reflexivity]
  | |- advances ?s (set_ioloop ?b ?x) =>
    apply (advances_trans s x); [adv | apply advances_fields; reflexivity]
  | |- advances ?s (set_heartbeat_callback ?b ?x) =>
    apply (advances_trans s x); [adv | apply advances_fields; reflexivity]
  | |- advances ?s (set_subscribed_chats ?b ?x) =>
    apply (advances_trans s x); [adv | apply advances_fields; reflexivity]
  | |- advances ?s (set_futures ?b ?x) =>
    apply (advances_trans s x); [adv | apply advances_fields; reflexivity]
  | |- advances ?s (match (if ?b then _ else _) with _ => _ end) =>
    destruct b eqn:?; adv
  | |- advances ?s (fst (match (if ?b then _ else _) with _ => _ end)) =>
    destruct b eqn:?; adv
  | |- advances ?s (match (?a, ?b) with _ => _ end) => cbv beta iota zeta; adv
  | |- advances ?s (fst (match (?a, ?b) with _ => _ end)) => cbv beta iota zeta; adv
  | |- advances ?s (fst (match ?c with _ => _ end)) => adv_match c
  | |- advances ?s (match ?c with _ => _ end) => adv_match c
  | |- advances ?s (fst ?c) =>
    let H := fresh "Hcall" in
    assert (H : advances _ (fst c)) by (eauto with adv);
    lazymatch type of H with
    | advances ?x _ => apply (advances_trans s x); [adv | exact H]
    end
  | |- _ => idtac
  end
with adv_match c :=
  first
    [ is_var c; destruct c eqn:?; adv
    | let H := fresh "Hcall" in
      assert (H : advances _ (fst c)) by (eauto with adv);
      destruct c as [? ?]; simpl fst in H; adv
    | destruct c eqn:?; adv ].

Lemma advances_set_result (s : state) (fut : Z) (data : json) :
  advances s (fst (set_result fut data s)).
Proof. unfold set_result. adv. Qed.
#[local] Hint Resolve advances_set_result : adv.

Lemma advances_process_message (s : state) (message : option json) :
  advances s (_process_message s message).
Proof.
  unfold _process_message, process_message_body.
  destruct message as [data |]; [| adv].
  destruct (py_get data "cmd") as [cmd |]; [| adv].
  destruct (py_eq_int cmd 1).
  - destruct (py_get data "seq") as [seq_id |]; [| adv].
    destruct (py_key seq_id) as [| | k]; [adv | adv |].
    destruct (pending_responses s !! k) as [p |] eqn:Hk; [| adv].
    cbv zeta.
    set (s1 := if entry_opcode p =? OPCODE_MAP.HEARTBEAT then s
               else emit (Log DEBUG "API Response" data) s).
    assert (advances s s1) as H1 by (unfold s1; adv).
    assert (is_Some (pending_responses s1 !! k)) as Hk1.
    { unfold s1. destruct (entry_opcode p =? OPCODE_MAP.HEARTBEAT); simpl;
        rewrite Hk; by eexists. }
    destruct p as [b r opcode | fut opcode].
    + apply (advances_trans s s1); [done |].
      by apply advances_overwrite.
    + pose proof (advances_set_result
        (set_pending_responses (delete k (pending_responses s1)) s1) fut data) as H2.
      destruct (set_result fut data _) as [s2 [[] | e]]; simpl in H2.
      * apply (advances_trans s s1); [done |].
        eapply advances_trans; [apply advances_delete | exact H2].
      * apply (advances_trans s s2); [| adv].
        apply (advances_trans s s1); [done |].
        eapply advances_trans; [apply advances_delete | exact H2].
  - adv.
Qed.

Lemma advances_add_write_callback (frame : json) (s : state) :
  advances s (fst (add_write_callback frame s)).
Proof. unfold add_write_callback. adv. Qed.
#[local] Hint Resolve advances_add_write_callback : adv.

Lemma advances_ws_write_message (frame : json) (s : state) :
  advances s (fst (ws_write_message frame s)).
Proof. unfold ws_write_message. adv. Qed.
#[local] Hint Resolve advances_ws_write_message : adv.

(** [next_seq] seen as the number and the state it returns. *)
Lemma next_seq_eq (s : state) : next_seq s = (seq_counter s, snd (next_seq s)).
Proof. reflexivity. Qed.

Lemma advances_send_command_begin (s : state) (opcode : Z) (payload : json) (w : bool) :
  advances s (fst (send_command_begin s opcode payload w)).
Proof.
  unfold send_command_begin. rewrite next_seq_eq. cbv beta iota zeta. adv.
Qed.
#[local] Hint Resolve advances_send_command_begin : adv.

Lemma advances_send_command_wake (s : state) (seq_id : Z) (is_set : bool) :
  advances s (fst (send_command_wake s seq_id is_set)).
Proof. unfold send_command_wake. cbv zeta. adv. Qed.
#[local] Hint Resolve advances_send_command_wake : adv.

Lemma advances_send_command_async_begin (s : state) (opcode : Z) (payload : json) :
  advances s (fst (send_command_async_begin s opcode payload)).
Proof.
  unfold send_command_async_begin. rewrite next_seq_eq. cbv beta iota zeta. adv.
Qed.
#[local] Hint Resolve advances_send_command_async_begin : adv.

Lemma advances_send_command_async_resume (s : state) (seq_id : Z) :
  advances s (fst (send_command_async_resume s seq_id)).
Proof. unfold send_command_async_resume. adv. Qed.
#[local] Hint Resolve advances_send_command_async_resume : adv.

Lemma advances_send_heartbeat (s : state) : advances s (_send_heartbeat s).
Proof.
  unfold _send_heartbeat. rewrite next_seq_eq. cbv beta iota zeta. adv.
Qed.

Lemma advances_run_write_callback (s : state) (sock : websocket) (frame : json) :
  advances s (run_write_callback s sock frame).
Proof. unfold run_write_callback. adv. Qed.

Lemma advances_stop_heartbeat (s : state) : advances s (stop_heartbeat s).
Proof. unfold stop_heartbeat. adv. Qed.

Lemma advances_start_heartbeat (s : state) : advances s (start_heartbeat s).
Proof. unfold start_heartbeat. adv. Qed.

Lemma advances_close_ws (s : state) : advances s (close_ws s).
Proof. unfold close_ws. adv. Qed.

Lemma advances_close (s : state) : advances s (close s).
Proof. unfold close. cbv zeta. adv. Qed.

Lemma advances_shutdown_async (s : state) : advances s (_shutdown_async s).
Proof.
  unfold _shutdown_async.
  eapply advances_trans; [apply advances_stop_heartbeat | apply advances_close_ws].
Qed.

Lemma advances_subscribe_to_chat_end (s : state) (chat_id : Z) (subscribe : bool) :
  advances s (subscribe_to_chat_end s chat_id subscribe).
Proof. unfold subscribe_to_chat_end. cbv zeta. adv. Qed.

Lemma advances_step (s : state) (o : op) : advances s (step s o).
Proof.
  destruct o; simpl; auto using advances_process_message, advances_send_heartbeat,
    advances_run_write_callback, advances_subscribe_to_chat_end, advances_close,
    advances_shutdown_async with adv.
Qed.

Lemma advances_run (ops : list op) (s : state) : advances s (run s ops).
Proof.
  revert s. induction ops as [| o ops IH]; intros s; simpl.
  - apply advances_refl.
  - eapply advances_trans; [apply advances_step | apply IH].
Qed.

Lemma advances_await_send_command_async (s : state) (opcode : Z) (payload : json)
    (during : list op) :
  advances s (fst (send_command_async s opcode payload during)).
Proof.
  unfold send_command_async.
  pose proof (advances_send_command_async_begin s opcode payload) as H.
  destruct (send_command_async_begin s opcode payload) as [s1 [seq_id | e]];
    simpl in H; [| done].
  eapply advances_trans; [exact H |].
  eapply advances_trans; [apply advances_run |].
  apply advances_send_command_async_resume.
Qed.
#[local] Hint Resolve advances_await_send_command_async : adv.

Lemma advances_handshake_async (s : state) (during : list op) :
  advances s (fst (_handshake_async s during)).
Proof. unfold _handshake_async. cbv zeta. adv. Qed.
#[local] Hint Resolve advances_handshake_async : adv.

Lemma advances_authenticate_async (s : state) (during : list op) :
  advances s (fst (_authenticate_async s during)).
Proof. unfold _authenticate_async. cbv zeta. adv. Qed.
#[local] Hint Resolve advances_authenticate_async : adv.

Lemma advances_establish (s : state) (env : attempt_env)
    (connected authenticated : string) (no_token : option string) :
  advances s (fst (establish s env connected authenticated no_token)).
Proof.
  unfold establish. cbv zeta.
  pose proof (advances_run (during_connect env) s) as Hrun.
  set (s1 := run s (during_connect env)) in *. clearbody s1.
  adv.
Qed.
#[local] Hint Resolve advances_establish : adv.

Lemma advances_connect_attempt (s : state) (env : attempt_env) :
  advances s (fst (connect_attempt s env)).
Proof. unfold connect_attempt. adv. Qed.
#[local] Hint Resolve advances_connect_attempt : adv.

Lemma advances_connect_and_run (envs : list attempt_env) (now : N) (s : state) :
  advances s (fst (_connect_and_run envs now s)).
Proof.
  revert now s. induction envs as [| env rest IH]; intros now s; simpl.
  - adv.
  - destruct (_should_reconnect s); [| adv].
    pose proof (advances_connect_attempt s env) as H.
    destruct (connect_attempt s env) as [s1 [[] | e]]; simpl in H; [done |].
    eapply advances_trans; [| apply IH].
    eapply advances_trans; [| apply advances_run]. adv.
Qed.

Lemma advances_resubscribe (chats : list Z) (during : list (list op)) (s : state) :
  advances s (resubscribe s chats during).
Proof.
  revert during s. induction chats as [| c rest IH]; intros during s; simpl.
  - apply advances_refl.
  - eapply advances_trans; [| apply IH]. adv.
Qed.

Lemma advances_reconnect_attempt (s : state) (d : Z) (env : attempt_env) :
  advances s (fst (reconnect_attempt s d env)).
Proof.
  unfold reconnect_attempt.
  pose proof (advances_establish (emit (Log INFO "Reconnecting" (JInt d)) s) env
                "Reconnected to WebSocket." "Re-authenticated successfully." None) as H.
  destruct (establish _ env _ _ _) as [s1 [[] | e]]; simpl in H.
  - cbv zeta. simpl fst.
    apply (advances_trans s (start_heartbeat s1)).
    + eapply advances_trans; [| apply advances_start_heartbeat]. adv.
    + adv. apply advances_resubscribe.
  - simpl. adv.
Qed.

Lemma advances_reconnect_loop (envs : list attempt_env) (d : Z) (s : state)
    (acc : list Z) :
  advances s (final_state (reconnect_loop envs d s acc)).
Proof.
  revert d s acc. induction envs as [| env rest IH]; intros d s acc; simpl.
  - destruct (_should_reconnect s && auto_reconnect s); apply advances_refl.
  - destruct (_should_reconnect s && auto_reconnect s); [| apply advances_refl].
    pose proof (advances_reconnect_attempt (run s (during_sleep env)) d env) as H.
    destruct (reconnect_attempt _ d env) as [s2 [[] | e]]; simpl in H.
    + simpl. eapply advances_trans; [apply advances_run | exact H].
    + eapply advances_trans; [| apply IH].
      apply (advances_trans s (run s (during_sleep env))); [apply advances_run |].
      adv.
Qed.

Lemma advances_reconnect_async (s : state) (envs : list attempt_env) :
  advances s (final_state (_reconnect_async s envs)).
Proof.
  unfold _reconnect_async. cbv zeta.
  eapply advances_trans; [| apply advances_reconnect_loop].
  apply (advances_trans s (set_is_running false s)); [adv |].
  eapply advances_trans; [apply advances_stop_heartbeat | apply advances_close_ws].
Qed.

Lemma advances_listener_turn (s : state) (r : read_result) :
  advances s (fst (listener_turn s r)).
Proof.
  unfold listener_turn. cbv zeta.
  destruct r; [apply advances_process_message | adv | adv | adv].
Qed.

Lemma advances_listener_loop_async (reads : list (list op * read_result))
    (envs : list attempt_env) (s : state) :
  advances s (listener_state (_listener_loop_async reads envs s)).
Proof.
  revert s. induction reads as [| [during r] rest IH]; intros s; simpl.
  - destruct (is_running s); apply advances_refl.
  - destruct (is_running s); [| apply advances_refl].
    pose proof (advances_listener_turn (run s during) r) as H.
    destruct (listener_turn (run s during) r) as [s1 []]; simpl in H.
    + eapply advances_trans; [| apply IH].
      eapply advances_trans; [apply advances_run | exact H].
    + simpl. eapply advances_trans; [| apply advances_reconnect_async].
      eapply advances_trans; [apply advances_run | exact H].
    + simpl. eapply advances_trans; [apply advances_run | exact H].
Qed.

Lemma advances_perform (s : state) (a : activity) : advances s (perform s a).
Proof.
  destruct a; simpl.
  - apply advances_step.
  - apply advances_connect_and_run.
  - apply advances_listener_loop_async.
  - apply advances_reconnect_async.
Qed.

Lemma advances_lifetime (acts : list activity) (s : state) :
  advances s (lifetime s acts).
Proof.
  revert s. induction acts as [| a acts IH]; intros s; simpl.
  - apply advances_refl.
  - eapply advances_trans; [apply advances_perform | apply IH].
Qed.

Lemma counter_ok_created (tok : option string) (ev : option bool) (ar : bool) :
  counter_ok (created tok ev ar).
Proof.
  unfold counter_ok, created; simpl. repeat split; try done.
  - apply NoDup_nil_2.
  - intros k [x Hx]. by rewrite lookup_empty in Hx.
Qed.

Lemma send_draws_next (s : state) (opcode : Z) (payload : json) :
  is_running s = true → ioloop s = true → ws s = Some WsOpen →
  let n := seq_counter s in
  (∃ s', send_command_begin s opcode payload true = (s', Waiting n) ∧
         seq_counter s' = n + 1 ∧
         trace s' = trace s ++ [Drew n; Registered n;
                                Schedule (CbWrite (mk_command n opcode payload))]) ∧
  (∃ s', send_command_begin s opcode payload false = (s', Returned JNull) ∧
         seq_counter s' = n + 1 ∧
         trace s' = trace s ++ [Drew n;
                                Schedule (CbWrite (mk_command n opcode payload))]) ∧
  (∃ s', send_command_async_begin s opcode payload = (s', Awaiting n) ∧
         seq_counter s' = n + 1 ∧
         trace s' = trace s ++ [Drew n; Registered n;
                                Wrote (mk_command n opcode payload)]) ∧
  seq_counter (_send_heartbeat s) = n + 1 ∧
  trace (_send_heartbeat s) =
    trace s ++ [Drew n; Schedule (CbWrite (heartbeat_frame n))].
Proof.
  intros Hr Hi Hw n.
  unfold send_command_begin, send_command_async_begin, _send_heartbeat,
    add_write_callback, ws_write_message, register, next_seq.
  rewrite Hr. simpl. rewrite Hi, Hw. simpl. rewrite ?Hi.
  split; [| split; [| split; [| split]]].
  - eexists. split; [reflexivity |]. split; [reflexivity |].
    simpl. by rewrite <- !app_assoc.
  - eexists. split; [reflexivity |]. split; [reflexivity |].
    simpl. by rewrite <- !app_assoc.
  - eexists. split; [reflexivity |]. split; [reflexivity |].
    simpl. by rewrite <- !app_assoc.
  - reflexivity.
  - simpl. by rewrite <- !app_assoc.
Qed.

(** C2.  From the creation of the client on, through any succession of
    sends, wake-ups, frames, heartbeats, closes and whole runs of the
    connect, listener and reconnect loops:
    - the numbers drawn from the counter are exactly 0, 1, 2, ... up to
      its present value, in this order, so none was drawn twice;
    - no two entries were ever registered under the same number, each
      entry was registered under a number drawn from the counter, and
      every entry of the table was registered;
    - a reconnect never moves the counter back and erases nothing of the
      history;
    - a send (blocking, fire-and-forget or deferred) and a heartbeat on a
      running session draw the next value, advance the counter by one and
      put that value into the frame they send. *)
Theorem sequence_numbers_never_repeat (tok : option string) (ev : option bool)
    (ar : bool) (acts : list activity) :
  let s := lifetime (created tok ev ar) acts in
  (drawn (trace s) = seqZ 0 (seq_counter s) ∧ NoDup (drawn (trace s))) ∧
  (NoDup (registered (trace s)) ∧
   (∀ n, n ∈ registered (trace s) → n ∈ drawn (trace s)) ∧
   (∀ k, is_Some (pending_responses s !! k) → k ∈ registered (trace s))) ∧
  (∀ envs,
     seq_counter s ≤ seq_counter (final_state (_reconnect_async s envs)) ∧
     ∃ new, trace (final_state (_reconnect_async s envs)) = trace s ++ new) ∧
  (is_running s = true → ioloop s = true → ws s = Some WsOpen →
   ∀ opcode payload,
     let n := seq_counter s in
     (∃ s', send_command_begin s opcode payload true = (s', Waiting n) ∧
            seq_counter s' = n + 1 ∧
            trace s' = trace s ++ [Drew n; Registered n;
                                   Schedule (CbWrite (mk_command n opcode payload))]) ∧
     (∃ s', send_command_begin s opcode payload false = (s', Returned JNull) ∧
            seq_counter s' = n + 1 ∧
            trace s' = trace s ++ [Drew n;
                                   Schedule (CbWrite (mk_command n opcode payload))]) ∧
     (∃ s', send_command_async_begin s opcode payload = (s', Awaiting n) ∧
            seq_counter s' = n + 1 ∧
            trace s' = trace s ++ [Drew n; Registered n;
                                   Wrote (mk_command n opcode payload)]) ∧
     seq_counter (_send_heartbeat s) = n + 1 ∧
     trace (_send_heartbeat s) =
       trace s ++ [Drew n; Schedule (CbWrite (heartbeat_frame n))]).
Proof.
  intros s.
  destruct (advances_lifetime acts (created tok ev ar)) as (_ & _ & Hok & _).
  specialize (Hok (counter_ok_created tok ev ar)).
  fold s in Hok. destruct Hok as (H0 & Hd & Hn & Hf & Hk).
  split; [| split; [| split]].
  - split; [done |]. rewrite Hd. apply NoDup_seqZ.
  - split; [done |]. split; [| done].
    intros n Hin. rewrite Hd. apply elem_of_seqZ.
    rewrite Forall_forall in Hf. specialize (Hf n Hin). lia.
  - intros envs.
    destruct (advances_reconnect_async s envs) as (Hc & Hnew & _). done.
  - intros Hr Hi Hw opcode payload. by apply send_draws_next.
Qed.

Lemma sequence_numbers_never_repeat_witness :
  NoDup (registered (trace (lifetime (created (Some "token") None true)
                              [ConnectAndRun [refused; accepted] 0;
                               Atomic (OpSend 64 JNull true);
                               Atomic OpHeartbeat;
                               Reconnect [refused; refused]]))).
Proof.
  apply (sequence_numbers_never_repeat (Some "token") None true
           [ConnectAndRun [refused; accepted] 0;
            Atomic (OpSend 64 JNull true);
            Atomic OpHeartbeat;
            Reconnect [refused; refused]]).
Defined.

(** C10.  On a session that is not running, a blocking send, a
    fire-and-forget send and a deferred send raise [ConnectionError] and
    leave the client exactly as it was: no number is drawn, nothing is
    queued or written, the table gets no entry.  A client is not running
    before it is connected and after [close]. *)
Theorem send_refused_when_not_running (s : state) (opcode : Z) (payload : json)
    (w : bool) (timeout : N) (timed : list (N * op)) (during : list op) :
  is_running s = false →
  send_command_begin s opcode payload w = (s, Raised ConnectionError) ∧
  send_command s opcode payload timeout timed = (s, Raise ConnectionError, 0%N) ∧
  send_command_async_begin s opcode payload = (s, AsyncRaised ConnectionError) ∧
  send_command_async s opcode payload during = (s, Raise ConnectionError) ∧
  (∀ u, is_running (close u) = false) ∧
  (∀ tok ev ar, is_running (created tok ev ar) = false).
Proof.
  intros Hr.
  unfold send_command, send_command_async, send_command_begin,
    send_command_async_begin. rewrite Hr. simpl.
  repeat split; try reflexivity.
  intros u. unfold close.
  simpl. destruct (is_running u) eqn:E, (ioloop u); simpl; try reflexivity; exact E.
Qed.

Lemma send_refused_when_not_running_witness :
  send_command (close online) 64 JNull default_timeout [] =
    (close online, Raise ConnectionError, 0%N).
Proof.
  apply (send_refused_when_not_running (close online) 64 JNull true default_timeout [] []).
  reflexivity.
Defined.

(** ** Responses and their entries *)

(** A frame that does not answer request [j] leaves the entry of [j]
    alone. *)
Lemma process_message_other_keys (s : state) (message : option json) (j : Z) :
  answers j message = false →
  pending_responses (_process_message s message) !! j = pending_responses s !! j.
Proof.
  intros Ha. unfold _process_message, process_message_body.
  destruct message as [data |]; [| reflexivity].
  unfold answers in Ha.
  destruct (py_get data "cmd") as [cmd |]; [| reflexivity].
  destruct (py_eq_int cmd 1) eqn:E1.
  - destruct (py_get data "seq") as [seq_id |]; [| reflexivity].
    destruct (py_key seq_id) as [| | k]; [reflexivity | reflexivity |].
    simpl in Ha. apply Z.eqb_neq in Ha.
    destruct (pending_responses s !! k) as [p |] eqn:Hk; [| reflexivity].
    cbv zeta.
    set (s1 := if entry_opcode p =? OPCODE_MAP.HEARTBEAT then s
               else emit (Log DEBUG "API Response" data) s).
    assert (pending_responses s1 = pending_responses s) as Hs1.
    { unfold s1. by destruct (entry_opcode p =? OPCODE_MAP.HEARTBEAT). }
    destruct p as [b r opcode | fut opcode].
    + simpl. rewrite Hs1. by rewrite lookup_insert_ne.
    + unfold set_result. simpl.
      destruct (futures s1 !! fut); simpl; rewrite Hs1; by rewrite lookup_delete_ne.
  - destruct (py_eq_int cmd 0); [| destruct (py_eq_int cmd 3); reflexivity].
    destruct (on_event s), (ioloop s); reflexivity.
Qed.

(** While request [n] is outstanding, what others do leaves its entry
    alone: a later send gets a later number. *)
Lemma step_keeps_entry (s : state) (o : op) (n : Z) :
  foreign n o = true → n < seq_counter s →
  pending_responses (step s o) !! n = pending_responses s !! n.
Proof.
  intros Hf Hn. destruct o as [opcode payload w | k | opcode payload | k | m | | sock frame | c b | |];
    simpl in *.
  - unfold send_command_begin, add_write_callback, register, next_seq.
    destruct (is_running s); simpl; [| reflexivity].
    destruct w; simpl; destruct (ioloop s); simpl; try reflexivity;
      try (rewrite lookup_insert_ne by lia; reflexivity);
      destruct (ws s); simpl; try reflexivity;
      rewrite lookup_insert_ne by lia; reflexivity.
  - unfold send_command_wake.
    apply negb_true_iff, Z.eqb_neq in Hf.
    destruct (event_is_set s k); simpl.
    + destruct (pending_responses s !! k); simpl; by rewrite lookup_delete_ne.
    + by rewrite lookup_delete_ne.
  - unfold send_command_async_begin, ws_write_message, register, next_seq.
    destruct (is_running s); simpl; [| reflexivity].
    destruct (ws s) as [[] |]; simpl; try destruct (ioloop s); simpl;
      rewrite lookup_insert_ne by lia; reflexivity.
  - unfold send_command_async_resume.
    apply negb_true_iff, Z.eqb_neq in Hf.
    destruct (futures s !! k); simpl; [reflexivity | by rewrite lookup_delete_ne].
  - apply process_message_other_keys. by apply negb_true_iff.
  - unfold _send_heartbeat, next_seq.
    destruct (is_running s); simpl; [| reflexivity].
    destruct (ioloop s); simpl; [| reflexivity].
    destruct (ws s); reflexivity.
  - unfold run_write_callback. by destruct sock.
  - unfold subscribe_to_chat_end. simpl. destruct b; [| reflexivity].
    by case_bool_decide.
  - unfold close. simpl.
    destruct (is_running s), (ioloop s); reflexivity.
  - unfold _shutdown_async, close_ws, stop_heartbeat.
    destruct (heartbeat_callback s); simpl; destruct (ws s); reflexivity.
Qed.

Lemma run_keeps_entry (ops : list op) (s : state) (n : Z) :
  Forall (λ o, foreign n o = true) ops → n < seq_counter s →
  pending_responses (run s ops) !! n = pending_responses s !! n.
Proof.
  revert s. induction ops as [| o ops IH]; intros s Hf Hn; simpl; [reflexivity |].
  inversion Hf as [| ? ? Ho Hrest]; subst.
  rewrite IH; [by apply step_keeps_entry | done |].
  pose proof (advances_step s o) as [Hc _]. lia.
Qed.

(** How a response changes the entry of a blocking send. *)
Lemma process_message_event_entry (s : state) (data : json) (k : Z)
    (b : bool) (r : json) (opcode : Z) :
  answers k (Some data) = true →
  pending_responses s !! k = Some (EventEntry b r opcode) →
  pending_responses (_process_message s (Some data)) !! k =
    Some (EventEntry true data opcode).
Proof.
  intros Ha Hk. unfold answers in Ha.
  unfold _process_message, process_message_body.
  destruct (py_get data "cmd") as [cmd |]; [| discriminate].
  destruct (py_get data "seq") as [seq_id |]; [| discriminate].
  apply andb_true_iff in Ha as [H1 Ha]. rewrite H1.
  destruct (py_key seq_id) as [| | k']; try discriminate.
  apply Z.eqb_eq in Ha. subst k'. rewrite Hk. simpl.
  destruct (opcode =? OPCODE_MAP.HEARTBEAT); simpl; by rewrite lookup_insert_eq.
Qed.

(** ** Blocking send *)

Lemma send_command_begin_waiting (s : state) (opcode : Z) (payload : json) :
  is_running s = true → ioloop s = true → is_Some (ws s) →
  ∃ s1, send_command_begin s opcode payload true = (s1, Waiting (seq_counter s)) ∧
        pending_responses s1 !! seq_counter s = Some (EventEntry false JNull opcode) ∧
        seq_counter s1 = seq_counter s + 1.
Proof.
  intros Hr Hi [w Hw].
  unfold send_command_begin, add_write_callback, register, next_seq.
  rewrite Hr. simpl. rewrite Hi, Hw. simpl.
  eexists. split; [reflexivity |]. simpl. split; [apply lookup_insert_eq | reflexivity].
Qed.

Lemma run_app (s : state) (a b : list op) : run s (a ++ b) = run (run s a) b.
Proof. apply foldl_app. Qed.

(** A wait during which nothing answers [n] ends at the timeout, the
    event not set and the entry as it was. *)
Lemma wait_unanswered (during : list (N * op)) (s : state) (n : Z) (timeout : N)
    (r : json) (opcode : Z) :
  Forall (λ to, foreign n (snd to) = true) during →
  n < seq_counter s →
  pending_responses s !! n = Some (EventEntry false r opcode) →
  ∃ s', wait_for_event s n timeout during = (s', false, timeout) ∧
        pending_responses s' !! n = Some (EventEntry false r opcode).
Proof.
  revert s. induction during as [| [t o] rest IH]; intros s Hf Hn He; simpl.
  - by exists s.
  - destruct (timeout <? t)%N; [by exists s |].
    inversion Hf as [| ? ? Ho Hrest]; subst. simpl in Ho.
    assert (pending_responses (step s o) !! n = Some (EventEntry false r opcode))
      as He' by (by rewrite step_keeps_entry).
    unfold event_is_set at 1. rewrite He'.
    apply IH; [done | | done].
    pose proof (advances_step s o) as [Hc _]. lia.
Qed.

(** A wait during which the first answer to [n] comes in time ends with
    that answer, at the time it comes. *)
Lemma wait_answered (before : list (N * op)) (s : state) (n : Z) (timeout t : N)
    (data : json) (after : list (N * op)) (r : json) (opcode : Z) :
  Forall (λ to, foreign n (snd to) = true) before →
  Forall (λ to, (fst to ≤ timeout)%N) before →
  (t ≤ timeout)%N →
  answers n (Some data) = true →
  n < seq_counter s →
  pending_responses s !! n = Some (EventEntry false r opcode) →
  ∃ s', wait_for_event s n timeout (before ++ (t, OpMessage (Some data)) :: after)
          = (s', true, t) ∧
        pending_responses s' !! n = Some (EventEntry true data opcode).
Proof.
  revert s. induction before as [| [t' o] rest IH]; intros s Hf Ht' Ht Ha Hn He; simpl.
  - apply N.ltb_ge in Ht. rewrite Ht.
    pose proof (process_message_event_entry s data n false r opcode Ha He) as Hpm.
    unfold event_is_set. rewrite Hpm. by eexists.
  - inversion Hf as [| ? ? Ho Hrest]; subst. simpl in Ho.
    inversion Ht' as [| ? ? Hto Htrest]; subst. simpl in Hto.
    apply N.ltb_ge in Hto. rewrite Hto.
    assert (pending_responses (step s o) !! n = Some (EventEntry false r opcode))
      as He' by (by rewrite step_keeps_entry).
    unfold event_is_set at 1. rewrite He'.
    apply IH; try done.
    pose proof (advances_step s o) as [Hc _]. lia.
Qed.

Lemma wait_bounded (during : list (N * op)) (s : state) (n : Z) (timeout : N) :
  (snd (wait_for_event s n timeout during) ≤ timeout)%N.
Proof.
  revert s. induction during as [| [t o] rest IH]; intros s; simpl; [lia |].
  destruct (timeout <? t)%N eqn:E; simpl; [lia |].
  apply N.ltb_ge in E.
  destruct (event_is_set (step s o) n); simpl; [done | apply IH].
Qed.

(** C6.  A blocking send on a connected client, [n] being the number it
    draws and [timeout] its per-call timeout.
    - If nothing that runs while the caller waits answers [n], the call
      raises [TimeoutError] after having blocked for [timeout], and the
      table holds no entry for [n].
    - If the first response to [n] arrives in time, the call returns that
      response frame at that moment, and the table holds no entry for [n].
    - Whatever runs meanwhile, the call blocks for at most [timeout] and
      the table holds no entry for [n] once it is over.
    - The default timeout is 10 seconds. *)
Theorem blocking_send_completes_or_times_out (s : state) (opcode : Z) (payload : json) :
  is_running s = true → ioloop s = true → is_Some (ws s) →
  (∀ timeout during,
     Forall (λ to, foreign (seq_counter s) (snd to) = true) during →
     ∃ s', send_command s opcode payload timeout during =
             (s', Raise TimeoutError, timeout) ∧
           pending_responses s' !! seq_counter s = None) ∧
  (∀ timeout before t data after,
     answers (seq_counter s) (Some data) = true →
     Forall (λ to, foreign (seq_counter s) (snd to) = true) before →
     Forall (λ to, (fst to ≤ timeout)%N) before →
     (t ≤ timeout)%N →
     ∃ s', send_command s opcode payload timeout
             (before ++ (t, OpMessage (Some data)) :: after) = (s', Ret data, t) ∧
           pending_responses s' !! seq_counter s = None) ∧
  (∀ timeout during,
     pending_responses (fst (fst (send_command s opcode payload timeout during)))
       !! seq_counter s = None ∧
     (snd (send_command s opcode payload timeout during) ≤ timeout)%N) ∧
  default_timeout = 10000%N.
Proof.
  intros Hr Hi Hw.
  destruct (send_command_begin_waiting s opcode payload Hr Hi Hw)
    as (s1 & Hbegin & Hentry & Hcount).
  set (n := seq_counter s) in *.
  split; [| split; [| split]].
  - intros timeout during Hf. unfold send_command. rewrite Hbegin.
    destruct (wait_unanswered during s1 n timeout JNull opcode Hf ltac:(lia) Hentry)
      as (s2 & -> & He2).
    unfold send_command_wake. simpl.
    eexists. split; [reflexivity |]. simpl. apply lookup_delete_eq.
  - intros timeout before t data after Ha Hb Hbt Ht. unfold send_command. rewrite Hbegin.
    destruct (wait_answered before s1 n timeout t data after JNull opcode
                Hb Hbt Ht Ha ltac:(lia) Hentry) as (s2 & -> & He2).
    unfold send_command_wake. rewrite He2. simpl.
    eexists. split; [reflexivity |]. simpl. apply lookup_delete_eq.
  - intros timeout during. unfold send_command. rewrite Hbegin.
    pose proof (wait_bounded during s1 n timeout) as Hb.
    destruct (wait_for_event s1 n timeout during) as [[s2 is_set] blocked].
    simpl in Hb. unfold send_command_wake.
    destruct is_set; simpl.
    + destruct (pending_responses s2 !! n); simpl; split; try done; apply lookup_delete_eq.
    + split; [apply lookup_delete_eq | done].
  - reflexivity.
Qed.

Lemma blocking_send_completes_or_times_out_witness :
  ∃ s', send_command online 64 JNull default_timeout
          [(3000%N, OpHeartbeat);
           (4000%N, OpMessage (Some (response_frame 7 "late")))]
          = (s', Raise TimeoutError, 10000%N) ∧
        pending_responses s' !! 0 = None.
Proof.
  destruct (blocking_send_completes_or_times_out online 64 JNull eq_refl eq_refl
              (ex_intro _ WsOpen eq_refl)) as (Htimeout & _).
  apply (Htimeout default_timeout). repeat constructor.
Defined.

(** The shape of a frame that answers [k]. *)
Lemma answers_inv (k : Z) (data : json) :
  answers k (Some data) = true →
  ∃ cmd seq_id, py_get data "cmd" = Ret cmd ∧ py_get data "seq" = Ret seq_id ∧
                py_eq_int cmd 1 = true ∧ py_key seq_id = IntKey k.
Proof.
  unfold answers.
  destruct (py_get data "cmd") as [cmd |]; [| discriminate].
  destruct (py_get data "seq") as [seq_id |]; [| discriminate].
  intros [H1 Hk]%andb_true_iff.
  destruct (py_key seq_id) as [| | k'] eqn:Hkey; try discriminate.
  apply Z.eqb_eq in Hk. subst. by exists cmd, seq_id.
Qed.

Lemma process_message_dropped (s : state) (data : json) (k : Z) :
  answers k (Some data) = true →
  pending_responses s !! k = None →
  _process_message s (Some data) = s.
Proof.
  intros (cmd & seq_id & Hc & Hs & H1 & Hk)%answers_inv Hn.
  unfold _process_message. rewrite (process_message_cmd s data cmd Hc), H1, Hs, Hk, Hn.
  reflexivity.
Qed.

Lemma process_message_future_entry (s : state) (data : json) (k fut opcode : Z) :
  answers k (Some data) = true →
  pending_responses s !! k = Some (FutureEntry fut opcode) →
  pending_responses (_process_message s (Some data)) !! k = None ∧
  (futures s !! fut = None →
   futures (_process_message s (Some data)) = <[fut := data]> (futures s)).
Proof.
  intros (cmd & seq_id & Hc & Hs & H1 & Hk)%answers_inv He.
  unfold _process_message. rewrite (process_message_cmd s data cmd Hc), H1, Hs, Hk, He.
  cbv zeta. simpl entry_opcode. unfold set_result.
  destruct (opcode =? OPCODE_MAP.HEARTBEAT); simpl;
    destruct (futures s !! fut) eqn:Hf; simpl;
    (split; [apply lookup_delete_eq | intros Hn; first [discriminate Hn | reflexivity]]).
Qed.

(** C3, as the code has it.  A response frame ([cmd == 1]) whose [seq]
    selects key [k] touches no entry but the one at [k].
    - Deferred send: the demultiplexer takes the entry out of the table
      and gives the frame to its future.
    - Blocking send: the demultiplexer puts the frame into the entry and
      sets its event; the entry stays in the table until the waiting
      caller wakes up, which takes it out and returns the frame.
    - A waiter that wakes up (event set or timeout) and a deferred send
      that times out take the entry out.
    - With no entry at [k] the frame is dropped: nothing changes.  Once
      the entry of an issued number is gone it never comes back, so every
      later response to it is dropped, whatever happens in between. *)
Theorem response_resolves_only_its_entry (s : state) (data : json) (k : Z) :
  answers k (Some data) = true →
  (∀ j, j ≠ k →
     pending_responses (_process_message s (Some data)) !! j = pending_responses s !! j) ∧
  (∀ fut opcode, pending_responses s !! k = Some (FutureEntry fut opcode) →
     pending_responses (_process_message s (Some data)) !! k = None ∧
     (futures s !! fut = None →
      futures (_process_message s (Some data)) = <[fut := data]> (futures s))) ∧
  (∀ b r opcode, pending_responses s !! k = Some (EventEntry b r opcode) →
     pending_responses (_process_message s (Some data)) !! k =
       Some (EventEntry true data opcode) ∧
     ∃ s', send_command_wake (_process_message s (Some data)) k
             (event_is_set (_process_message s (Some data)) k) = (s', Ret data) ∧
           pending_responses s' !! k = None) ∧
  (∀ is_set, pending_responses (fst (send_command_wake s k is_set)) !! k = None) ∧
  (futures s !! k = None →
   snd (send_command_async_resume s k) = Raise TimeoutError ∧
   pending_responses (fst (send_command_async_resume s k)) !! k = None) ∧
  (pending_responses s !! k = None → _process_message s (Some data) = s) ∧
  (k < seq_counter s → pending_responses s !! k = None →
   ∀ acts, pending_responses (lifetime s acts) !! k = None ∧
           _process_message (lifetime s acts) (Some data) = lifetime s acts).
Proof.
  intros Ha. repeat apply conj.
  - intros j Hj. apply process_message_other_keys.
    apply answers_inv in Ha as (cmd & seq_id & Hc & Hs & H1 & Hk).
    unfold answers. rewrite Hc, Hs, H1, Hk. simpl. apply Z.eqb_neq. done.
  - intros fut opcode He. exact (process_message_future_entry s data k fut opcode Ha He).
  - intros b r opcode He.
    pose proof (process_message_event_entry s data k b r opcode Ha He) as Hpm.
    split; [done |].
    unfold send_command_wake, event_is_set. rewrite Hpm. simpl.
    eexists. split; [reflexivity |]. simpl. apply lookup_delete_eq.
  - intros is_set. unfold send_command_wake.
    destruct is_set; simpl; [| apply lookup_delete_eq].
    destruct (pending_responses s !! k); simpl; apply lookup_delete_eq.
  - intros Hf. unfold send_command_async_resume. rewrite Hf. simpl.
    split; [reflexivity | apply lookup_delete_eq].
  - intros Hn. by apply (process_message_dropped s data k).
  - intros Hk Hn acts.
    destruct (advances_lifetime acts s) as (_ & _ & _ & Hgone).
    specialize (Hgone k Hk Hn). split; [done |].
    by apply (process_message_dropped _ data k).
Qed.

Lemma response_resolves_only_its_entry_witness :
  _process_message online (Some (response_frame 3 "nobody waits")) = online.
Proof.
  destruct (response_resolves_only_its_entry online (response_frame 3 "nobody waits") 3
              eq_refl) as (_ & _ & _ & _ & _ & Hdrop & _).
  apply Hdrop. reflexivity.
Defined.

(** C3 as stated fails on the blocking path: the response does not take
    the entry out of the table, and a second response with the same
    [seq] that comes before the caller wakes up replaces the first: the
    caller gets the second. *)
Lemma duplicate_response_reaches_blocking_caller :
  let s1 := fst (send_command_begin online 64 JNull true) in
  let s2 := _process_message s1 (Some (response_frame 0 "first")) in
  let s3 := _process_message s2 (Some (response_frame 0 "second")) in
  pending_responses s2 !! 0 = Some (EventEntry true (response_frame 0 "first") 64) ∧
  pending_responses s3 !! 0 = Some (EventEntry true (response_frame 0 "second") 64) ∧
  snd (send_command_wake s3 0 (event_is_set s3 0)) = Ret (response_frame 0 "second").
Proof. vm_compute. repeat split. Qed.

(** ** Reconnect *)

Lemma backoff_next (k : nat) : Z.min (backoff k * 2) max_delay = backoff (S k).
Proof.
  unfold backoff, max_delay. rewrite Nat2Z.inj_succ.
  replace (Z.succ (Z.of_nat k) + 1) with (Z.succ (Z.of_nat k + 1)) by lia.
  rewrite Z.pow_succ_r by lia.
  assert (0 < 2 ^ (Z.of_nat k + 1)) by (apply Z.pow_pos_nonneg; lia).
  lia.
Qed.

Lemma backoff_capped (k : nat) : (5 ≤ k)%nat → backoff k = 60.
Proof.
  intros Hk. unfold backoff, max_delay.
  assert (2 ^ 6 ≤ 2 ^ (Z.of_nat k + 1)) by (apply Z.pow_le_mono_r; lia).
  change (2 ^ 6) with 64 in *. lia.
Qed.

Lemma backoff_seq_snoc (j : nat) :
  map backoff (seq 0 j) ++ [backoff j] = map backoff (seq 0 (S j)).
Proof. by rewrite seq_S, map_app. Qed.

(** The loop, entered for its attempt number [j] with the delays of the
    attempts before it. *)
Lemma reconnect_loop_slept (envs : list attempt_env) (j : nat) (s : state) :
  let r := reconnect_loop envs (backoff j) s (map backoff (seq 0 j)) in
  ∃ m : nat, slept r = map backoff (seq 0 m) ∧
             (j ≤ m ≤ j + length envs)%nat ∧
             (ended r = StillRetrying → m = (j + length envs)%nat) ∧
             (ended r = Reconnected → final_delay r = 2) ∧
             (ended r = GaveUp →
              _should_reconnect (final_state r) && auto_reconnect (final_state r) = false).
Proof.
  revert j s. induction envs as [| env rest IH]; intros j s; simpl.
  - destruct (_should_reconnect s && auto_reconnect s) eqn:E; simpl;
      exists j; repeat split; try done; lia.
  - destruct (_should_reconnect s && auto_reconnect s) eqn:E; simpl.
    + destruct (reconnect_attempt (run s (during_sleep env)) (backoff j) env)
        as [s2 [[] | e]]; simpl.
      * exists (S j). rewrite backoff_seq_snoc. repeat split; try done; lia.
      * rewrite backoff_next, backoff_seq_snoc.
        destruct (IH (S j) (emit (Log ERROR "Reconnection failed" JNull) s2))
          as (m & Hs & Hm & Hstill & Hdone & Hgave).
        exists m. repeat split; try done; try lia.
        intros Hst. specialize (Hstill Hst). lia.
    + exists j. repeat split; try done; lia.
Qed.

(** C4.  In every run of [_reconnect_async] the delays slept are an
    initial stretch of 2, 4, 8, 16, 32, 60, 60, ...: the delay before
    attempt number [k] (from 0) is [min(2^(k+1), 60)], twice the one
    before it capped at 60.  When all the attempts the environment
    describes have failed, there was one sleep per attempt.  When an
    attempt succeeds the local delay is set back to 2, and every later
    run of [_reconnect_async], from whatever state, starts at 2 again. *)
Theorem reconnect_backoff_sequence (s : state) (envs : list attempt_env) :
  slept (_reconnect_async s envs) =
    map backoff (seq 0 (length (slept (_reconnect_async s envs)))) ∧
  (length (slept (_reconnect_async s envs)) ≤ length envs)%nat ∧
  (ended (_reconnect_async s envs) = StillRetrying →
   length (slept (_reconnect_async s envs)) = length envs) ∧
  (ended (_reconnect_async s envs) = Reconnected →
   final_delay (_reconnect_async s envs) = 2 ∧
   ∀ envs', head (slept (_reconnect_async
                          (final_state (_reconnect_async s envs)) envs')) = None ∨
            head (slept (_reconnect_async
                          (final_state (_reconnect_async s envs)) envs')) = Some 2) ∧
  map backoff (seq 0 8) = [2; 4; 8; 16; 32; 60; 60; 60] ∧
  (∀ k : nat, backoff (S k) = Z.min (backoff k * 2) 60) ∧
  (∀ k : nat, (5 ≤ k)%nat → backoff k = 60).
Proof.
  assert (∀ u es, ∃ m : nat,
            slept (_reconnect_async u es) = map backoff (seq 0 m) ∧
            (m ≤ length es)%nat ∧
            (ended (_reconnect_async u es) = StillRetrying → m = length es) ∧
            (ended (_reconnect_async u es) = Reconnected →
             final_delay (_reconnect_async u es) = 2)) as Hgen.
  { intros u es. unfold _reconnect_async. cbv zeta.
    destruct (reconnect_loop_slept es 0
                (close_ws (stop_heartbeat (set_is_running false u))))
      as (m & Hs & Hm & Hstill & Hdone & _).
    exists m. repeat split; try done. lia. }
  destruct (Hgen s envs) as (m & Hs & Hm & Hstill & Hdone).
  assert (length (slept (_reconnect_async s envs)) = m) as Hlen
    by (by rewrite Hs, length_map, length_seq).
  rewrite Hlen. repeat split; try done.
  - by apply Hdone.
  - intros envs'.
    destruct (Hgen (final_state (_reconnect_async s envs)) envs')
      as (m' & Hs' & _). rewrite Hs'.
    destruct m' as [| m']; [by left | by right].
  - intros k. symmetry. apply backoff_next.
  - apply backoff_capped.
Qed.

Lemma reconnect_backoff_sequence_witness :
  slept (_reconnect_async online [refused; refused; refused]) = [2; 4; 8].
Proof.
  destruct (reconnect_backoff_sequence online [refused; refused; refused])
    as (Hs & _ & Hstill & _).
  rewrite Hs, Hstill; reflexivity.
Defined.

(** C5, as the code has it.  With [_should_reconnect] and
    [auto_reconnect] both true, every failure of the listener's read (the
    connection closed, [WebSocketClosedError], any other exception) makes
    the listener run [_reconnect_async]; no exception leaves the
    listener.  The reconnect loop ends in two ways only: an attempt
    succeeded, or one of the two flags was found false; as long as both
    hold it makes one attempt after the other, one for each failure. *)
Theorem read_failure_enters_reconnect (s : state) (r : read_result)
    (envs : list attempt_env) :
  _should_reconnect s = true → auto_reconnect s = true →
  (∀ message, r ≠ ReadFrame message) →
  snd (listener_turn s r) = ListenerReconnects ∧
  (is_running s = true → ∀ rest,
     reconnects (_listener_loop_async (([], r) :: rest) envs s) =
       Some (_reconnect_async (fst (listener_turn s r)) envs)) ∧
  (∀ u, match ended (_reconnect_async u envs) with
        | Reconnected => True
        | GaveUp =>
          _should_reconnect (final_state (_reconnect_async u envs)) &&
          auto_reconnect (final_state (_reconnect_async u envs)) = false
        | StillRetrying => length (slept (_reconnect_async u envs)) = length envs
        end).
Proof.
  intros Hs Ha Hr.
  assert (snd (listener_turn s r) = ListenerReconnects) as Hturn.
  { unfold listener_turn. rewrite Hs, Ha. simpl.
    destruct r; [by destruct (Hr message) | done | done | done]. }
  split; [done |]. split.
  - intros Hrun rest. simpl. rewrite Hrun.
    destruct (listener_turn s r) as [s1 next]. simpl in Hturn. subst next.
    reflexivity.
  - intros u. unfold _reconnect_async. cbv zeta.
    pose proof (reconnect_loop_slept envs 0
                  (close_ws (stop_heartbeat (set_is_running false u)))) as H.
    cbv zeta in H. change (backoff 0) with 2 in H.
    change (map backoff (seq 0 0)) with (@nil Z) in H.
    destruct H as (m & Hsl & Hm & Hstill & _ & Hgave).
    destruct (ended _) eqn:E; [done | by apply Hgave |].
    rewrite Hsl, length_map, length_seq. by apply Hstill.
Qed.

Lemma read_failure_enters_reconnect_witness :
  snd (listener_turn online ReadNone) = ListenerReconnects.
Proof.
  apply (read_failure_enters_reconnect online ReadNone []); [reflexivity | reflexivity |].
  intros message H. discriminate H.
Defined.

(** C5 as stated fails: on a client built with [auto_reconnect=False],
    [_should_reconnect] is true and yet the listener that reads the end of
    the connection leaves without reconnecting. *)
Lemma no_reconnect_without_auto_reconnect :
  _should_reconnect online_manual = true ∧
  snd (listener_turn online_manual ReadNone) = ListenerExits ∧
  reconnects (_listener_loop_async [([], ReadNone)] [refused; accepted] online_manual)
    = None.
Proof. vm_compute. repeat split. Qed.

(** ** Construction *)

(** Every failed attempt is followed by a sleep of five seconds. *)
Lemma connect_and_run_unfinished (envs : list attempt_env) (now : N) (s s' : state)
    (t : N) :
  _connect_and_run envs now s = (s', Unfinished t) →
  (now + 5000 * N.of_nat (length envs) ≤ t)%N.
Proof.
  revert now s. induction envs as [| env rest IH]; intros now s; simpl.
  - destruct (_should_reconnect s); intros [= _ <-]. lia.
  - destruct (_should_reconnect s); [| discriminate].
    destruct (connect_attempt s env) as [s1 [[] | e]]; [discriminate |].
    intros H. apply IH in H. lia.
Qed.

(** C7.  The constructor waits for the first connection for at most
    [startup_timeout], 20 seconds.  It returns the object exactly when
    [_connect_and_run] sets [ready_event] within that time, after having
    waited until then.  Otherwise it raises after the 20 seconds, once
    [close] has joined the loop thread (at most 5 seconds more), and what
    it raises is [TimeoutError]: an attempt that fails, with whatever
    exception, is only retried five seconds later.  Five described
    attempts are always enough to tell the outcome. *)
Theorem startup_bounded_by_timeout (tok : option string) (ev : option bool)
    (ar : bool) (envs : list attempt_env) (stops_after : N) :
  startup_timeout = 20000%N ∧
  (∀ o, __init__ tok ev ar envs stops_after = Some o →
     (waited o ≤ startup_timeout)%N ∧
     match result o with
     | Constructed s =>
       _connect_and_run envs 0 (created tok ev ar) = (s, ReadyAt (waited o)) ∧
       teardown o = 0%N
     | Aborted e =>
       e = TimeoutError ∧ waited o = startup_timeout ∧
       (teardown o ≤ join_timeout)%N ∧
       ∀ s t, _connect_and_run envs 0 (created tok ev ar) = (s, ReadyAt t) →
              (startup_timeout < t)%N
     end) ∧
  (∀ s t, _connect_and_run envs 0 (created tok ev ar) = (s, ReadyAt t) →
          (t ≤ startup_timeout)%N →
          __init__ tok ev ar envs stops_after = Some (mkInit (Constructed s) t 0)) ∧
  ((5 ≤ length envs)%nat → is_Some (__init__ tok ev ar envs stops_after)).
Proof.
  split; [reflexivity |]. unfold __init__. cbv zeta.
  assert (N.min stops_after join_timeout ≤ join_timeout)%N as Hjoin by lia.
  destruct (_connect_and_run envs 0 (created tok ev ar)) as [s2 [t | | now]] eqn:Hrun;
    unfold event_wait.
  - destruct (t <=? startup_timeout)%N eqn:Ht.
    + apply N.leb_le in Ht. refine (conj _ (conj _ _)).
      * intros o [= <-]. done.
      * intros s t' [= <- <-] _. reflexivity.
      * intros _. by eexists.
    + apply N.leb_gt in Ht. refine (conj _ (conj _ _)).
      * intros o [= <-]. simpl. refine (conj _ (conj _ (conj _ (conj _ _)))); try done.
        intros s t' [= <- <-]. done.
      * intros s t' [= <- <-] Hle. lia.
      * intros _. by eexists.
  - refine (conj _ (conj _ _)).
    + intros o [= <-]. simpl. refine (conj _ (conj _ (conj _ (conj _ _)))); try done.
    + intros s t [=].
    + intros _. by eexists.
  - destruct (startup_timeout <? now)%N eqn:Hn.
    + refine (conj _ (conj _ _)).
      * intros o [= <-]. simpl. refine (conj _ (conj _ (conj _ (conj _ _)))); try done.
      * intros s t [=].
      * intros _. by eexists.
    + apply N.ltb_ge in Hn. apply connect_and_run_unfinished in Hrun.
      unfold startup_timeout in *. refine (conj _ (conj _ _)).
      * intros o [=].
      * intros s t [=].
      * intros Hlen. lia.
Qed.

Lemma startup_bounded_by_timeout_witness :
  is_Some (__init__ None None true [refused; refused; refused; refused; refused] 100).
Proof.
  destruct (startup_bounded_by_timeout None None true
              [refused; refused; refused; refused; refused] 100)
    as (_ & _ & _ & Henough).
  apply Henough. simpl. lia.
Defined.

(** ** Heartbeat *)

(** The heartbeat is created with a period of 3000 ms when the first
    connection is ready. *)
Lemma heartbeat_period (s s' : state) (env : attempt_env) :
  connect_attempt s env = (s', Ret tt) →
  heartbeat_callback s' = Some (mkPeriodic 3000 true).
Proof.
  unfold connect_attempt.
  destruct (establish _ env _ _ _) as [s1 [[] | e]]; [| discriminate].
  by intros [= <-].
Qed.

(** [_send_heartbeat] turns [is_running] off in one case only: the
    session is running and [self.ioloop] or [self.ws] is [None]. *)
Lemma heartbeat_marks_not_ready (s : state) :
  is_running s = true →
  (is_running (_send_heartbeat s) = false ↔ ioloop s = false ∨ ws s = None).
Proof.
  intros Hr. unfold _send_heartbeat, next_seq. rewrite Hr. simpl.
  destruct (ioloop s); simpl.
  - destruct (ws s); simpl.
    + rewrite Hr. split; [discriminate | intros [H | H]; discriminate H].
    + split; auto.
  - split; auto.
Qed.

(** C8, where the code departs from it.  On a running session with its
    loop and its connection object, the heartbeat draws a number and
    queues the write, nothing else; when the loop then runs the queued
    write, on an open or on a closed connection, [is_running] is still
    true: the failed write is logged by the loop and the session is not
    marked not-ready. *)
Theorem heartbeat_write_failure_unnoticed (s : state) :
  is_running s = true → ioloop s = true → is_Some (ws s) →
  _send_heartbeat s =
    emit (Schedule (CbWrite (heartbeat_frame (seq_counter s)))) (snd (next_seq s)) ∧
  (∀ sock,
     is_running (run_write_callback (_send_heartbeat s) sock
                   (heartbeat_frame (seq_counter s))) = true) ∧
  trace (run_write_callback (_send_heartbeat s) WsClosed
           (heartbeat_frame (seq_counter s))) =
    trace s ++ [Drew (seq_counter s);
                Schedule (CbWrite (heartbeat_frame (seq_counter s)));
                Log ERROR "Exception in callback" JNull].
Proof.
  intros Hr Hi [w Hw].
  assert (_send_heartbeat s =
          emit (Schedule (CbWrite (heartbeat_frame (seq_counter s)))) (snd (next_seq s)))
    as Hhb.
  { unfold _send_heartbeat, next_seq. rewrite Hr. simpl. by rewrite Hi, Hw. }
  split; [done |]. rewrite Hhb. split.
  - intros []; simpl; exact Hr.
  - simpl. by rewrite <- !app_assoc.
Qed.

Lemma heartbeat_write_failure_unnoticed_witness :
  is_running (run online_lost [OpHeartbeat; OpRunWrite WsClosed (heartbeat_frame 0)])
    = true.
Proof.
  destruct (heartbeat_write_failure_unnoticed online_lost eq_refl eq_refl
              (ex_intro _ WsClosed eq_refl)) as (_ & Hstill & _).
  exact (Hstill WsClosed).
Defined.

(** ** Media resolution *)

(** C9, as the code has it.  Both operations fetch, over HTTP, the URL
    found in the payload of the response ([MP4_1080] or else [MP4_720]
    for a video, [url] for a file) and return no media when there is no
    URL.  [get_video] returns bytes only from a response whose content
    type contains [video], and returns no media for a content type that
    does not.  [get_file] returns the body with a file name whatever the
    content type: it checks none. *)
Theorem media_resolution (http : json → outcome http_response) :
  (∀ s id during,
     get_video s id during http =
       match send_command s 83 (JDict [("videoId", JInt id); ("token", token_json s)])
               default_timeout during with
       | (s1, Raise e, _) => (s1, Raise e)
       | (s1, Ret info, _) => (s1, video_of_response info http)
       end) ∧
  (∀ info media,
     video_of_response info http = Ret (Some media) →
     ∃ payload hi lo r ct,
       py_getitem info "payload" = Ret payload ∧
       py_get payload "MP4_1080" = Ret hi ∧ py_get payload "MP4_720" = Ret lo ∧
       truthy (py_or hi lo) = true ∧
       http (py_or hi lo) = Ret r ∧ status_ok r = true ∧
       content_type r = Some ct ∧ contains "video" ct = true ∧
       media = content r) ∧
  (∀ info payload hi lo,
     py_getitem info "payload" = Ret payload →
     py_get payload "MP4_1080" = Ret hi → py_get payload "MP4_720" = Ret lo →
     (truthy (py_or hi lo) = false → video_of_response info http = Ret None) ∧
     (∀ r ct, truthy (py_or hi lo) = true → http (py_or hi lo) = Ret r →
              status_ok r = true → content_type r = Some ct →
              video_of_response info http =
                Ret (if contains "video" ct then Some (content r) else None))) ∧
  (∀ s id chat_id msg_id during,
     get_file s id chat_id msg_id during http =
       match send_command s 88
               (JDict [("fileId", JInt id); ("chatId", JInt chat_id);
                       ("messageId", JStr msg_id)]) default_timeout during with
       | (s1, Raise e, _) => (s1, Raise e)
       | (s1, Ret info, _) => (s1, file_of_response info http)
       end) ∧
  (∀ info payload url,
     py_getitem info "payload" = Ret payload → py_get payload "url" = Ret url →
     (truthy url = false → file_of_response info http = Ret None) ∧
     (∀ r, truthy url = true → http url = Ret r → status_ok r = true →
           file_of_response info http = Ret (Some (content r, file_name_of r)))).
Proof.
  refine (conj _ (conj _ (conj _ (conj _ _)))).
  - reflexivity.
  - intros info media. unfold video_of_response.
    destruct (py_getitem info "payload") as [payload |] eqn:Hp; [| discriminate]. simpl.
    destruct (py_get payload "MP4_1080") as [hi |] eqn:Hhi; [| discriminate]. simpl.
    destruct (py_get payload "MP4_720") as [lo |] eqn:Hlo; [| discriminate]. simpl.
    destruct (truthy (py_or hi lo)) eqn:Hu; [| discriminate]. simpl.
    destruct (http (py_or hi lo)) as [r |] eqn:Hh; [| discriminate]. simpl.
    destruct (status_ok r) eqn:Hs; [| discriminate]. simpl.
    destruct (content_type r) as [ct |] eqn:Hc; [| discriminate].
    destruct (contains "video" ct) eqn:Hv; [| discriminate]. simpl.
    intros [= <-]. by exists payload, hi, lo, r, ct.
  - intros info payload hi lo Hp Hhi Hlo. unfold video_of_response.
    rewrite Hp. simpl. rewrite Hhi. simpl. rewrite Hlo. simpl. split.
    + by intros ->.
    + intros r ct -> Hh Hs Hc. simpl. rewrite Hh. simpl. rewrite Hs, Hc. simpl.
      by destruct (contains "video" ct).
  - reflexivity.
  - intros info payload url Hp Hurl. unfold file_of_response.
    rewrite Hp. simpl. rewrite Hurl. simpl. split.
    + by intros ->.
    + intros r -> Hh Hs. simpl. rewrite Hh. simpl. by rewrite Hs.
Qed.

Lemma media_resolution_witness :
  video_of_response media_response (λ _, Ret web_page) = Ret None.
Proof.
  destruct (media_resolution (λ _, Ret web_page)) as (_ & _ & Hvideo & _).
  destruct (Hvideo media_response
              (JDict [("url", JStr "https://files.example/1");
                      ("MP4_720", JStr "https://files.example/1")])
              JNull (JStr "https://files.example/1") eq_refl eq_refl eq_refl)
    as (_ & Hcheck).
  exact (Hcheck web_page "text/html" eq_refl eq_refl eq_refl eq_refl).
Defined.

(** C9 as stated fails for a file: [get_file] returns the body of a
    response that carries no content type at all, and the body of a web
    page, as the file. *)
Lemma get_file_checks_no_content_type :
  snd (get_file online 1 2 "3" [(40%N, OpMessage (Some media_response))]
         (λ _, Ret untyped_body)) =
    Ret (Some ([Byte.x00; Byte.x01], "downloaded_file")) ∧
  snd (get_file online 1 2 "3" [(40%N, OpMessage (Some media_response))]
         (λ _, Ret web_page)) =
    Ret (Some ([Byte.x3c; Byte.x68; Byte.x31; Byte.x3e], "downloaded_file")).
Proof. vm_compute. split; reflexivity. Qed.

(** * Further properties of the code *)

(** ** What an execution keeps *)

Lemma steady_refl (s : state) : steady s s.
Proof. unfold steady. tauto. Qed.

Lemma steady_trans (s1 s2 s3 : state) : steady s1 s2 → steady s2 s3 → steady s1 s3.
Proof.
  intros (Hr1 & Ha1 & Ht1 & He1 & Hi1 & Hh1 & Hn1) (Hr2 & Ha2 & Ht2 & He2 & Hi2 & Hh2 & Hn2).
  unfold steady. repeat apply conj; try congruence; auto.
Qed.

Lemma steady_fields (s s' : state) :
  _should_reconnect s' = _should_reconnect s →
  auto_reconnect s' = auto_reconnect s →
  token s' = token s →
  on_event s' = on_event s →
  ioloop s' = ioloop s →
  heartbeat_callback s' = heartbeat_callback s →
  subscribed_chats s' = subscribed_chats s →
  steady s s'.
Proof.
  intros Hr Ha Ht He Hi Hh Hn. unfold steady.
  rewrite Hr, Ha, Ht, He, Hi, Hh, Hn. tauto.
Qed.

Lemma steady_clear_reconnect (s : state) : steady s (set_should_reconnect false s).
Proof. unfold steady; simpl. tauto. Qed.

Lemma steady_clear_ioloop (s : state) : steady s (set_ioloop false s).
Proof. unfold steady; simpl. tauto. Qed.

Lemma steady_new_heartbeat (s : state) (b : bool) :
  steady s (set_heartbeat_callback (Some (mkPeriodic 3000 b)) s).
Proof.
  unfold steady; simpl. repeat apply conj; try tauto.
  intros _ h [= <-]. reflexivity.
Qed.

Lemma steady_stop_heartbeat (s : state) : steady s (stop_heartbeat s).
Proof.
  unfold stop_heartbeat. destruct (heartbeat_callback s) as [h |] eqn:Hh;
    [| apply steady_refl].
  unfold steady; simpl. repeat apply conj; try tauto.
  intros H3 h' [= <-]. simpl. by apply H3.
Qed.

Lemma steady_start_heartbeat (s : state) : steady s (start_heartbeat s).
Proof.
  unfold start_heartbeat. destruct (heartbeat_callback s) as [h |] eqn:Hh;
    [| apply steady_refl].
  unfold steady; simpl. repeat apply conj; try tauto.
  intros H3 h' [= <-]. simpl. by apply H3.
Qed.

Lemma steady_subscribe_to_chat_end (s : state) (chat_id : Z) (subscribe : bool) :
  steady s (subscribe_to_chat_end s chat_id subscribe).
Proof.
  unfold subscribe_to_chat_end. cbv zeta. destruct subscribe.
  - case_bool_decide as Hin; [by apply steady_fields |].
    unfold steady; simpl. repeat apply conj; try tauto.
    intros Hn. apply NoDup_app. repeat split; [done | | apply NoDup_singleton].
    intros x Hx Hx'. apply list_elem_of_singleton in Hx'. by subst.
  - unfold steady; simpl. repeat apply conj; try tauto.
    intros Hn. by apply NoDup_filter.
Qed.

Create HintDb std.

(** As [adv], for [steady]. *)
Ltac std :=
  lazymatch goal with
  | |- steady ?s ?s => apply steady_refl
  | H : steady ?x ?y |- steady ?s ?y =>
    apply (steady_trans s x y); [std | exact H]
  | |- steady ?s (fst (?a, ?b)) => change (steady s a); std
  | |- steady ?s (fst (if ?b then _ else _)) => destruct b eqn:?; std
  | |- steady ?s (if ?b then _ else _) => destruct b eqn:?; std
  | |- steady ?s (set_should_reconnect false ?x) =>
    apply (steady_trans s x); [std | apply steady_clear_reconnect]
  | |- steady ?s (set_ioloop false ?x) =>
    apply (steady_trans s x); [std | apply steady_clear_ioloop]
  | |- steady ?s (set_heartbeat_callback (Some (mkPeriodic 3000 ?b)) ?x) =>
    apply (steady_trans s x); [std | apply steady_new_heartbeat]
  | |- steady ?s (stop_heartbeat ?x) =>
    apply (steady_trans s x); [std | apply steady_stop_heartbeat]
  | |- steady ?s (start_heartbeat ?x) =>
    apply (steady_trans s x); [std | apply steady_start_heartbeat]
  | |- steady ?s (subscribe_to_chat_end ?x ?c ?b) =>
    apply (steady_trans s x); [std | apply steady_subscribe_to_chat_end]
  | |- steady ?s (emit ?e ?x) =>
    apply (steady_trans s x); [std | apply steady_fields; reflexivity]
  | |- steady ?s (set_is_running ?b ?x) =>
    apply (steady_trans s x); [std | apply steady_fields; reflexivity]
  | |- steady ?s (set_ws ?b ?x) =>
    apply (steady_trans s x); [std | apply steady_fields; reflexivity]
  | |- steady ?s (set_seq_counter ?b ?x) =>
    apply (steady_trans s x); [std | apply steady_fields; reflexivity]
  | |- steady ?s (set_pending_responses ?b ?x) =>
    apply (steady_trans s x); [std | apply steady_fields; reflexivity]
  | |- steady ?s (set_futures ?b ?x) =>
    apply (steady_trans s x); [std | apply steady_fields; reflexivity]
  | |- steady ?s (match (if ?b then _ else _) with _ => _ end) =>
    destruct b eqn:?; std
  | |- steady ?s (fst (match (if ?b then _ else _) with _ => _ end)) =>
    destruct b eqn:?; std
  | |- steady ?s (match (?a, ?b) with _ => _ end) => cbv beta iota zeta; std
  | |- steady ?s (fst (match (?a, ?b) with _ => _ end)) => cbv beta iota zeta; std
  | |- steady ?s (fst (match ?c with _ => _ end)) => std_match c
  | |- steady ?s (match ?c with _ => _ end) => std_match c
  | |- steady ?s (fst ?c) =>
    let H := fresh "Hcall" in
    assert (H : steady _ (fst c)) by (eauto with std);
    lazymatch type of H with
    | steady ?x _ => apply (steady_trans s x); [std | exact H]
    end
  | |- _ => idtac
  end
with std_match c :=
  first
    [ is_var c; destruct c eqn:?; std
    | let H := fresh "Hcall" in
      assert (H : steady _ (fst c)) by (eauto with std);
      destruct c as [? ?]; simpl fst in H; std
    | destruct c eqn:?; std ].

Lemma steady_set_result (s : state) (fut : Z) (data : json) :
  steady s (fst (set_result fut data s)).
Proof. unfold set_result. std. Qed.
#[local] Hint Resolve steady_set_result : std.

Lemma steady_process_message_body (s : state) (message : option json) :
  steady s (fst (process_message_body s message)).
Proof.
  unfold process_message_body.
  destruct message as [data |]; [| std].
  destruct (py_get data "cmd") as [cmd |]; [| std].
  destruct (py_eq_int cmd 1); [| std].
  destruct (py_get data "seq") as [seq_id |]; [| std].
  destruct (py_key seq_id) as [| | k]; [std | std |].
  destruct (pending_responses s !! k) as [[b r opcode | fut opcode] |]; cbv zeta; std.
Qed.
#[local] Hint Resolve steady_process_message_body : std.

Lemma steady_process_message (s : state) (message : option json) :
  steady s (_process_message s message).
Proof. unfold _process_message. std. Qed.

Lemma steady_add_write_callback (frame : json) (s : state) :
  steady s (fst (add_write_callback frame s)).
Proof. unfold add_write_callback. std. Qed.
#[local] Hint Resolve steady_add_write_callback : std.

Lemma steady_ws_write_message (frame : json) (s : state) :
  steady s (fst (ws_write_message frame s)).
Proof. unfold ws_write_message. std. Qed.
#[local] Hint Resolve steady_ws_write_message : std.

Lemma steady_send_command_begin (s : state) (opcode : Z) (payload : json) (w : bool) :
  steady s (fst (send_command_begin s opcode payload w)).
Proof. unfold send_command_begin, next_seq, register. cbv beta iota zeta. std. Qed.
#[local] Hint Resolve steady_send_command_begin : std.

Lemma steady_send_command_wake (s : state) (seq_id : Z) (is_set : bool) :
  steady s (fst (send_command_wake s seq_id is_set)).
Proof. unfold send_command_wake. cbv zeta. std. Qed.
#[local] Hint Resolve steady_send_command_wake : std.

Lemma steady_send_command_async_begin (s : state) (opcode : Z) (payload : json) :
  steady s (fst (send_command_async_begin s opcode payload)).
Proof. unfold send_command_async_begin, next_seq, register. cbv beta iota zeta. std. Qed.
#[local] Hint Resolve steady_send_command_async_begin : std.

Lemma steady_send_command_async_resume (s : state) (seq_id : Z) :
  steady s (fst (send_command_async_resume s seq_id)).
Proof. unfold send_command_async_resume. std. Qed.
#[local] Hint Resolve steady_send_command_async_resume : std.

Lemma steady_send_heartbeat (s : state) : steady s (_send_heartbeat s).
Proof. unfold _send_heartbeat, next_seq. cbv beta iota zeta. std. Qed.

Lemma steady_run_write_callback (s : state) (sock : websocket) (frame : json) :
  steady s (run_write_callback s sock frame).
Proof. unfold run_write_callback. std. Qed.

Lemma steady_close_ws (s : state) : steady s (close_ws s).
Proof. unfold close_ws. std. Qed.

Lemma steady_close (s : state) : steady s (close s).
Proof. unfold close. cbv zeta. std. Qed.

Lemma steady_shutdown_async (s : state) : steady s (_shutdown_async s).
Proof.
  unfold _shutdown_async.
  eapply steady_trans; [apply steady_stop_heartbeat | apply steady_close_ws].
Qed.

Lemma steady_step (s : state) (o : op) : steady s (step s o).
Proof.
  destruct o; simpl; auto using steady_process_message, steady_send_heartbeat,
    steady_run_write_callback, steady_subscribe_to_chat_end, steady_close,
    steady_shutdown_async with std.
Qed.

Lemma steady_run (ops : list op) (s : state) : steady s (run s ops).
Proof.
  revert s. induction ops as [| o ops IH]; intros s; simpl.
  - apply steady_refl.
  - eapply steady_trans; [apply steady_step | apply IH].
Qed.

Lemma steady_send_command_async (s : state) (opcode : Z) (payload : json)
    (during : list op) :
  steady s (fst (send_command_async s opcode payload during)).
Proof.
  unfold send_command_async.
  pose proof (steady_send_command_async_begin s opcode payload) as H.
  destruct (send_command_async_begin s opcode payload) as [s1 [seq_id | e]];
    simpl in H; [| done].
  eapply steady_trans; [exact H |].
  eapply steady_trans; [apply steady_run |].
  apply steady_send_command_async_resume.
Qed.
#[local] Hint Resolve steady_send_command_async : std.

Lemma steady_handshake_async (s : state) (during : list op) :
  steady s (fst (_handshake_async s during)).
Proof. unfold _handshake_async. cbv zeta. std. Qed.
#[local] Hint Resolve steady_handshake_async : std.

Lemma steady_authenticate_async (s : state) (during : list op) :
  steady s (fst (_authenticate_async s during)).
Proof. unfold _authenticate_async. cbv zeta. std. Qed.
#[local] Hint Resolve steady_authenticate_async : std.

Lemma steady_establish (s : state) (env : attempt_env)
    (connected authenticated : string) (no_token : option string) :
  steady s (fst (establish s env connected authenticated no_token)).
Proof.
  unfold establish. cbv zeta.
  pose proof (steady_run (during_connect env) s) as Hrun.
  set (s1 := run s (during_connect env)) in *. clearbody s1.
  std.
Qed.
#[local] Hint Resolve steady_establish : std.

Lemma steady_connect_attempt (s : state) (env : attempt_env) :
  steady s (fst (connect_attempt s env)).
Proof. unfold connect_attempt. std. Qed.
#[local] Hint Resolve steady_connect_attempt : std.

Lemma steady_connect_and_run (envs : list attempt_env) (now : N) (s : state) :
  steady s (fst (_connect_and_run envs now s)).
Proof.
  revert now s. induction envs as [| env rest IH]; intros now s; simpl.
  - std.
  - destruct (_should_reconnect s); [| std].
    pose proof (steady_connect_attempt s env) as H.
    destruct (connect_attempt s env) as [s1 [[] | e]]; simpl in H; [done |].
    eapply steady_trans; [| apply IH].
    eapply steady_trans; [| apply steady_run]. std.
Qed.

Lemma steady_resubscribe (chats : list Z) (during : list (list op)) (s : state) :
  steady s (resubscribe s chats during).
Proof.
  revert during s. induction chats as [| c rest IH]; intros during s; simpl.
  - apply steady_refl.
  - eapply steady_trans; [| apply IH]. std.
Qed.

Lemma steady_reconnect_attempt (s : state) (d : Z) (env : attempt_env) :
  steady s (fst (reconnect_attempt s d env)).
Proof.
  unfold reconnect_attempt.
  pose proof (steady_establish (emit (Log INFO "Reconnecting" (JInt d)) s) env
                "Reconnected to WebSocket." "Re-authenticated successfully." None) as H.
  destruct (establish _ env _ _ _) as [s1 [[] | e]]; simpl in H.
  - cbv zeta. simpl fst.
    apply (steady_trans s (start_heartbeat s1)).
    + std.
    + std. apply steady_resubscribe.
  - simpl. std.
Qed.

Lemma steady_reconnect_loop (envs : list attempt_env) (d : Z) (s : state)
    (acc : list Z) :
  steady s (final_state (reconnect_loop envs d s acc)).
Proof.
  revert d s acc. induction envs as [| env rest IH]; intros d s acc; simpl.
  - destruct (_should_reconnect s && auto_reconnect s); apply steady_refl.
  - destruct (_should_reconnect s && auto_reconnect s); [| apply steady_refl].
    pose proof (steady_reconnect_attempt (run s (during_sleep env)) d env) as H.
    destruct (reconnect_attempt _ d env) as [s2 [[] | e]]; simpl in H.
    + simpl. eapply steady_trans; [apply steady_run | exact H].
    + eapply steady_trans; [| apply IH].
      apply (steady_trans s (run s (during_sleep env))); [apply steady_run |].
      std.
Qed.

Lemma steady_reconnect_async (s : state) (envs : list attempt_env) :
  steady s (final_state (_reconnect_async s envs)).
Proof.
  unfold _reconnect_async. cbv zeta.
  eapply steady_trans; [| apply steady_reconnect_loop].
  apply (steady_trans s (set_is_running false s)); [std |].
  eapply steady_trans; [apply steady_stop_heartbeat | apply steady_close_ws].
Qed.

Lemma steady_listener_turn (s : state) (r : read_result) :
  steady s (fst (listener_turn s r)).
Proof.
  unfold listener_turn. cbv zeta.
  destruct r; [apply steady_process_message | std | std | std].
Qed.

Lemma steady_listener_loop_async (reads : list (list op * read_result))
    (envs : list attempt_env) (s : state) :
  steady s (listener_state (_listener_loop_async reads envs s)).
Proof.
  revert s. induction reads as [| [during r] rest IH]; intros s; simpl.
  - destruct (is_running s); apply steady_refl.
  - destruct (is_running s); [| apply steady_refl].
    pose proof (steady_listener_turn (run s during) r) as H.
    destruct (listener_turn (run s during) r) as [s1 []]; simpl in H.
    + eapply steady_trans; [| apply IH].
      eapply steady_trans; [apply steady_run | exact H].
    + simpl. eapply steady_trans; [| apply steady_reconnect_async].
      eapply steady_trans; [apply steady_run | exact H].
    + simpl. eapply steady_trans; [apply steady_run | exact H].
Qed.

Lemma steady_perform (s : state) (a : activity) : steady s (perform s a).
Proof.
  destruct a; simpl.
  - apply steady_step.
  - apply steady_connect_and_run.
  - apply steady_listener_loop_async.
  - apply steady_reconnect_async.
Qed.

Lemma steady_lifetime (acts : list activity) (s : state) : steady s (lifetime s acts).
Proof.
  revert s. induction acts as [| a acts IH]; intros s; simpl.
  - apply steady_refl.
  - eapply steady_trans; [apply steady_perform | apply IH].
Qed.

(** ** Closing *)

Lemma close_clears_reconnect (s : state) :
  is_running s = true ∨ ioloop s = true → _should_reconnect (close s) = false.
Proof.
  unfold close. simpl.
  destruct (is_running s), (ioloop s); simpl; try reflexivity.
  intros [H | H]; discriminate H.
Qed.

(** X1.  [close] is idempotent.  On a client that is running or has its
    loop it clears [is_running] and [_should_reconnect], drops the loop
    and queues [_shutdown_async] once.  Neither [close] nor
    [_shutdown_async] touches the pending table, the futures, the counter
    or the subscriptions: a request pending at close is not cancelled. *)
Theorem close_is_idempotent_and_cancels_nothing (s : state) :
  close (close s) = close s ∧
  (is_running s = true ∨ ioloop s = true →
   is_running (close s) = false ∧ _should_reconnect (close s) = false ∧
   ioloop (close s) = false ∧
   trace (close s) =
     trace s ++ [Log INFO "Closing connection..." JNull] ++
     (if ioloop s then [Schedule CbShutdown] else []) ++
     [Log INFO "Connection closed." JNull]) ∧
  (pending_responses (close s) = pending_responses s ∧
   futures (close s) = futures s ∧
   seq_counter (close s) = seq_counter s ∧
   subscribed_chats (close s) = subscribed_chats s) ∧
  (pending_responses (_shutdown_async s) = pending_responses s ∧
   futures (_shutdown_async s) = futures s ∧
   seq_counter (_shutdown_async s) = seq_counter s ∧
   subscribed_chats (_shutdown_async s) = subscribed_chats s ∧
   trace (_shutdown_async s) = trace s).
Proof.
  unfold close, _shutdown_async, close_ws, stop_heartbeat. simpl.
  destruct (is_running s) eqn:Hr, (ioloop s) eqn:Hi; simpl;
    rewrite ?Hr, ?Hi; simpl;
    (split; [reflexivity |]); (split; [| split]);
    try (intros _; repeat split; by rewrite <- ?app_assoc);
    try (intros [H | H]; discriminate H);
    try (repeat split; reflexivity);
    destruct (heartbeat_callback s); simpl; destruct (ws s); repeat split; reflexivity.
Qed.

(** X2.  Once a client that was running or had its loop is closed,
    whatever happens afterwards, it never reconnects: [_reconnect_async]
    gives up before its first sleep, a listener whose read fails leaves
    without reconnecting, and [_connect_and_run] makes no attempt. *)
Theorem closed_client_never_reconnects (s : state) (acts : list activity)
    (envs : list attempt_env) :
  is_running s = true ∨ ioloop s = true →
  ended (_reconnect_async (lifetime (close s) acts) envs) = GaveUp ∧
  slept (_reconnect_async (lifetime (close s) acts) envs) = [] ∧
  (∀ r, snd (listener_turn (lifetime (close s) acts) r) ≠ ListenerReconnects) ∧
  (∀ now, snd (_connect_and_run envs now (lifetime (close s) acts)) = NeverReady).
Proof.
  intros Hlive.
  pose proof (close_clears_reconnect s Hlive) as Hoff.
  destruct (steady_lifetime acts (close s)) as (Hkeep & _).
  specialize (Hkeep Hoff).
  set (u := lifetime (close s) acts) in *.
  assert (_should_reconnect (close_ws (stop_heartbeat (set_is_running false u))) = false)
    as Hpro.
  { unfold close_ws, stop_heartbeat.
    destruct (heartbeat_callback (set_is_running false u)); simpl;
      destruct (ws u); simpl; exact Hkeep. }
  repeat apply conj.
  - unfold _reconnect_async. cbv zeta. destruct envs; simpl; by rewrite Hpro.
  - unfold _reconnect_async. cbv zeta. destruct envs; simpl; by rewrite Hpro.
  - intros r. unfold listener_turn. rewrite Hkeep. simpl. by destruct r.
  - intros now. destruct envs; simpl; by rewrite Hkeep.
Qed.

Lemma closed_client_never_reconnects_witness :
  slept (_reconnect_async
           (lifetime (close online) [Atomic OpHeartbeat; Reconnect [accepted]])
           [accepted; accepted]) = [].
Proof.
  apply (closed_client_never_reconnects online
           [Atomic OpHeartbeat; Reconnect [accepted]] [accepted; accepted]).
  by left.
Defined.

(** X3.  Through any succession of operations and loops,
    [_should_reconnect] is never set back once cleared, [auto_reconnect],
    the token and the event handler never change, and a loop that is gone
    never comes back. *)
Theorem session_settings_are_durable (s : state) (acts : list activity) :
  (_should_reconnect s = false → _should_reconnect (lifetime s acts) = false) ∧
  auto_reconnect (lifetime s acts) = auto_reconnect s ∧
  token (lifetime s acts) = token s ∧
  on_event (lifetime s acts) = on_event s ∧
  (ioloop s = false → ioloop (lifetime s acts) = false).
Proof.
  destruct (steady_lifetime acts s) as (Hr & Ha & Ht & He & Hi & _).
  done.
Qed.

(** X4.  From the creation of the client on, whenever there is a
    heartbeat callback its period is 3000 ms, and the client that the
    constructor returns has it running. *)
Theorem heartbeat_period_is_3000 (tok : option string) (ev : option bool)
    (ar : bool) (acts : list activity) :
  (∀ h, heartbeat_callback (lifetime (created tok ev ar) acts) = Some h →
        interval_ms h = 3000) ∧
  (∀ envs stops_after o s,
     __init__ tok ev ar envs stops_after = Some o → result o = Constructed s →
     heartbeat_callback s = Some (mkPeriodic 3000 true)).
Proof.
  split.
  - destruct (steady_lifetime acts (created tok ev ar)) as (_ & _ & _ & _ & _ & Hh & _).
    apply Hh. intros h [=].
  - intros envs stops_after o s. unfold __init__. cbv zeta.
    assert (∀ es now u u' t, _connect_and_run es now u = (u', ReadyAt t) →
                             heartbeat_callback u' = Some (mkPeriodic 3000 true)) as Hready.
    { induction es as [| env rest IH]; intros now u u' t; simpl.
      - destruct (_should_reconnect u); discriminate.
      - destruct (_should_reconnect u); [| discriminate].
        destruct (connect_attempt u env) as [u1 [[] | e]] eqn:Hc.
        + intros [= <- _]. by apply (heartbeat_period u u1 env).
        + apply IH. }
    destruct (_connect_and_run envs 0 (created tok ev ar)) as [s2 [t | | now]] eqn:Hrun;
      unfold event_wait.
    + destruct (t <=? startup_timeout)%N; intros [= <-]; simpl; [| discriminate].
      intros [= <-]. by apply (Hready _ _ _ _ _ Hrun).
    + intros [= <-]. discriminate.
    + destruct (startup_timeout <? now)%N; [| discriminate].
      intros [= <-]. discriminate.
Qed.

(** ** Inbound frames *)


Lemma process_message_fields (s : state) (message : option json) :
  is_running (_process_message s message) = is_running s ∧
  _should_reconnect (_process_message s message) = _should_reconnect s ∧
  auto_reconnect (_process_message s message) = auto_reconnect s ∧
  ws (_process_message s message) = ws s ∧
  ioloop (_process_message s message) = ioloop s ∧
  heartbeat_callback (_process_message s message) = heartbeat_callback s ∧
  seq_counter (_process_message s message) = seq_counter s ∧
  subscribed_chats (_process_message s message) = subscribed_chats s.
Proof.
  repeat apply conj;
    unfold _process_message, process_message_body;
    (destruct message as [data |]; [| reflexivity]);
    (destruct (py_get data "cmd") as [cmd |]; [| reflexivity]);
    (destruct (py_eq_int cmd 1);
     [ destruct (py_get data "seq") as [seq_id |]; [| reflexivity];
       destruct (py_key seq_id) as [| | k]; [reflexivity | reflexivity |];
       destruct (pending_responses s !! k) as [[b r opcode | fut opcode] |];
       [| | reflexivity]; cbv zeta; simpl entry_opcode; unfold set_result;
       destruct (opcode =? OPCODE_MAP.HEARTBEAT); simpl;
       try destruct (futures s !! fut); reflexivity
     | destruct (py_eq_int cmd 0);
       [ destruct (on_event s); [destruct (ioloop s) eqn:Ei |]; simpl;
         rewrite ?Ei; reflexivity
       | destruct (py_eq_int cmd 3); reflexivity ] ]).
Qed.

Lemma process_message_effects (P : effect → Prop) (s : state) (message : option json) :
  (∀ text data, P (Log DEBUG text data)) →
  (∀ text data, P (Log ERROR text data)) →
  (∀ data cmd, py_get data "cmd" = Ret cmd → P (Submit data)) →
  ∃ new, trace (_process_message s message) = trace s ++ new ∧ Forall P new.
Proof.
  intros Hdebug Herror Hsubmit.
  assert (∀ u : state, ∃ new, trace u = trace u ++ new ∧ Forall P new)
    as Hnil by (intros u; exists []; by rewrite app_nil_r).
  assert (∀ (u : state) e, P e →
            ∃ new, trace (emit e u) = trace u ++ new ∧ Forall P new)
    as Hone by (intros u e He; exists [e]; by repeat constructor).
  assert (∀ (u : state) e1 e2, P e1 → P e2 →
            ∃ new, trace (emit e2 (emit e1 u)) = trace u ++ new ∧ Forall P new)
    as Htwo.
  { intros u e1 e2 H1 H2. exists [e1; e2]. simpl.
    split; [by rewrite <- app_assoc | by repeat constructor]. }
  unfold _process_message, process_message_body.
  destruct message as [data |]; [| by apply Hone].
  destruct (py_get data "cmd") as [cmd |] eqn:Hcmd; [| by apply Hone].
  destruct (py_eq_int cmd 1).
  - destruct (py_get data "seq") as [seq_id |]; [| by apply Hone].
    destruct (py_key seq_id) as [| | k]; [by apply Hone | apply Hnil |].
    destruct (pending_responses s !! k) as [[b r opcode | fut opcode] |];
      [| | apply Hnil]; cbv zeta; simpl entry_opcode.
    + destruct (opcode =? OPCODE_MAP.HEARTBEAT); simpl; [apply Hnil | by apply Hone].
    + unfold set_result.
      destruct (opcode =? OPCODE_MAP.HEARTBEAT); simpl;
        destruct (futures s !! fut); simpl.
      * by apply Hone.
      * apply Hnil.
      * by apply (Htwo s).
      * by apply Hone.
  - destruct (py_eq_int cmd 0).
    + destruct (on_event s); [destruct (ioloop s) |]; simpl;
        first [apply Hnil | by apply Hone | apply Hone; by eapply Hsubmit].
    + destruct (py_eq_int cmd 3); by apply Hone.
Qed.

Lemma inbound_effects_only (s : state) (message : option json) :
  ∃ new, trace (_process_message s message) = trace s ++ new ∧
         Forall inbound_effect new.
Proof. by apply process_message_effects. Qed.

(** X5.  Whatever the frame, [_process_message] leaves [is_running],
    [_should_reconnect], [auto_reconnect], the connection, the loop, the
    heartbeat, the counter and the subscriptions as they are, and adds to
    the history nothing but log lines and events for the handler: it
    never draws a sequence number and never writes or queues a frame. *)
Theorem inbound_frame_changes_no_setting (s : state) (message : option json) :
  is_running (_process_message s message) = is_running s ∧
  _should_reconnect (_process_message s message) = _should_reconnect s ∧
  auto_reconnect (_process_message s message) = auto_reconnect s ∧
  ws (_process_message s message) = ws s ∧
  ioloop (_process_message s message) = ioloop s ∧
  heartbeat_callback (_process_message s message) = heartbeat_callback s ∧
  seq_counter (_process_message s message) = seq_counter s ∧
  subscribed_chats (_process_message s message) = subscribed_chats s ∧
  ∃ new, trace (_process_message s message) = trace s ++ new ∧
         Forall inbound_effect new.
Proof.
  destruct (process_message_fields s message)
    as (Hr & Hs & Ha & Hw & Hi & Hh & Hc & Hsub).
  repeat apply conj; try done. apply inbound_effects_only.
Qed.

(** X6.  Frames that cannot be dispatched change nothing but the log: a
    frame that is not JSON, a JSON value that is not an object, and a
    response whose [seq] is a list or an object are logged as an error; a
    frame whose [cmd] is none of 1, 0, 3 (or is missing) is logged at
    debug level; a push event met with a falsy handler is ignored. *)
Theorem undispatchable_frames_are_only_logged (s : state) :
  _process_message s None = emit (Log ERROR "Error processing message" JNull) s ∧
  (∀ data, (∀ items, data ≠ JDict items) →
     _process_message s (Some data) =
       emit (Log ERROR "Error processing message" JNull) s) ∧
  (∀ data cmd seq_id,
     py_get data "cmd" = Ret cmd → py_eq_int cmd 1 = true →
     py_get data "seq" = Ret seq_id → py_key seq_id = Unhashable →
     _process_message s (Some data) =
       emit (Log ERROR "Error processing message" JNull) s) ∧
  (∀ data cmd,
     py_get data "cmd" = Ret cmd →
     py_eq_int cmd 1 = false → py_eq_int cmd 0 = false → py_eq_int cmd 3 = false →
     _process_message s (Some data) =
       emit (Log DEBUG "Received unexpected API response" data) s) ∧
  (∀ items, assoc "cmd" items = None →
     _process_message s (Some (JDict items)) =
       emit (Log DEBUG "Received unexpected API response" (JDict items)) s) ∧
  (∀ data cmd,
     py_get data "cmd" = Ret cmd → py_eq_int cmd 1 = false →
     py_eq_int cmd 0 = true → on_event s = false →
     _process_message s (Some data) = s).
Proof.
  repeat apply conj.
  - reflexivity.
  - intros data Hnd. unfold _process_message, process_message_body.
    destruct data; try reflexivity. by destruct (Hnd items).
  - intros data cmd seq_id Hc H1 Hs Hk.
    unfold _process_message, process_message_body.
    by rewrite Hc, H1, Hs, Hk.
  - intros data cmd Hc H1 H0 H3.
    unfold _process_message, process_message_body.
    by rewrite Hc, H1, H0, H3.
  - intros items Hnone. unfold _process_message, process_message_body.
    simpl. by rewrite Hnone.
  - intros data cmd Hc H1 H0 He.
    unfold _process_message, process_message_body.
    by rewrite Hc, H1, H0, He.
Qed.

(** ** Splitting on the tests of an operation *)

(** Unfolds the pieces of an atomic operation and splits on every test
    met on the way. *)
Ltac unfold_ops :=
  unfold step, send_command_begin, send_command_wake, send_command_async_begin,
    send_command_async_resume, _send_heartbeat, run_write_callback, subscribe_to_chat_end, close,
    _shutdown_async, close_ws, stop_heartbeat, add_write_callback,
    ws_write_message, set_result, register, next_seq in *.

Ltac split_tests :=
  repeat
    (cbv zeta; simpl;
     match goal with
     | |- context [match pending_responses ?s !! ?k with _ => _ end] =>
       destruct (pending_responses s !! k) as [[? ? ? | ? ?] |] eqn:?
     | |- context [match futures ?s !! ?k with _ => _ end] =>
       destruct (futures s !! k) eqn:?
     | |- context [if ?b then _ else _] =>
       lazymatch b with
       | context [match _ with _ => _ end] => fail
       | _ => destruct b eqn:?
       end
     | |- context [match ?x with _ => _ end] =>
       lazymatch x with
       | context [match _ with _ => _ end] => fail
       | _ => destruct x eqn:?
       end
     end).

Lemma step_not_running (s : state) (o : op) :
  is_running s = false → is_running (step s o) = false.
Proof.
  intros Hr. destruct o;
    try (unfold step; by rewrite (proj1 (process_message_fields _ _)));
    unfold_ops; rewrite ?Hr; simpl; try done;
    split_tests; simpl; congruence.
Qed.

(** ** Sends that leave no entry *)

Lemma counter_ok_fresh (s : state) (k : Z) :
  counter_ok s → seq_counter s ≤ k → pending_responses s !! k = None.
Proof.
  intros (_ & _ & _ & Hall & Hin) Hk.
  destruct (pending_responses s !! k) eqn:E; [| done].
  assert (k ∈ registered (trace s)) as Hreg by (apply Hin; by rewrite E).
  rewrite Forall_forall in Hall. apply Hall in Hreg. lia.
Qed.

Lemma counter_ok_online : counter_ok online.
Proof.
  unfold counter_ok, online; simpl. repeat apply conj; try done.
  - constructor.
  - intros k [x Hx]. by rewrite lookup_empty in Hx.
Qed.

Lemma dropped_from_then_on (s : state) (n : Z) (data : json) (acts : list activity) :
  n < seq_counter s → pending_responses s !! n = None →
  answers n (Some data) = true →
  _process_message (lifetime s acts) (Some data) = lifetime s acts.
Proof.
  intros Hn Hnone Hans.
  destruct (advances_lifetime acts s) as (_ & _ & _ & Hkeep).
  apply (process_message_dropped _ data n Hans). by apply Hkeep.
Qed.

(** X7.  A heartbeat and a send with [wait_for_response=False] put no
    entry into the table: the send returns [None] at once, whatever the
    timeout, and a response of the server to either of them, whenever it
    arrives afterwards, is dropped without a trace. *)
Theorem reply_to_unregistered_send_is_dropped (s : state) (opcode : Z)
    (payload data : json) (after : list activity) :
  counter_ok s → is_running s = true → ioloop s = true → is_Some (ws s) →
  answers (seq_counter s) (Some data) = true →
  (∀ timeout during,
     send_command_with s opcode payload false timeout during =
       (fst (send_command_begin s opcode payload false), Ret JNull, 0%N)) ∧
  pending_responses (_send_heartbeat s) = pending_responses s ∧
  pending_responses (fst (send_command_begin s opcode payload false)) =
    pending_responses s ∧
  _process_message (lifetime (_send_heartbeat s) after) (Some data) =
    lifetime (_send_heartbeat s) after ∧
  _process_message (lifetime (fst (send_command_begin s opcode payload false)) after)
      (Some data) =
    lifetime (fst (send_command_begin s opcode payload false)) after.
Proof.
  intros Hok Hr Hi [w Hw] Hans.
  pose proof (counter_ok_fresh s (seq_counter s) Hok (Z.le_refl _)) as Hfresh.
  assert (_send_heartbeat s =
          emit (Schedule (CbWrite (heartbeat_frame (seq_counter s)))) (snd (next_seq s)))
    as Hhb.
  { unfold _send_heartbeat, next_seq. rewrite Hr. simpl. by rewrite Hi, Hw. }
  assert (send_command_begin s opcode payload false =
          (emit (Schedule (CbWrite (mk_command (seq_counter s) opcode payload)))
             (snd (next_seq s)), Returned JNull)) as Hsent.
  { unfold send_command_begin, add_write_callback, next_seq. rewrite Hr. simpl.
    by rewrite Hi, Hw. }
  repeat apply conj.
  - intros timeout during. unfold send_command_with. by rewrite Hsent.
  - by rewrite Hhb.
  - by rewrite Hsent.
  - apply (dropped_from_then_on _ (seq_counter s)); [| | done]; rewrite Hhb; simpl;
      [lia | done].
  - apply (dropped_from_then_on _ (seq_counter s)); [| | done]; rewrite Hsent; simpl;
      [lia | done].
Qed.

Lemma reply_to_unregistered_send_is_dropped_witness :
  _process_message (lifetime (_send_heartbeat online) [Atomic (OpSend 64 JNull true)])
      (Some (response_frame 0 "pong")) =
    lifetime (_send_heartbeat online) [Atomic (OpSend 64 JNull true)].
Proof.
  destruct (reply_to_unregistered_send_is_dropped online 64 JNull
              (response_frame 0 "pong") [Atomic (OpSend 64 JNull true)]
              counter_ok_online eq_refl eq_refl (ex_intro _ WsOpen eq_refl) eq_refl)
    as (_ & _ & _ & Hhb & _).
  exact Hhb.
Defined.

(** ** Who sets [is_running] *)

Lemma run_not_running (ops : list op) (s : state) :
  is_running s = false → is_running (run s ops) = false.
Proof.
  revert s. induction ops as [| o ops IH]; intros s Hr; [done |].
  simpl. apply IH. by apply step_not_running.
Qed.

Lemma establish_refused (s : state) (env : attempt_env) (e : exn)
    (connected authenticated : string) (no_token : option string) :
  connect_raises env = Some e →
  establish s env connected authenticated no_token =
    (run s (during_connect env), Raise e).
Proof. intros He. unfold establish. by rewrite He. Qed.

Lemma reconnect_loop_refused (envs : list attempt_env) (d : Z) (s : state)
    (acc : list Z) :
  Forall (λ env, is_Some (connect_raises env)) envs →
  is_running s = false →
  is_running (final_state (reconnect_loop envs d s acc)) = false.
Proof.
  intros Hall. revert d s acc.
  induction Hall as [| env rest [e He] _ IH]; intros d s acc Hr; simpl.
  - by destruct (_should_reconnect s && auto_reconnect s).
  - destruct (_should_reconnect s && auto_reconnect s); [| done].
    unfold reconnect_attempt. rewrite (establish_refused _ env e) by done.
    apply IH. simpl. apply run_not_running. simpl. by apply run_not_running.
Qed.

Lemma connect_and_run_refused (envs : list attempt_env) (now : N) (s : state) :
  Forall (λ env, is_Some (connect_raises env)) envs →
  is_running s = false →
  is_running (fst (_connect_and_run envs now s)) = false.
Proof.
  intros Hall. revert now s.
  induction Hall as [| env rest [e He] _ IH]; intros now s Hr; simpl.
  - by destruct (_should_reconnect s).
  - destruct (_should_reconnect s); [| done].
    unfold connect_attempt. rewrite (establish_refused _ env e) by done.
    apply IH. apply run_not_running. simpl. by apply run_not_running.
Qed.

(** X8.  Only a connection that [websocket_connect] returns sets
    [is_running]: no send, frame, heartbeat, queued write, subscription,
    [close] or [_shutdown_async] sets it on a client that has it cleared,
    [_reconnect_async] clears it first, and as long as every connection
    attempt is refused it stays cleared through [_reconnect_async] and
    through [_connect_and_run]. *)
Theorem only_a_connection_sets_is_running (s : state) (ops : list op)
    (envs : list attempt_env) (now : N) :
  (is_running s = false → is_running (run s ops) = false) ∧
  (Forall (λ env, is_Some (connect_raises env)) envs →
   is_running (final_state (_reconnect_async s envs)) = false ∧
   (is_running s = false →
    is_running (fst (_connect_and_run envs now s)) = false)).
Proof.
  split; [apply run_not_running |].
  intros Hall. split; [| by apply connect_and_run_refused].
  unfold _reconnect_async. cbv zeta. apply reconnect_loop_refused; [done |].
  unfold close_ws, stop_heartbeat.
  destruct (heartbeat_callback (set_is_running false s)); simpl; by destruct (ws s).
Qed.

(** ** The listener *)

(** X9.  A listener on a running client hands the frames it reads to
    [_process_message] one after the other, in the order read, and is
    still running after them: no frame, whatever its content, ends the
    loop or starts a reconnect. *)
Theorem listener_processes_frames_in_order (s : state) (msgs : list (option json))
    (next : list (list op * read_result)) (envs : list attempt_env) :
  is_running s = true →
  _listener_loop_async (map (λ m, ([], ReadFrame m)) msgs ++ next) envs s =
    _listener_loop_async next envs (foldl _process_message s msgs) ∧
  is_running (foldl _process_message s msgs) = true.
Proof.
  revert s. induction msgs as [| m msgs IH]; intros s Hr; [done |].
  simpl. rewrite Hr. apply IH.
  by rewrite (proj1 (process_message_fields s m)).
Qed.

Lemma listener_processes_frames_in_order_witness :
  is_running (foldl _process_message online
                [Some (push_frame 0); None; Some (response_frame 4 "stray")]) = true.
Proof.
  apply (listener_processes_frames_in_order online
           [Some (push_frame 0); None; Some (response_frame 4 "stray")] [] []).
  reflexivity.
Defined.

(** ** Failures of a media lookup *)

Lemma send_command_not_running (s : state) (opcode : Z) (payload : json)
    (w : bool) (timeout : N) (during : list (N * op)) :
  is_running s = false →
  send_command s opcode payload timeout during = (s, Raise ConnectionError, 0%N) ∧
  send_command_with s opcode payload w timeout during = (s, Raise ConnectionError, 0%N).
Proof.
  intros Hr. unfold send_command, send_command_with, send_command_begin.
  by rewrite Hr.
Qed.

(** X10.  How [get_video] and [get_file] fail.  On a client that is not
    running both raise [ConnectionError] and fetch nothing.  A response
    without a [payload] raises [KeyError]; a [payload] that is not an
    object raises [AttributeError].  An exception of the HTTP fetch is
    passed on, a response with an error status raises [HTTPError], and
    [get_video] raises [TypeError] on a response that has no content
    type.  The file name is [downloaded_file] when the [X-File-Name]
    header is missing or empty, and the header otherwise. *)
Theorem media_lookup_failures (http : json → outcome http_response) :
  (∀ s id chat_id msg_id during, is_running s = false →
     get_video s id during http = (s, Raise ConnectionError) ∧
     get_file s id chat_id msg_id during http = (s, Raise ConnectionError)) ∧
  (∀ items, assoc "payload" items = None →
     video_of_response (JDict items) http = Raise KeyError ∧
     file_of_response (JDict items) http = Raise KeyError) ∧
  (∀ info payload, py_getitem info "payload" = Ret payload →
     (∀ items, payload ≠ JDict items) →
     video_of_response info http = Raise AttributeError ∧
     file_of_response info http = Raise AttributeError) ∧
  (∀ info payload hi lo,
     py_getitem info "payload" = Ret payload →
     py_get payload "MP4_1080" = Ret hi → py_get payload "MP4_720" = Ret lo →
     truthy (py_or hi lo) = true →
     (∀ e, http (py_or hi lo) = Raise e → video_of_response info http = Raise e) ∧
     (∀ r, http (py_or hi lo) = Ret r → status_ok r = false →
           video_of_response info http = Raise HTTPError) ∧
     (∀ r, http (py_or hi lo) = Ret r → status_ok r = true → content_type r = None →
           video_of_response info http = Raise TypeError)) ∧
  (∀ info payload url,
     py_getitem info "payload" = Ret payload → py_get payload "url" = Ret url →
     truthy url = true →
     (∀ e, http url = Raise e → file_of_response info http = Raise e) ∧
     (∀ r, http url = Ret r → status_ok r = false →
           file_of_response info http = Raise HTTPError)) ∧
  (∀ r, (x_file_name r = None ∨ x_file_name r = Some "" →
         file_name_of r = "downloaded_file") ∧
        (∀ n, x_file_name r = Some n → n ≠ "" → file_name_of r = n)).
Proof.
  refine (conj _ (conj _ (conj _ (conj _ (conj _ _))))).
  - intros s id chat_id msg_id during Hr. unfold get_video, get_file.
    by rewrite !(proj1 (send_command_not_running _ _ _ true _ _ Hr)).
  - intros items Hnone. unfold video_of_response, file_of_response. simpl.
    by rewrite Hnone.
  - intros info payload Hp Hnd. unfold video_of_response, file_of_response.
    rewrite Hp. simpl.
    destruct payload; try (split; reflexivity). by destruct (Hnd items).
  - intros info payload hi lo Hp Hhi Hlo Hu. unfold video_of_response.
    rewrite Hp. simpl. rewrite Hhi. simpl. rewrite Hlo. simpl. rewrite Hu. simpl.
    refine (conj _ (conj _ _)).
    + by intros e ->.
    + intros r -> Hs. simpl. by rewrite Hs.
    + intros r -> Hs Hc. simpl. by rewrite Hs, Hc.
  - intros info payload url Hp Hurl Hu. unfold file_of_response.
    rewrite Hp. simpl. rewrite Hurl. simpl. rewrite Hu. simpl. split.
    + by intros e ->.
    + intros r -> Hs. simpl. by rewrite Hs.
  - intros r. unfold file_name_of. split.
    + by intros [-> | ->].
    + intros n -> Hne. destruct (String.eqb_spec n ""); [done | reflexivity].
Qed.

(** ** The public request methods *)

(** X11.  On a client that is not running every public request method
    raises [ConnectionError] at once and leaves the object as it was: no
    sequence number is drawn and [subscribe_to_chat] neither logs nor
    changes [subscribed_chats].  [send_message] alone has written its
    log line [Sent message to chat] before the send is refused. *)
Theorem public_requests_refused_when_not_running (s : state) (chat_id count now_ms : Z)
    (from_timestamp reply_id : option Z) (ids : list Z) (message_id phone : json)
    (text : string) (subscribe wait_for_response : bool) (during : list (N * op)) :
  is_running s = false →
  get_history s chat_id count from_timestamp now_ms during =
    (s, Raise ConnectionError, 0%N) ∧
  mark_as_read s chat_id message_id now_ms during = (s, Raise ConnectionError, 0%N) ∧
  get_contact_details s ids during = (s, Raise ConnectionError, 0%N) ∧
  get_contact_by_phone s phone during = (s, Raise ConnectionError, 0%N) ∧
  subscribe_to_chat s chat_id subscribe during = (s, Raise ConnectionError, 0%N) ∧
  send_message s chat_id text reply_id wait_for_response now_ms during =
    (emit (Log INFO "Sent message to chat" (JList [JInt chat_id; JInt now_ms])) s,
     Raise ConnectionError, 0%N).
Proof.
  intros Hr.
  unfold get_history, mark_as_read, get_contact_details, get_contact_by_phone,
    subscribe_to_chat, send_message. cbv zeta.
  rewrite !(proj1 (send_command_not_running s _ _ true _ _ Hr)).
  by rewrite (proj2 (send_command_not_running (emit _ s) _ _ wait_for_response _ _ Hr)).
Qed.

Lemma public_requests_refused_when_not_running_witness :
  subscribe_to_chat (close online_subscribed) 5 true [] =
    (close online_subscribed, Raise ConnectionError, 0%N).
Proof.
  apply (public_requests_refused_when_not_running (close online_subscribed)
           5 0 0 None None [] JNull JNull "" true true []).
  reflexivity.
Defined.

Lemma send_command_with_bounded (s : state) (opcode : Z) (payload : json) (w : bool)
    (timeout : N) (during : list (N * op)) :
  (snd (send_command_with s opcode payload w timeout during) ≤ timeout)%N.
Proof.
  unfold send_command_with.
  destruct (send_command_begin s opcode payload w) as [s1 [v | n | e]]; simpl; try lia.
  pose proof (wait_bounded during s1 n timeout) as Hb.
  destruct (wait_for_event s1 n timeout during) as [[s2 is_set] blocked].
  simpl in Hb. by destruct (send_command_wake s2 n is_set).
Qed.

Lemma send_command_bounded (s : state) (opcode : Z) (payload : json)
    (timeout : N) (during : list (N * op)) :
  (snd (send_command s opcode payload timeout during) ≤ timeout)%N.
Proof. apply (send_command_with_bounded s opcode payload true). Qed.

(** X12.  No public request method blocks its caller for more than the
    default timeout of ten seconds on the response of the server,
    whatever happens meanwhile. *)
Theorem public_requests_block_at_most_ten_seconds (s : state)
    (chat_id count now_ms : Z) (from_timestamp reply_id : option Z) (ids : list Z)
    (message_id phone : json) (text : string) (subscribe wait_for_response : bool)
    (during : list (N * op)) :
  (snd (get_history s chat_id count from_timestamp now_ms during) ≤ 10000)%N ∧
  (snd (mark_as_read s chat_id message_id now_ms during) ≤ 10000)%N ∧
  (snd (get_contact_details s ids during) ≤ 10000)%N ∧
  (snd (get_contact_by_phone s phone during) ≤ 10000)%N ∧
  (snd (subscribe_to_chat s chat_id subscribe during) ≤ 10000)%N ∧
  (snd (send_message s chat_id text reply_id wait_for_response now_ms during)
     ≤ 10000)%N ∧
  (wait_for_response = false →
   snd (send_message s chat_id text reply_id wait_for_response now_ms during) = 0%N).
Proof.
  unfold get_history, mark_as_read, get_contact_details, get_contact_by_phone,
    subscribe_to_chat, send_message. cbv zeta.
  repeat apply conj; try apply send_command_bounded; try apply send_command_with_bounded.
  - pose proof (send_command_bounded s OPCODE_MAP.SUBSCRIBE_TO_CHAT
                  (JDict [("chatId", JInt chat_id); ("subscribe", JBool subscribe)])
                  default_timeout during) as Hb.
    by destruct (send_command _ _ _ _ _) as [[s1 [r | e]] blocked].
  - intros ->. unfold send_command_with, send_command_begin.
    destruct (negb (is_running _)); [done |].
    rewrite next_seq_eq. simpl.
    by destruct (add_write_callback _ _) as [s2 [[] | e]].
Qed.

(** ** Subscriptions *)

Lemma calm_step_subscribed (s : state) (o : op) :
  calm o = true → subscribed_chats (step s o) = subscribed_chats s.
Proof.
  intros Hc. destruct o; try discriminate Hc;
    try (unfold step;
         by destruct (process_message_fields s message) as (_&_&_&_&_&_&_&->));
    unfold_ops; split_tests; reflexivity.
Qed.





(** ** What holds across a connection attempt *)

Section across.
Variable R : state → state → Prop.
Variable C : op → Prop.
Hypothesis R_refl : ∀ s, R s s.
Hypothesis R_trans : ∀ s1 s2 s3, R s1 s2 → R s2 s3 → R s1 s3.
Hypothesis R_step : ∀ s o, C o → R s (step s o).
Hypothesis C_send : ∀ opcode payload, C (OpSendAsync opcode payload).
Hypothesis C_resume : ∀ n, C (OpAsyncResume n).
Hypothesis R_log : ∀ s lvl text, R s (emit (Log lvl text JNull) s).
Hypothesis R_listener : ∀ s, R s (emit (Schedule CbListener) s).
Hypothesis R_connected : ∀ s, R s (set_is_running true (set_ws (Some WsOpen) s)).

Lemma across_run (ops : list op) (s : state) : Forall C ops → R s (run s ops).
Proof.
  intros Hall. revert s. induction Hall as [| o ops Ho _ IH]; intros s; simpl.
  - apply R_refl.
  - eapply R_trans; [by apply R_step | apply IH].
Qed.

Lemma across_send_command_async (s : state) (opcode : Z) (payload : json)
    (during : list op) :
  Forall C during → R s (fst (send_command_async s opcode payload during)).
Proof.
  intros Hall. unfold send_command_async.
  pose proof (R_step s (OpSendAsync opcode payload) (C_send _ _)) as Hb. simpl in Hb.
  destruct (send_command_async_begin s opcode payload) as [s1 [n | e]];
    simpl in *; [| done].
  eapply R_trans; [exact Hb |].
  eapply R_trans; [by apply across_run |].
  apply (R_step _ (OpAsyncResume n)), C_resume.
Qed.

Lemma across_handshake (s : state) (during : list op) :
  Forall C during → R s (fst (_handshake_async s during)).
Proof.
  intros Hall. unfold _handshake_async. cbv zeta.
  match goal with
  | |- context [send_command_async ?a ?b ?c ?d] =>
    pose proof (across_send_command_async a b c d Hall) as Hs;
    destruct (send_command_async a b c d) as [s1 [response | e]]
  end; simpl in *.
  - eapply R_trans; [apply R_log |]. eapply R_trans; [exact Hs | apply R_log].
  - eapply R_trans; [apply R_log | exact Hs].
Qed.

Lemma across_authenticate (s : state) (during : list op) :
  Forall C during → R s (fst (_authenticate_async s during)).
Proof.
  intros Hall. unfold _authenticate_async. cbv zeta.
  destruct (negb (token_truthy _)); simpl.
  { eapply R_trans; apply R_log. }
  match goal with
  | |- context [send_command_async ?a ?b ?c ?d] =>
    pose proof (across_send_command_async a b c d Hall) as Hs;
    destruct (send_command_async a b c d) as [s1 [response | e]]
  end; simpl in *.
  - destruct (read_auth_response response); simpl.
    + eapply R_trans; [apply R_log |]. eapply R_trans; [exact Hs | apply R_log].
    + eapply R_trans; [apply R_log | exact Hs].
  - eapply R_trans; [apply R_log | exact Hs].
Qed.

Lemma across_establish (s : state) (env : attempt_env)
    (connected authenticated : string) (no_token : option string) :
  Forall C (during_connect env) → Forall C (during_handshake env) →
  Forall C (during_authenticate env) →
  R s (fst (establish s env connected authenticated no_token)).
Proof.
  intros Hc Hh Ha. unfold establish. cbv zeta.
  pose proof (across_run (during_connect env) s Hc) as Hrun.
  destruct (connect_raises env); [done |].
  set (s3 := emit (Log INFO connected JNull) _).
  assert (R s s3) as H3.
  { eapply R_trans; [exact Hrun |]. eapply R_trans; [apply R_connected | apply R_log]. }
  destruct (negb (ioloop s3)); [done |].
  pose proof (across_handshake (emit (Schedule CbListener) s3) (during_handshake env) Hh)
    as H5.
  assert (∀ u, R (emit (Schedule CbListener) s3) u → R s u) as Hfrom.
  { intros u Hu. eapply R_trans; [exact H3 |]. eapply R_trans; [apply R_listener | exact Hu]. }
  destruct (_handshake_async _ (during_handshake env)) as [s5 [[] | e]]; simpl in *;
    [| by apply Hfrom].
  destruct (token_truthy s5).
  - pose proof (across_authenticate s5 (during_authenticate env) Ha) as H6.
    destruct (_authenticate_async s5 _) as [s6 [[] | e]]; simpl in *; apply Hfrom.
    + eapply R_trans; [exact H5 |]. eapply R_trans; [exact H6 | apply R_log].
    + eapply R_trans; [exact H5 | exact H6].
  - destruct no_token; simpl; apply Hfrom; [| done].
    eapply R_trans; [exact H5 | apply R_log].
Qed.

End across.

(** ** The replay of the subscriptions *)

Lemma replays_refl (s : state) : replays s s [].
Proof. exists []. by rewrite app_nil_r. Qed.

Lemma replays_trans (s1 s2 s3 : state) (l1 l2 : list (Z * bool)) :
  replays s1 s2 l1 → replays s2 s3 l2 → replays s1 s3 (l1 ++ l2).
Proof.
  intros (n1 & H1 & <-) (n2 & H2 & <-). exists (n1 ++ n2).
  by rewrite H2, H1, app_assoc, omap_app.
Qed.

Lemma replays_quiet_trans (s1 s2 s3 : state) :
  replays s1 s2 [] → replays s2 s3 [] → replays s1 s3 [].
Proof. apply (replays_trans s1 s2 s3 [] []). Qed.

Lemma replays_emit (s : state) (e : effect) :
  replays s (emit e s) (option_list (replayed e)).
Proof. exists [e]. split; [done |]. simpl. by destruct (replayed e). Qed.

Lemma replays_fields (s s' : state) : trace s' = trace s → replays s s' [].
Proof. intros H. exists []. by rewrite app_nil_r. Qed.

Lemma omap_nothing {A B : Type} (f : A → option B) (l : list A) :
  Forall (λ a, f a = None) l → omap f l = [].
Proof. induction 1 as [| a l Ha _ IH]; [done |]. simpl. by rewrite Ha. Qed.

Lemma replays_process_message (s : state) (message : option json) :
  replays s (_process_message s message) [].
Proof.
  destruct (process_message_effects (λ e, replayed e = None) s message)
    as (new & Hnew & Hall).
  - intros text []; reflexivity.
  - intros text []; reflexivity.
  - reflexivity.
  - exists new. split; [done | by apply omap_nothing].
Qed.

Lemma replays_step (s : state) (o : op) : replays s (step s o) [].
Proof.
  destruct o; try apply replays_process_message;
    unfold_ops; split_tests; simpl;
    first [ apply replays_refl
          | by apply replays_fields
          | unfold replays; simpl;
            first [ by (eexists [_]; split; [by rewrite <- ?app_assoc |])
                  | by (eexists [_; _]; split; [by rewrite <- ?app_assoc |])
                  | by (eexists [_; _; _]; split; [by rewrite <- ?app_assoc |]) ] ].
Qed.

Lemma same_subscriptions_trans (s1 s2 s3 : state) :
  same_subscriptions s1 s2 → same_subscriptions s2 s3 → same_subscriptions s1 s3.
Proof. unfold same_subscriptions. congruence. Qed.

Lemma replays_send_command_async (s : state) (opcode : Z) (payload : json)
    (during : list op) :
  replays s (fst (send_command_async s opcode payload during)) [].
Proof.
  exact (across_send_command_async (λ u u', replays u u' []) (λ _, True)
           replays_refl replays_quiet_trans (λ u o _, replays_step u o)
           (λ _ _, I) (λ _, I) s opcode payload during (Forall_true _ _ (λ _, I))).
Qed.

Lemma calm_send_command_async (s : state) (opcode : Z) (payload : json)
    (during : list op) :
  Forall (λ o, calm o = true) during →
  same_subscriptions s (fst (send_command_async s opcode payload during)).
Proof.
  exact (across_send_command_async same_subscriptions (λ o, calm o = true)
           (λ _, eq_refl) same_subscriptions_trans calm_step_subscribed
           (λ _ _, eq_refl) (λ _, eq_refl) s opcode payload during).
Qed.

Lemma replays_resubscribe (chats : list Z) (during : list (list op)) (s : state) :
  ∃ l, replays s (resubscribe s chats during) l ∧ map fst l = chats.
Proof.
  revert during s. induction chats as [| c chats IH]; intros during s; simpl.
  - exists []. split; [apply replays_refl | done].
  - pose proof (replays_send_command_async s OPCODE_MAP.SUBSCRIBE_TO_CHAT
                  (JDict [("chatId", JInt c); ("subscribe", JBool true)])
                  (hd [] during)) as Hs.
    destruct (send_command_async s _ _ (hd [] during)) as [s1 [response | e]];
      simpl in Hs.
    + destruct (IH (tl during) (emit (Log INFO "Resubscribed to chat" (JInt c)) s1))
        as (l & Hl & Hmap).
      exists ((c, true) :: l). split; [| by rewrite <- Hmap].
      apply (replays_trans s s1 _ [] ((c, true) :: l) Hs).
      apply (replays_trans s1 _ _ [(c, true)] l
               (replays_emit s1 (Log INFO "Resubscribed to chat" (JInt c))) Hl).
    + destruct (IH (tl during)
                  (emit (Log WARNING "Failed to resubscribe to chat" (JInt c)) s1))
        as (l & Hl & Hmap).
      exists ((c, false) :: l). split; [| by rewrite <- Hmap].
      apply (replays_trans s s1 _ [] ((c, false) :: l) Hs).
      apply (replays_trans s1 _ _ [(c, false)] l
               (replays_emit s1 (Log WARNING "Failed to resubscribe to chat" (JInt c)))
               Hl).
Qed.

Lemma calm_resubscribe (chats : list Z) (during : list (list op)) (s : state) :
  Forall (λ o, calm o = true) (concat during) →
  same_subscriptions s (resubscribe s chats during).
Proof.
  revert during s. induction chats as [| c chats IH]; intros during s Hall; simpl;
    [done |].
  assert (Forall (λ o, calm o = true) (hd [] during) ∧
          Forall (λ o, calm o = true) (concat (tl during))) as [Hhd Htl].
  { destruct during as [| d rest]; simpl in *; [by split |].
    by apply Forall_app in Hall. }
  pose proof (calm_send_command_async s OPCODE_MAP.SUBSCRIBE_TO_CHAT
                (JDict [("chatId", JInt c); ("subscribe", JBool true)])
                (hd [] during) Hhd) as Hs.
  destruct (send_command_async s _ _ (hd [] during)) as [s1 [response | e]];
    simpl in Hs;
    (eapply same_subscriptions_trans; [| by apply IH]); exact Hs.
Qed.

(** X14.  The replay of the subscriptions after a reconnect tells, for
    each chat replayed, exactly one outcome in the log, [Resubscribed to
    chat] or [Failed to resubscribe to chat], and goes on after a
    failure.  A reconnection attempt that succeeds, nothing else changing
    the subscriptions meanwhile, has replayed each chat of
    [subscribed_chats] once and leaves the subscriptions as they were. *)
Theorem replay_covers_each_subscription (s : state) (d : Z) (env : attempt_env) :
  (∀ chats during,
     ∃ new, trace (resubscribe s chats during) = trace s ++ new ∧
            map fst (omap replayed new) = chats) ∧
  (Forall (λ o, calm o = true) (env_ops env) →
   ∀ s', reconnect_attempt s d env = (s', Ret tt) →
     subscribed_chats s' = subscribed_chats s ∧
     ∃ new, trace s' = trace s ++ new ∧
            map fst (omap replayed new) ≡ₚ subscribed_chats s).
Proof.
  split.
  - intros chats during.
    destruct (replays_resubscribe chats during s) as (l & (new & Hnew & <-) & Hl).
    by exists new.
  - intros Hcalm s'. unfold env_ops in Hcalm.
    apply Forall_app in Hcalm as [_ Hcalm].
    apply Forall_app in Hcalm as [Hc Hcalm].
    apply Forall_app in Hcalm as [Hh Hcalm].
    apply Forall_app in Hcalm as [Ha Hr].
    unfold reconnect_attempt.
    pose proof (across_establish same_subscriptions (λ o, calm o = true)
                  (λ _, eq_refl) same_subscriptions_trans calm_step_subscribed
                  (λ _ _, eq_refl) (λ _, eq_refl) (λ _ _ _, eq_refl) (λ _, eq_refl)
                  (λ _, eq_refl)
                  (emit (Log INFO "Reconnecting" (JInt d)) s) env
                  "Reconnected to WebSocket." "Re-authenticated successfully." None
                  Hc Hh Ha) as Hsame.
    pose proof (across_establish (λ u u', replays u u' []) (λ _, True)
                  replays_refl replays_quiet_trans (λ u o _, replays_step u o)
                  (λ _ _, I) (λ _, I)
                  (λ u lvl text, replays_emit u (Log lvl text JNull))
                  (λ u, replays_emit u (Schedule CbListener))
                  (λ u, replays_fields u _ eq_refl)
                  (emit (Log INFO "Reconnecting" (JInt d)) s) env
                  "Reconnected to WebSocket." "Re-authenticated successfully." None
                  (Forall_true _ _ (λ _, I)) (Forall_true _ _ (λ _, I))
                  (Forall_true _ _ (λ _, I))) as Hquiet.
    destruct (establish _ env _ _ _) as [s1 [[] | e]]; [| discriminate].
    simpl in Hsame, Hquiet. cbv zeta. intros [= <-].
    assert (subscribed_chats (start_heartbeat s1) = subscribed_chats s) as Hsub.
    { unfold start_heartbeat. by destruct (heartbeat_callback s1). }
    rewrite Hsub. split.
    + simpl. rewrite (calm_resubscribe _ _ _ Hr). exact Hsub.
    + destruct (replays_resubscribe (subscribed_chats s) (during_resubscribe env)
                  (start_heartbeat s1)) as (l & Hl & Hmap).
      assert (replays s (emit (Log INFO "Reconnection complete." JNull)
                           (resubscribe (start_heartbeat s1) (subscribed_chats s)
                              (during_resubscribe env))) l) as (new & Hnew & Hl').
      { replace l with ([] ++ ([] ++ [] ++ l ++ [])) by (simpl; by rewrite app_nil_r).
        apply (replays_trans s _ _ _ _ (replays_emit s (Log INFO "Reconnecting" (JInt d)))).
        apply (replays_trans _ s1 _ _ _ Hquiet).
        apply (replays_trans s1 (start_heartbeat s1)).
        { apply replays_fields. unfold start_heartbeat.
          by destruct (heartbeat_callback s1). }
        apply (replays_trans _ _ _ _ _ Hl). apply replays_emit. }
      exists new. split; [done |]. by rewrite Hl', Hmap.
Qed.

Lemma replay_covers_each_subscription_witness :
  subscribed_chats (fst (reconnect_attempt online_subscribed 2 accepted)) =
    subscribed_chats online_subscribed ∧
  ∃ new, trace (fst (reconnect_attempt online_subscribed 2 accepted)) =
           trace online_subscribed ++ new ∧
         map fst (omap replayed new) ≡ₚ subscribed_chats online_subscribed.
Proof.
  apply (replay_covers_each_subscription online_subscribed 2 accepted).
  - repeat constructor.
  - vm_compute. reflexivity.
Defined.

(** ** Sends awaited by a coroutine *)

(** What a frame does to the table and to the futures: nothing, or it
    answers a blocking send, or it resolves an awaited one. *)
Lemma process_message_tables (s : state) (message : option json) :
  (pending_responses (_process_message s message) = pending_responses s ∧
   futures (_process_message s message) = futures s) ∨
  (∃ k b r opcode data,
     message = Some data ∧ answers k message = true ∧
     pending_responses s !! k = Some (EventEntry b r opcode) ∧
     pending_responses (_process_message s message) =
       <[k := EventEntry true data opcode]> (pending_responses s) ∧
     futures (_process_message s message) = futures s) ∨
  (∃ k fut opcode data,
     message = Some data ∧ answers k message = true ∧
     pending_responses s !! k = Some (FutureEntry fut opcode) ∧
     pending_responses (_process_message s message) = delete k (pending_responses s) ∧
     futures (_process_message s message) =
       match futures s !! fut with
       | Some _ => futures s
       | None => <[fut := data]> (futures s)
       end).
Proof.
  unfold _process_message, process_message_body, answers.
  destruct message as [data |]; [| by left].
  destruct (py_get data "cmd") as [cmd |]; [| by left].
  destruct (py_eq_int cmd 1) eqn:E1.
  - destruct (py_get data "seq") as [seq_id |]; [| by left].
    destruct (py_key seq_id) as [| | k]; [by left | by left |].
    destruct (pending_responses s !! k) as [[b r opcode | fut opcode] |] eqn:Hk;
      [| | by left]; cbv zeta; simpl entry_opcode.
    + right. left. exists k, b, r, opcode, data. rewrite Z.eqb_refl.
      by destruct (opcode =? OPCODE_MAP.HEARTBEAT).
    + right. right. exists k, fut, opcode, data. rewrite Z.eqb_refl.
      unfold set_result.
      destruct (opcode =? OPCODE_MAP.HEARTBEAT); simpl;
        by destruct (futures s !! fut).
  - left. destruct (py_eq_int cmd 0); [| by destruct (py_eq_int cmd 3)].
    by destruct (on_event s), (ioloop s).
Qed.

Lemma answers_functional (k n : Z) (message : option json) :
  answers k message = true → answers n message = false → k ≠ n.
Proof. intros Hk Hn ->. congruence. Qed.

Lemma step_futures (s : state) (o : op) :
  (∀ message, o ≠ OpMessage message) → futures (step s o) = futures s.
Proof.
  intros Hno. destruct o; try (by destruct (Hno message));
    unfold_ops; split_tests; reflexivity.
Qed.

Ltac split_lookups :=
  repeat
    match goal with
    | H : <[?a := _]> _ !! ?j = Some _ |- _ =>
      destruct (decide (j = a)) as [-> | ?];
      [rewrite lookup_insert_eq in H | rewrite lookup_insert_ne in H by done]
    | H : delete ?a _ !! ?j = Some _ |- _ =>
      apply lookup_delete_Some in H as [? H]
    end.

Lemma step_futures_named (s : state) (o : op) :
  futures_named s → futures_named (step s o).
Proof.
  intros Hnamed. destruct o.
  3: { unfold_ops; split_tests; intros j fut opc Hj; simpl in Hj; split_lookups;
       first [congruence | by eapply Hnamed]. }
  4: { simpl. destruct (process_message_tables s message)
         as [[Hp _] | [(k & b & r & opcode & data & _ & _ & _ & Hp & _)
                      | (k & fut & opcode & data & _ & _ & _ & Hp & _)]];
         intros j f opc Hj; rewrite Hp in Hj; split_lookups;
         first [congruence | by eapply Hnamed]. }
  all: unfold_ops; split_tests; intros j' fut' opc' Hj; simpl in Hj; split_lookups;
    first [congruence | by eapply Hnamed].
Qed.

Lemma run_futures_named (ops : list op) (s : state) :
  futures_named s → futures_named (run s ops).
Proof.
  revert s. induction ops as [| o ops IH]; intros s Hnamed; [done |].
  simpl. apply IH. by apply step_futures_named.
Qed.

(** While request [n] is outstanding, what others do leaves its future
    empty. *)
Lemma step_keeps_future (s : state) (o : op) (n : Z) :
  foreign n o = true → futures_named s →
  futures (step s o) !! n = futures s !! n.
Proof.
  intros Hf Hnamed.
  destruct o; try (rewrite step_futures; [done | by intros ?]).
  simpl in *. apply negb_true_iff in Hf.
  destruct (process_message_tables s message)
    as [[_ ->] | [(k & b & r & opcode & data & _ & _ & _ & _ & ->)
                 | (k & fut & opcode & data & _ & Hk & He & _ & ->)]]; try done.
  rewrite (Hnamed k fut opcode He).
  destruct (futures s !! k); [done |].
  rewrite lookup_insert_ne; [done |]. by apply (answers_functional k n message).
Qed.

Lemma run_keeps_future (ops : list op) (s : state) (n : Z) :
  Forall (λ o, foreign n o = true) ops → futures_named s →
  futures (run s ops) !! n = futures s !! n.
Proof.
  intros Hall. revert s. induction Hall as [| o ops Ho _ IH]; intros s Hnamed; [done |].
  simpl. rewrite IH by (by apply step_futures_named). by apply step_keeps_future.
Qed.

(** A future that has its result keeps it. *)
Lemma step_future_kept (s : state) (o : op) (n : Z) (d : json) :
  futures s !! n = Some d → futures (step s o) !! n = Some d.
Proof.
  intros Hn.
  destruct o; try (rewrite step_futures; [done | by intros ?]).
  simpl.
  destruct (process_message_tables s message)
    as [[_ ->] | [(k & b & r & opcode & data & _ & _ & _ & _ & ->)
                 | (k & fut & opcode & data & _ & _ & _ & _ & ->)]]; try done.
  destruct (futures s !! fut) eqn:Hfut; [done |].
  rewrite lookup_insert_ne; [done |]. congruence.
Qed.

Lemma run_future_kept (ops : list op) (s : state) (n : Z) (d : json) :
  futures s !! n = Some d → futures (run s ops) !! n = Some d.
Proof.
  revert s. induction ops as [| o ops IH]; intros s Hn; [done |].
  simpl. apply IH. by apply step_future_kept.
Qed.

Lemma send_command_async_begin_awaiting (s : state) (opcode : Z) (payload : json) :
  is_running s = true → ws s = Some WsOpen → ioloop s = true →
  futures_named s → futures s !! seq_counter s = None →
  ∃ s1, send_command_async_begin s opcode payload = (s1, Awaiting (seq_counter s)) ∧
        pending_responses s1 !! seq_counter s =
          Some (FutureEntry (seq_counter s) opcode) ∧
        futures s1 !! seq_counter s = None ∧
        futures_named s1 ∧ seq_counter s < seq_counter s1.
Proof.
  intros Hr Hw Hi Hnamed Hfresh.
  pose proof (step_futures_named s (OpSendAsync opcode payload) Hnamed) as Hn1.
  revert Hn1. unfold step, send_command_async_begin, ws_write_message, next_seq.
  rewrite Hr. simpl. rewrite Hw. simpl. rewrite Hi. simpl. intros Hn1.
  eexists. split; [reflexivity |]. simpl.
  rewrite lookup_insert_eq. repeat split; [done | done | lia].
Qed.

(** X15.  How a send awaited by a coroutine ends, on a running client.
    When the write fails, on a closed connection or with no connection
    object, the exception leaves [send_command_async] and the entry it
    has registered stays in the table.  On an open connection: if no
    response to the request arrives before the deadline the call raises
    [TimeoutError] and has removed its entry; if one arrives the call
    returns that response, the first one, whatever arrives after it, and
    the entry is gone.  (The futures are named after their requests; the
    one made for this request is new.) *)
Theorem awaited_send_outcomes (s : state) (opcode : Z) (payload : json) :
  is_running s = true →
  (ws s = Some WsClosed → ∀ during,
     ∃ s', send_command_async s opcode payload during =
             (s', Raise WebSocketClosedError) ∧
           pending_responses s' !! seq_counter s =
             Some (FutureEntry (seq_counter s) opcode)) ∧
  (ws s = None → ∀ during,
     ∃ s', send_command_async s opcode payload during = (s', Raise AttributeError) ∧
           pending_responses s' !! seq_counter s =
             Some (FutureEntry (seq_counter s) opcode)) ∧
  (ws s = Some WsOpen → ioloop s = true →
   futures_named s → futures s !! seq_counter s = None →
   (∀ during,
      Forall (λ o, foreign (seq_counter s) o = true) during →
      ∃ s', send_command_async s opcode payload during = (s', Raise TimeoutError) ∧
            pending_responses s' !! seq_counter s = None) ∧
   (∀ before data after,
      Forall (λ o, foreign (seq_counter s) o = true) before →
      answers (seq_counter s) (Some data) = true →
      ∃ s', send_command_async s opcode payload
              (before ++ OpMessage (Some data) :: after) = (s', Ret data) ∧
            pending_responses s' !! seq_counter s = None)).
Proof.
  intros Hr. refine (conj _ (conj _ _)).
  - intros Hw during.
    unfold send_command_async, send_command_async_begin, ws_write_message, next_seq.
    rewrite Hr. simpl. rewrite Hw. eexists. split; [reflexivity |].
    simpl. by rewrite lookup_insert_eq.
  - intros Hw during.
    unfold send_command_async, send_command_async_begin, ws_write_message, next_seq.
    rewrite Hr. simpl. rewrite Hw. eexists. split; [reflexivity |].
    simpl. by rewrite lookup_insert_eq.
  - intros Hw Hi Hnamed Hfresh.
    destruct (send_command_async_begin_awaiting s opcode payload Hr Hw Hi Hnamed Hfresh)
      as (s1 & Hb & He & Hf & Hn1 & Hlt).
    split.
    + intros during Hall. unfold send_command_async. rewrite Hb.
      unfold send_command_async_resume.
      rewrite (run_keeps_future during s1 _ Hall Hn1), Hf.
      eexists. split; [reflexivity |]. simpl. by rewrite lookup_delete_eq.
    + intros before data after Hall Hans. unfold send_command_async. rewrite Hb.
      rewrite run_app. simpl.
      set (s2 := run s1 before).
      assert (pending_responses s2 !! seq_counter s =
              Some (FutureEntry (seq_counter s) opcode)) as He2.
      { unfold s2. by rewrite (run_keeps_entry before s1 _ Hall Hlt). }
      assert (futures s2 !! seq_counter s = None) as Hf2.
      { unfold s2. by rewrite (run_keeps_future before s1 _ Hall Hn1). }
      destruct (process_message_future_entry s2 data _ _ _ Hans He2) as [Hgone Hset].
      specialize (Hset Hf2).
      set (s3 := _process_message s2 (Some data)) in *.
      assert (futures (run s3 after) !! seq_counter s = Some data) as Hres.
      { apply run_future_kept. rewrite Hset. by rewrite lookup_insert_eq. }
      unfold send_command_async_resume. rewrite Hres.
      eexists. split; [reflexivity |].
      destruct (advances_run after s3) as (_ & _ & _ & Hkeep).
      apply Hkeep; [| done].
      unfold s3. rewrite (proj1 (proj2 (proj2 (proj2 (proj2 (proj2 (proj2
        (process_message_fields s2 (Some data))))))))).
      destruct (advances_run before s1) as (Hle & _). fold s2 in Hle. lia.
Qed.

Lemma awaited_send_outcomes_witness :
  ∃ s', send_command_async online_lost 75 JNull [] =
          (s', Raise WebSocketClosedError) ∧
        pending_responses s' !! seq_counter online_lost =
          Some (FutureEntry (seq_counter online_lost) 75).
Proof.
  destruct (awaited_send_outcomes online_lost 75 JNull eq_refl) as (Hclosed & _).
  exact (Hclosed eq_refl []).
Defined.

(** ** The chats read at authentication *)





(** X17.  What [_authenticate_async] accepts.  It goes past the response
    only when the payload has no truthy [error], carries
    [profile.contact.names[0].name], which the log line reads, and every
    chat listed is an object with an [id]; a truthy [error] raises
    [ValueError].  So when [_authenticate_async] returns on a client that
    has a token, the server has answered the request with such a
    response. *)
Theorem authentication_accepts_only_full_profiles (response : json) :
  read_auth_response response = Ret tt →
  (∃ payload error profile contact names first name,
     py_get_default response "payload" (JDict []) = Ret payload ∧
     py_get payload "error" = Ret error ∧ truthy error = false ∧
     py_getitem payload "profile" = Ret profile ∧
     py_getitem profile "contact" = Ret contact ∧
     py_getitem contact "names" = Ret names ∧
     py_getitem0 names = Ret first ∧
     py_getitem first "name" = Ret name ∧
     ∀ items chats, payload = JDict items → assoc "chats" items = Some chats →
       ∃ l, py_iter chats = Ret l ∧ read_chats l = Ret tt) ∧
  (∀ other payload error,
     py_get_default other "payload" (JDict []) = Ret payload →
     py_get payload "error" = Ret error → truthy error = true →
     read_auth_response other = Raise ValueError) ∧
  (∀ s during s',
     _authenticate_async s during = (s', Ret tt) → token_truthy s = true →
     ∃ s1 answer,
       send_command_async (emit (Log INFO "Authenticating..." JNull) s)
         OPCODE_MAP.AUTHENTICATE (auth_payload s) during = (s1, Ret answer) ∧
       read_auth_response answer = Ret tt ∧
       s' = emit (Log INFO "Authentication successful." JNull) s1).
Proof.
  intros Hok. refine (conj _ (conj _ _)).
  - revert Hok. unfold read_auth_response.
    destruct (py_get_default response "payload" (JDict [])) as [payload |] eqn:H0;
      [| discriminate]. simpl.
    destruct (py_get payload "error") as [error |] eqn:H1; [| discriminate]. simpl.
    destruct (truthy error) eqn:Herr; [discriminate |].
    destruct (py_getitem payload "profile") as [profile |] eqn:H2; [| discriminate].
    simpl.
    destruct (py_getitem profile "contact") as [contact |] eqn:H3; [| discriminate].
    simpl.
    destruct (py_getitem contact "names") as [names |] eqn:H4; [| discriminate]. simpl.
    destruct (py_getitem0 names) as [first |] eqn:H5; [| discriminate]. simpl.
    destruct (py_getitem first "name") as [name |] eqn:H6; [| discriminate]. simpl.
    intros Hchats. exists payload, error, profile, contact, names, first, name.
    repeat apply conj; try done. intros items chats -> Hc. rewrite Hc in Hchats.
    destruct (py_iter chats) as [l |]; [| discriminate]. by exists l.
  - intros other payload error Hp He Ht. unfold read_auth_response.
    rewrite Hp. simpl. rewrite He. simpl. by rewrite Ht.
  - intros s during s' Ha Htok. revert Ha. unfold _authenticate_async. cbv zeta.
    change (token_truthy (emit (Log INFO "Authenticating..." JNull) s))
      with (token_truthy s).
    rewrite Htok. simpl.
    change (auth_payload (emit (Log INFO "Authenticating..." JNull) s))
      with (auth_payload s).
    destruct (send_command_async _ _ _ _) as [s1 [answer | e]]; [| discriminate].
    destruct (read_auth_response answer) as [[] |] eqn:Hread; [| discriminate].
    intros [= <-]. by exists s1, answer.
Qed.

Lemma authentication_accepts_only_full_profiles_witness :
  ∃ first name, py_getitem first "name" = Ret name ∧ name = JStr "Ann".
Proof.
  destruct (authentication_accepts_only_full_profiles auth_response eq_refl)
    as ((payload & error & profile & contact & names & first & name &
         Hp & _ & _ & Hprofile & Hcontact & Hnames & Hfirst & Hname & _) & _).
  exists first, name. split; [exact Hname |].
  injection Hp as <-. injection Hprofile as <-. injection Hcontact as <-.
  injection Hnames as <-. injection Hfirst as <-. by injection Hname as <-.
Defined.

(** ** Attempts that fail *)

(** X18.  [_connect_and_run] pauses five seconds after every failed
    attempt, with no backoff: when it sets [ready_event], the time
    elapsed is the time its attempts took plus five seconds for each
    attempt that failed, and the attempt that succeeded is the last one
    made. *)
Theorem initial_connect_retries_every_five_seconds (envs : list attempt_env)
    (now : N) (s s' : state) (t : N) :
  _connect_and_run envs now s = (s', ReadyAt t) →
  ∃ failed env rest,
    envs = failed ++ env :: rest ∧
    t = (now + foldr (λ e acc, took e + 5000 + acc) 0 failed + took env)%N ∧
    ∃ u, connect_attempt u env = (s', Ret tt).
Proof.
  revert now s. induction envs as [| env rest IH]; intros now s; simpl.
  - destruct (_should_reconnect s); discriminate.
  - destruct (_should_reconnect s); [| discriminate].
    destruct (connect_attempt s env) as [s1 [[] | e]] eqn:Hc.
    + intros [= <- <-]. exists [], env, rest. simpl.
      split; [done |]. split; [lia | by exists s].
    + intros Hrest. destruct (IH _ _ Hrest) as (failed & env' & rest' & -> & -> & Hu).
      exists (env :: failed), env', rest'. simpl. split; [done |]. split; [lia | done].
Qed.

Lemma initial_connect_retries_every_five_seconds_witness :
  ∃ failed env rest,
    [refused; accepted] = failed ++ env :: rest ∧
    7000%N = (0 + foldr (λ e acc, took e + 5000 + acc) 0 failed + took env)%N ∧
    ∃ u, connect_attempt u env =
           (fst (_connect_and_run [refused; accepted] 0 (created (Some "token") None true)),
            Ret tt).
Proof.
  apply (initial_connect_retries_every_five_seconds [refused; accepted] 0
           (created (Some "token") None true)).
  vm_compute. reflexivity.
Defined.

Lemma send_command_async_unanswered (s : state) (opcode : Z) (payload : json) :
  is_running s = true → ws s = Some WsOpen → ioloop s = true →
  futures s !! seq_counter s = None →
  ∃ s', send_command_async s opcode payload [] = (s', Raise TimeoutError) ∧
        is_running s' = true ∧ ws s' = Some WsOpen ∧ ioloop s' = true ∧
        heartbeat_callback s' = heartbeat_callback s ∧
        pending_responses s' !! seq_counter s = None.
Proof.
  intros Hr Hw Hi Hfresh.
  unfold send_command_async, send_command_async_begin, ws_write_message, next_seq.
  rewrite Hr. cbn [negb]. cbv zeta. cbn [ws register emit set_pending_responses
    set_seq_counter]. rewrite Hw.
  set (s3 := emit (Wrote _) _).
  assert (ioloop s3 = true) as -> by exact Hi.
  unfold send_command_async_resume, run. cbn [foldl].
  assert (futures s3 !! seq_counter s = None) as -> by exact Hfresh.
  eexists. split; [reflexivity |].
  refine (conj Hr (conj Hw (conj Hi (conj eq_refl _)))).
  cbn [pending_responses set_pending_responses]. by rewrite lookup_delete_eq.
Qed.

Lemma handshake_unanswered (s : state) :
  is_running s = true → ws s = Some WsOpen → ioloop s = true →
  futures s !! seq_counter s = None →
  ∃ s', _handshake_async s [] = (s', Raise TimeoutError) ∧
        is_running s' = true ∧ ws s' = Some WsOpen ∧ ioloop s' = true ∧
        heartbeat_callback s' = heartbeat_callback s ∧
        pending_responses s' !! seq_counter s = None.
Proof.
  intros Hr Hw Hi Hfresh. unfold _handshake_async. cbv zeta.
  match goal with
  | |- context [send_command_async ?a ?b ?c []] =>
    destruct (send_command_async_unanswered a b c Hr Hw Hi Hfresh)
      as (s' & Heq & Hs'); rewrite Heq
  end.
  by exists s'.
Qed.

Lemma establish_unanswered (s : state) (env : attempt_env)
    (connected authenticated : string) (no_token : option string) :
  ioloop s = true → futures s !! seq_counter s = None →
  connect_raises env = None → during_connect env = [] → during_handshake env = [] →
  ∃ s', establish s env connected authenticated no_token = (s', Raise TimeoutError) ∧
        is_running s' = true ∧ ws s' = Some WsOpen ∧ ioloop s' = true ∧
        heartbeat_callback s' = heartbeat_callback s ∧
        pending_responses s' !! seq_counter s = None.
Proof.
  intros Hi Hfresh Hc Hdc Hdh. unfold establish. cbv zeta.
  rewrite Hc, Hdc, Hdh. unfold run. cbn [foldl].
  set (s3 := emit (Log INFO connected JNull) _).
  assert (ioloop s3 = true) as Hi3 by exact Hi. rewrite Hi3. cbn [negb].
  destruct (handshake_unanswered (emit (Schedule CbListener) s3) eq_refl eq_refl Hi Hfresh)
    as (s' & Heq & Hs').
  rewrite Heq. by exists s'.
Qed.

(** X19.  A connection whose handshake gets no answer: the attempt ends
    with [TimeoutError], in [_connect_and_run] and in [_reconnect_async]
    alike, but [is_running], set as soon as the socket was connected, is
    still set, the connection is still open and no heartbeat was started
    for it; a blocking send made before the next attempt is accepted.
    (The future made for the handshake is new.) *)
Theorem unanswered_handshake_leaves_is_running_set (s : state) (env : attempt_env)
    (d : Z) :
  ioloop s = true → futures s !! seq_counter s = None →
  connect_raises env = None → during_connect env = [] → during_handshake env = [] →
  (∃ s', connect_attempt s env = (s', Raise TimeoutError) ∧
         is_running s' = true ∧ ws s' = Some WsOpen ∧
         heartbeat_callback s' = heartbeat_callback s ∧
         pending_responses s' !! seq_counter s = None ∧
         ∀ opcode payload,
           snd (send_command_begin s' opcode payload true) = Waiting (seq_counter s')) ∧
  (∃ s', reconnect_attempt s d env = (s', Raise TimeoutError) ∧
         is_running s' = true ∧ ws s' = Some WsOpen ∧
         heartbeat_callback s' = heartbeat_callback s).
Proof.
  intros Hi Hfresh Hc Hdc Hdh. split.
  - unfold connect_attempt.
    destruct (establish_unanswered (emit (Log INFO "Connecting..." JNull) s) env
                "Connected to WebSocket." "API is online and ready."
                (Some "API is connected. Please authenticate using verification code methods.")
                Hi Hfresh Hc Hdc Hdh) as (s' & -> & Hr & Hw & Hi' & Hh & Hp).
    exists s'. repeat apply conj; try done.
    intros opcode payload.
    destruct (send_command_begin_waiting s' opcode payload Hr Hi')
      as (s1 & -> & _); [by rewrite Hw | done].
  - unfold reconnect_attempt.
    destruct (establish_unanswered (emit (Log INFO "Reconnecting" (JInt d)) s) env
                "Reconnected to WebSocket." "Re-authenticated successfully." None
                Hi Hfresh Hc Hdc Hdh) as (s' & -> & Hr & Hw & Hi' & Hh & Hp).
    by exists s'.
Qed.

Lemma unanswered_handshake_leaves_is_running_set_witness :
  ∃ s', reconnect_attempt (created None None true) 2
          (mkAttempt [] [] None [] [] [] 10000) = (s', Raise TimeoutError) ∧
        is_running s' = true ∧ ws s' = Some WsOpen ∧
        heartbeat_callback s' = heartbeat_callback (created None None true).
Proof.
  apply (unanswered_handshake_leaves_is_running_set (created None None true)
           (mkAttempt [] [] None [] [] [] 10000) 2); reflexivity.
Defined.

(** ** The default handler *)

(** X20.  Every event that [_process_message] hands to the handler is a
    JSON object, so the default handler, which reads its [opcode], never
    raises on it: it logs one line for it, at level info. *)
Theorem default_handler_accepts_every_pushed_event (s : state) (message : option json) :
  ∃ new, trace (_process_message s message) = trace s ++ new ∧
         ∀ d, Submit d ∈ new →
              (∃ items, d = JDict items) ∧
              ∃ text, _default_on_event d = Ret (Log INFO text d).
Proof.
  destruct (process_message_effects
              (λ e, match e with
                    | Submit d =>
                      (∃ items, d = JDict items) ∧
                      ∃ text, _default_on_event d = Ret (Log INFO text d)
                    | _ => True
                    end) s message) as (new & Hnew & Hall); [done | done | |].
  - intros data cmd Hcmd. destruct data; try discriminate Hcmd.
    split; [by eexists |]. unfold _default_on_event. simpl.
    destruct (py_eq_int _ 128); [by eexists |].
    destruct (negb _); by eexists.
  - exists new. split; [done |]. intros d Hin.
    rewrite Forall_forall in Hall. exact (Hall _ Hin).
Qed.

(** ** Signals *)

(** X21.  A signal closes the client for good: after [_signal_handler],
    on a client that was running or had its loop, [is_running] and the
    loop are gone, [_should_reconnect] stays false whatever happens
    later, so that [_reconnect_async] gives up at once, and a second
    signal only writes its log line. *)
Theorem signal_shuts_down_for_good (s : state) (signum : Z) (acts : list activity)
    (envs : list attempt_env) :
  is_running s = true ∨ ioloop s = true →
  is_running (_signal_handler s signum) = false ∧
  ioloop (_signal_handler s signum) = false ∧
  _should_reconnect (lifetime (_signal_handler s signum) acts) = false ∧
  ended (_reconnect_async (lifetime (_signal_handler s signum) acts) envs) = GaveUp ∧
  ∀ again,
    _signal_handler (_signal_handler s signum) again =
      emit (Log INFO "Signal received, initiating shutdown..." (JInt again))
        (_signal_handler s signum).
Proof.
  intros Hlive. unfold _signal_handler.
  set (s0 := emit (Log INFO "Signal received, initiating shutdown..." (JInt signum)) s).
  assert (is_running s0 = true ∨ ioloop s0 = true) as Hlive0 by exact Hlive.
  pose proof (close_clears_reconnect s0 Hlive0) as Hoff.
  assert (is_running (close s0) = false ∧ ioloop (close s0) = false) as [Hr Hi].
  { unfold close, s0. simpl.
    destruct (is_running s) eqn:Er, (ioloop s) eqn:Ei; simpl; by rewrite ?Ei. }
  destruct (steady_lifetime acts (close s0)) as (Hkeep & _).
  specialize (Hkeep Hoff).
  repeat apply conj; try done.
  - unfold _reconnect_async. cbv zeta.
    assert (_should_reconnect
              (close_ws (stop_heartbeat (set_is_running false (lifetime (close s0) acts))))
            = false) as Hpro.
    { unfold close_ws, stop_heartbeat.
      destruct (heartbeat_callback (set_is_running false _)); simpl;
        destruct (ws _); simpl; exact Hkeep. }
    destruct envs; simpl; by rewrite Hpro.
  - intros again. unfold close at 1. simpl. by rewrite Hr, Hi.
Qed.

Lemma signal_shuts_down_for_good_witness :
  ended (_reconnect_async (lifetime (_signal_handler online 15) [Atomic OpHeartbeat])
           [accepted]) = GaveUp.
Proof.
  apply (signal_shuts_down_for_good online 15 [Atomic OpHeartbeat] [accepted]).
  by left.
Defined.

(** ** The heartbeat across a reconnect *)







